(** * Patient allocator: the 5-phase allocation of [src/allocation.py]

    A shallow embedding of [models.Physician] and of
    [allocation.allocate_patients], followed by the properties of the
    allocation that the specification states.

    Modelling conventions.
    - Python integers are unbounded: they are [Z].
    - The roster is a Python list of distinct mutable [Physician] objects.
      It is modelled as a store, [list Physician]; an object is identified
      with its position in the roster, and every derived list of the source
      ([team_A], [team_B_sorted], [sorted_physicians], ...) is a list of
      positions into that one store, so that a mutation made through any of
      them is seen through all of them.
    - The dictionaries keyed by name ([initial_counts], ...) are
      [gmap string Z]; a dict comprehension inserts in list order, so a
      later entry with the same name replaces an earlier one.
    - [sorted] is stable; it is an insertion sort on decorated keys.
    - Exceptions and loops: every phase returns an [outcome]. [Raised] is a
      Python exception ([remove_patient] below zero, a missing dictionary
      key); [OutOfFuel] marks a [while] loop of the model that ran out of
      its iteration budget.  The theorems show that neither happens. *)

From Stdlib Require Import ZArith String List Lia Bool.
From stdpp Require Import base list gmap strings.

Local Open Scope string_scope.
Local Open Scope Z_scope.

(** ** models.py: the Physician record *)

Record Physician := mkPhysician {
  name : string;
  is_new : bool;
  team : string;
  is_buffer : bool;
  is_working : bool;
  yesterday : string;
  total_patients : Z;
  step_down_patients : Z;
  transferred_patients : Z;
  traded_patients : Z
}.

Definition set_total_patients (n : Z) (p : Physician) : Physician :=
  mkPhysician (name p) (is_new p) (team p) (is_buffer p) (is_working p)
    (yesterday p) n (step_down_patients p) (transferred_patients p)
    (traded_patients p).

Definition set_step_down_patients (n : Z) (p : Physician) : Physician :=
  mkPhysician (name p) (is_new p) (team p) (is_buffer p) (is_working p)
    (yesterday p) (total_patients p) n (transferred_patients p)
    (traded_patients p).

(** Outcome of a computation that may raise. *)
Inductive outcome (A : Type) : Type :=
| Ok (a : A)
| Raised (msg : string)
| OutOfFuel.
Arguments Ok {A} a.
Arguments Raised {A} msg.
Arguments OutOfFuel {A}.

Definition bind {A B} (c : outcome A) (k : A → outcome B) : outcome B :=
  match c with
  | Ok a => k a
  | Raised msg => Raised msg
  | OutOfFuel => OutOfFuel
  end.

Notation "x <- c1 ;; c2" := (bind c1 (fun x => c2))
  (at level 100, c1 at next level, right associativity).

(** [add_patient]: step-down patients do not count towards
    [total_patients]. *)
Definition add_patient (is_step_down : bool) (p : Physician) : Physician :=
  if is_step_down
  then set_step_down_patients (step_down_patients p + 1) p
  else set_total_patients (total_patients p + 1) p.

Definition remove_patient (is_step_down : bool) (p : Physician)
  : outcome Physician :=
  if is_step_down then
    if step_down_patients p <? 1
    then Raised "You don't have any step-down patients"
    else Ok (set_step_down_patients (step_down_patients p - 1) p)
  else
    if total_patients p <? 1
    then Raised "You don't have any patients"
    else Ok (set_total_patients (total_patients p - 1) p).

(** ** Python control structures *)

(** What the body of a [for] loop asks for: go on, or [break]. *)
Inductive ctl (S : Type) : Type :=
| Continue (s : S)
| Break (s : S).
Arguments Continue {S} s.
Arguments Break {S} s.

Definition ctl_val {S} (c : ctl S) : S :=
  match c with Continue s => s | Break s => s end.

(** [for i in l: body] over a loop state [s]. *)
Fixpoint for_each {I S} (body : I → S → outcome (ctl S)) (l : list I) (s : S)
  : outcome S :=
  match l with
  | [] => Ok s
  | i :: l' =>
      match body i s with
      | Ok (Continue s') => for_each body l' s'
      | Ok (Break s') => Ok s'
      | Raised msg => Raised msg
      | OutOfFuel => OutOfFuel
      end
  end.

(** [range(n)]: empty when [n <= 0]. *)
Definition range (n : Z) : list nat := seq 0 (Z.to_nat n).

(** [[f(x) for x in l]] where [f] may raise. *)
Fixpoint map_outcome {A B} (f : A → outcome B) (l : list A)
  : outcome (list B) :=
  match l with
  | [] => Ok []
  | x :: l' => y <- f x ;; ys <- map_outcome f l' ;; Ok (y :: ys)
  end.

(** [d[k]]: a missing key is a [KeyError]. *)
Definition dict_index (d : gmap string Z) (k : string) : outcome Z :=
  match d !! k with
  | Some v => Ok v
  | None => Raised "KeyError"
  end.

(** [d.get(k, dflt)] *)
Definition dict_get (d : gmap string Z) (k : string) (dflt : Z) : Z :=
  default dflt (d !! k).

(** [{k: v for ...}] from the list of its items, inserted in order. *)
Definition dict_of (items : list (string * Z)) : gmap string Z :=
  foldl (λ d kv, <[kv.1 := kv.2]> d) ∅ items.

(** ** sorted(): a stable sort on precomputed keys *)

Section Sorting.
Context {K : Type} (leb : K → K → bool).

Fixpoint insert_sorted (x : K * nat) (l : list (K * nat))
  : list (K * nat) :=
  match l with
  | [] => [x]
  | y :: l' =>
      if leb x.1 y.1 then x :: y :: l' else y :: insert_sorted x l'
  end.

Definition sort_decorated (l : list (K * nat)) : list (K * nat) :=
  foldr insert_sorted [] l.

(** [sorted(l, key=key)]: Python computes every key first, so a key that
    raises aborts the sort. *)
Definition sorted (key : nat → outcome K) (l : list nat)
  : outcome (list nat) :=
  keys <- map_outcome key l ;;
  Ok ((sort_decorated (zip keys l)).*2).
End Sorting.

(** Tuples compare lexicographically. *)
Definition leb2 (a b : Z * Z) : bool :=
  (a.1 <? b.1) || ((a.1 =? b.1) && (a.2 <=? b.2)).

Definition leb3 (a b : Z * Z * Z) : bool :=
  (a.1.1 <? b.1.1) ||
  ((a.1.1 =? b.1.1) && leb2 (a.1.2, a.2) (b.1.2, b.2)).

(** [reverse=True] keeps the original order of equal keys: it is the stable
    sort for the converse order. *)
Definition reverse_order {K} (leb : K → K → bool) : K → K → bool :=
  λ a b, leb b a.

(** ** allocation.py: the state of one run *)

(** The roster and the five pool counters that [allocate_patients]
    mutates. *)
Record State := mkState {
  roster : list Physician;
  n_total_new_patients : Z;
  n_A_new_patients : Z;
  n_B_new_patients : Z;
  n_N_new_patients : Z;
  n_step_down_patients : Z
}.

Inductive pool := PoolA | PoolB | PoolN.

Definition pool_count (k : pool) (s : State) : Z :=
  match k with
  | PoolA => n_A_new_patients s
  | PoolB => n_B_new_patients s
  | PoolN => n_N_new_patients s
  end.

(** [physician.add_patient(); n_X_new_patients -= 1;
    n_total_new_patients -= 1] *)
Definition take (k : pool) (physician : nat) (s : State) : State :=
  mkState (alter (add_patient false) physician (roster s))
    (n_total_new_patients s - 1)
    (match k with PoolA => n_A_new_patients s - 1 | _ => n_A_new_patients s end)
    (match k with PoolB => n_B_new_patients s - 1 | _ => n_B_new_patients s end)
    (match k with PoolN => n_N_new_patients s - 1 | _ => n_N_new_patients s end)
    (n_step_down_patients s).

(** [physician.add_patient(is_step_down=True);
    n_step_down_patients -= 1] *)
Definition give_step_down (physician : nat) (s : State) : State :=
  mkState (alter (add_patient true) physician (roster s))
    (n_total_new_patients s) (n_A_new_patients s) (n_B_new_patients s)
    (n_N_new_patients s) (n_step_down_patients s - 1).

Definition set_roster (l : list Physician) (s : State) : State :=
  mkState l (n_total_new_patients s) (n_A_new_patients s)
    (n_B_new_patients s) (n_N_new_patients s) (n_step_down_patients s).

(** The positions of a roster, in roster order. *)
Definition positions (l : list Physician) : list nat := seq 0 (length l).

(** A test on the object at a position (positions of derived lists are
    always inside the roster). *)
Definition holds (f : Physician → bool) (l : list Physician) (i : nat)
  : bool :=
  from_option f false (l !! i).

(** The objects a list of positions stands for. *)
Definition objects (l : list Physician) (idxs : list nat) : list Physician :=
  omap (λ i, l !! i) idxs.

Definition sum_Z (l : list Z) : Z := foldr Z.add 0 l.

Definition team_is (t : string) (p : Physician) : bool := String.eqb (team p) t.

(** The team pool that the chain
    [if team == 'A' and n_A > 0 / elif team == 'B' and n_B > 0 /
     elif team == 'N' and n_N > 0] selects. *)
Definition own_pool (p : Physician) (s : State) : option pool :=
  if team_is "A" p && (0 <? n_A_new_patients s) then Some PoolA
  else if team_is "B" p && (0 <? n_B_new_patients s) then Some PoolB
  else if team_is "N" p && (0 <? n_N_new_patients s) then Some PoolN
  else None.

Section Allocation.
(** The parameters and the snapshots that the closures of
    [allocate_patients] capture. *)
Variables maximum_patients minimum_patients new_start_number : Z.
Variables initial_counts initial_stepdown_counts : gmap string Z.
Variables team_A team_B team_N : list nat.

Definition can_take_patient (physician : Physician) : bool :=
  total_patients physician <? maximum_patients.

Definition can_take_step_down (physician : Physician) : bool :=
  let initial_sd := dict_get initial_stepdown_counts (name physician) 0 in
  let gained_stepdown := step_down_patients physician - initial_sd in
  gained_stepdown <? 1.

(** *** Phase 1: step-down allocation *)

Definition step_down_key (l : list Physician) (i : nat) : outcome Z :=
  Ok (from_option
        (λ x, dict_get initial_stepdown_counts (name x)
                (step_down_patients x)) 0 (l !! i)).

Definition phase1_visit (physician : nat) (s : State)
  : outcome (ctl State) :=
  if n_step_down_patients s <=? 0 then Ok (Break s)
  else
    match roster s !! physician with
    | Some p =>
        if can_take_step_down p
        then Ok (Continue (give_step_down physician s))
        else Ok (Continue s)
    | None => Ok (Continue s)
    end.

Definition phase1 (s : State) : outcome State :=
  let working_team_B := List.filter (holds is_working (roster s)) team_B in
  let working_team_A := List.filter (holds is_working (roster s)) team_A in
  team_B_sorted <- sorted Z.leb (step_down_key (roster s)) working_team_B ;;
  s <- for_each phase1_visit team_B_sorted s ;;
  if 0 <? n_step_down_patients s then
    team_A_sorted <-
      sorted Z.leb (step_down_key (roster s)) working_team_A ;;
    for_each phase1_visit team_A_sorted s
  else Ok s.

(** *** Phase 2: fix below-minimum physicians *)

(** One turn of [for _ in range(min(needed, n_X_new_patients))]. *)
Definition phase2_fill (k : pool) (physician : nat) (_ : nat) (s : State)
  : outcome (ctl State) :=
  match roster s !! physician with
  | Some p =>
      if can_take_patient p
      then Ok (Continue (take k physician s))
      else Ok (Break s)
  | None => Ok (Break s)
  end.

Definition phase2_visit (physician : nat) (s : State)
  : outcome (ctl State) :=
  let threshold := minimum_patients - 2 in
  match roster s !! physician with
  | None => Ok (Continue s)
  | Some p =>
      if is_new p then Ok (Continue s)
      else if (total_patients p <=? threshold) && can_take_patient p then
        let needed := minimum_patients - total_patients p in
        if team_is "A" p then
          s' <- for_each (phase2_fill PoolA physician)
                  (range (Z.min needed (n_A_new_patients s))) s ;;
          Ok (Continue s')
        else if team_is "B" p then
          s' <- for_each (phase2_fill PoolB physician)
                  (range (Z.min needed (n_B_new_patients s))) s ;;
          Ok (Continue s')
        else if team_is "N" p then
          s' <- for_each (phase2_fill PoolN physician)
                  (range (Z.min needed (n_N_new_patients s))) s ;;
          Ok (Continue s')
        else Ok (Continue s)
      else Ok (Continue s)
  end.

Definition phase2 (s : State) : outcome State :=
  for_each phase2_visit (positions (roster s)) s.

(** *** Phase 3: fill new physicians to new_start_number *)

(** The fallback chain [if n_A > 0 / elif n_B > 0 / elif n_N > 0]. *)
Definition first_pool (s : State) : option pool :=
  if 0 <? n_A_new_patients s then Some PoolA
  else if 0 <? n_B_new_patients s then Some PoolB
  else if 0 <? n_N_new_patients s then Some PoolN
  else None.

(** [while needed > 0 and can_take_patient(physician)]: every turn that
    does not [break] decrements [needed]; [fuel] bounds the turns. *)
Fixpoint phase3_while (fuel : nat) (physician : nat) (needed : Z)
    (s : State) : outcome State :=
  match roster s !! physician with
  | None => Ok s
  | Some p =>
      if (0 <? needed) && can_take_patient p then
        match fuel with
        | O => OutOfFuel
        | S fuel' =>
            match own_pool p s with
            | Some k =>
                phase3_while fuel' physician (needed - 1)
                  (take k physician s)
            | None =>
                match first_pool s with
                | Some k =>
                    phase3_while fuel' physician (needed - 1)
                      (take k physician s)
                | None => Ok s
                end
            end
        end
      else Ok s
  end.

Definition phase3_visit (physician : nat) (s : State)
  : outcome (ctl State) :=
  match roster s !! physician with
  | None => Ok (Continue s)
  | Some p =>
      if is_new p then
        let needed := new_start_number - total_patients p in
        if needed <=? 0 then Ok (Continue s)
        else
          s' <- phase3_while (Z.to_nat needed) physician needed s ;;
          Ok (Continue s')
      else Ok (Continue s)
  end.

Definition phase3 (s : State) : outcome State :=
  for_each phase3_visit (positions (roster s)) s.

(** *** Phase 4: even distribution *)

(** [{p.name: p.total_patients - initial_counts[p.name] for p in ps}] *)
Definition current_gains_of (ps : list Physician)
  : outcome (gmap string Z) :=
  items <- map_outcome
             (λ p, initial <- dict_index initial_counts (name p) ;;
                   Ok (name p, total_patients p - initial)) ps ;;
  Ok (dict_of items).

(** Team N pool first, to the Team N physicians. *)
Definition team_N_visit (physician : nat) (s : State)
  : outcome (ctl State) :=
  if n_N_new_patients s <=? 0 then Ok (Break s)
  else
    match roster s !! physician with
    | Some p =>
        if can_take_patient p
        then Ok (Continue (take PoolN physician s))
        else Ok (Continue s)
    | None => Ok (Continue s)
    end.

(** The provisional ladder [target_additional_gains]. *)
Definition ladder_key (l : list Physician) (tag : gmap string Z) (i : nat)
  : outcome (Z * Z * Z) :=
  Ok (from_option
        (λ x, (dict_get tag (name x) 0,
               dict_get initial_counts (name x) (total_patients x),
               total_patients x)) (0, 0, 0) (l !! i)).

Definition ladder_visit (l : list Physician) (physician : nat)
    (acc : gmap string Z * Z) : outcome (ctl (gmap string Z * Z)) :=
  let '(target_additional_gains, patients_to_distribute) := acc in
  if patients_to_distribute <=? 0 then Ok (Break acc)
  else
    match l !! physician with
    | Some p =>
        Ok (Continue
              (<[name p := dict_get target_additional_gains (name p) 0 + 1]>
                 target_additional_gains,
               patients_to_distribute - 1))
    | None => Ok (Continue acc)
    end.

(** [while patients_to_distribute > 0] *)
Fixpoint ladder_while (fuel : nat) (l : list Physician)
    (sorted_physicians : list nat) (acc : gmap string Z * Z)
  : outcome (gmap string Z * Z) :=
  if 0 <? acc.2 then
    match fuel with
    | O => OutOfFuel
    | S fuel' =>
        sorted_by_additional <-
          sorted leb3 (ladder_key l acc.1) sorted_physicians ;;
        acc' <- for_each (ladder_visit l) sorted_by_additional acc ;;
        ladder_while fuel' l sorted_physicians acc'
    end
  else Ok acc.

Definition ladder (l : list Physician) (sorted_physicians : list nat)
    (num_physicians remaining_patients : Z) : outcome (gmap string Z) :=
  let target_additional_gains :=
    dict_of (map (λ p, (name p, 0)) (objects l sorted_physicians)) in
  let patients_to_distribute := remaining_patients in
  if remaining_patients <? num_physicians then
    r <- ladder_while (Z.to_nat patients_to_distribute) l sorted_physicians
           (target_additional_gains, patients_to_distribute) ;;
    Ok r.1
  else
    acc <- for_each (ladder_visit l) sorted_physicians
             (target_additional_gains, patients_to_distribute) ;;
    r <- ladder_while (Z.to_nat acc.2) l sorted_physicians acc ;;
    Ok r.1.

(** The normalized targets [target_total_gains]. *)
Definition target_total_gains_of (ps : list Physician)
    (base_final_gain remainder_final : Z) : gmap string Z :=
  dict_of (imap (λ i p, (name p,
                         if Z.of_nat i <? remainder_final
                         then base_final_gain + 1
                         else base_final_gain)) ps).

(** One physician of the targeted distribution loop; the loop state is
    [(s, remaining_after_targets, made_progress)].  The writes to
    [current_gains] in this loop are never read again and are left out. *)
Definition phase4_visit (target_total_gains : gmap string Z)
    (physician : nat) (acc : State * Z * bool)
  : outcome (ctl (State * Z * bool)) :=
  let '(s, remaining_after_targets, made_progress) := acc in
  match roster s !! physician with
  | None => Ok (Continue acc)
  | Some p =>
      if is_new p then Ok (Continue acc)
      else
        let target_total_gain := dict_get target_total_gains (name p) 0 in
        initial <- dict_index initial_counts (name p) ;;
        let actual_current_gain := total_patients p - initial in
        let needed := target_total_gain - actual_current_gain in
        if (needed <=? 0) || negb (can_take_patient p)
        then Ok (Continue acc)
        else
          let may_take :=
            can_take_patient p &&
            (actual_current_gain <? target_total_gain) in
          let taken k :=
            Ok (Continue (take k physician s,
                          remaining_after_targets - 1, true)) in
          let other_pools :=
            if (actual_current_gain <? target_total_gain) &&
               can_take_patient p then
              let can_use_other_pools :=
                is_buffer p ||
                (team_is "A" p && (n_A_new_patients s =? 0)) ||
                (team_is "B" p && (n_B_new_patients s =? 0)) ||
                (team_is "N" p && (n_N_new_patients s =? 0)) in
              if can_use_other_pools then
                if (0 <? n_A_new_patients s) && may_take then taken PoolA
                else if (0 <? n_B_new_patients s) && may_take
                then taken PoolB
                else if (0 <? n_N_new_patients s) && may_take
                then taken PoolN
                else Ok (Continue acc)
              else Ok (Continue acc)
            else Ok (Continue acc) in
          match own_pool p s with
          | Some k => if may_take then taken k else other_pools
          | None => other_pools
          end
  end.

(** [while remaining_after_targets > 0 and iteration < max_iterations] *)
Fixpoint phase4_while (fuel : nat) (target_total_gains : gmap string Z)
    (sorted_physicians : list nat) (max_iterations iteration : Z)
    (acc : State * Z) : outcome State :=
  let '(s, remaining_after_targets) := acc in
  if (0 <? remaining_after_targets) && (iteration <? max_iterations) then
    match fuel with
    | O => OutOfFuel
    | S fuel' =>
        let iteration := iteration + 1 in
        r <- for_each (phase4_visit target_total_gains) sorted_physicians
               (s, remaining_after_targets, false) ;;
        let '(s, _, made_progress) := r in
        if negb made_progress then Ok s
        else
          let remaining_after_targets :=
            n_A_new_patients s + n_B_new_patients s + n_N_new_patients s in
          phase4_while fuel' target_total_gains sorted_physicians
            max_iterations iteration (s, remaining_after_targets)
    end
  else Ok s.

(** Final pass; the loop state is [(s, remaining_final)]. *)
Definition need_key (target_total_gains : gmap string Z)
    (l : list Physician) (i : nat) : outcome (Z * Z) :=
  match l !! i with
  | Some x =>
      initial <- dict_index initial_counts (name x) ;;
      Ok (dict_get target_total_gains (name x) 0
            - (total_patients x - initial),
          total_patients x)
  | None => Ok (0, 0)
  end.

Definition final_visit (target_total_gains : gmap string Z)
    (physician : nat) (acc : State * Z) : outcome (ctl (State * Z)) :=
  let '(s, remaining_final) := acc in
  match roster s !! physician with
  | None => Ok (Continue acc)
  | Some p =>
      if is_new p then Ok (Continue acc)
      else if remaining_final <=? 0 then Ok (Break acc)
      else
        let target := dict_get target_total_gains (name p) 0 in
        initial <- dict_index initial_counts (name p) ;;
        let actual_gain := total_patients p - initial in
        let needed := target - actual_gain in
        if (needed <=? 0) || negb (can_take_patient p)
        then Ok (Continue acc)
        else if (0 <? n_A_new_patients s) && (actual_gain <? target)
        then Ok (Continue (take PoolA physician s, remaining_final - 1))
        else if (0 <? n_B_new_patients s) && (actual_gain <? target)
        then Ok (Continue (take PoolB physician s, remaining_final - 1))
        else if (0 <? n_N_new_patients s) && (actual_gain <? target)
        then Ok (Continue (take PoolN physician s, remaining_final - 1))
        else Ok (Continue acc)
  end.

Definition initial_key (l : list Physician) (i : nat) : outcome (Z * Z) :=
  Ok (from_option
        (λ x, (dict_get initial_counts (name x) (total_patients x),
               total_patients x)) (0, 0) (l !! i)).

Definition total_key (l : list Physician) (i : nat) : outcome Z :=
  Ok (from_option total_patients 0 (l !! i)).

Definition pools_left (s : State) : Z :=
  n_A_new_patients s + n_B_new_patients s + n_N_new_patients s.

(** The body of [if remaining_patients > 0 and non_new_physicians]. *)
Definition phase4_distribute (non_new_physicians : list nat)
    (current_gains : gmap string Z) (remaining_patients : Z) (s : State)
  : outcome State :=
  let num_physicians := Z.of_nat (length non_new_physicians) in
  if 0 <? num_physicians then
    sorted_physicians <-
      sorted leb2 (initial_key (roster s)) non_new_physicians ;;
    let ps := objects (roster s) sorted_physicians in
    target_additional_gains <-
      ladder (roster s) sorted_physicians num_physicians
        remaining_patients ;;
    let total_current_gains_sum :=
      sum_Z (map (λ p, dict_get current_gains (name p) 0) ps) in
    let total_final_gains_needed :=
      total_current_gains_sum + remaining_patients in
    let base_final_gain := total_final_gains_needed `div` num_physicians in
    let remainder_final := total_final_gains_needed `mod` num_physicians in
    let target_total_gains :=
      target_total_gains_of ps base_final_gain remainder_final in
    let target_additional_gains :=
      foldl (λ d p,
               <[name p :=
                   Z.max 0 (dict_get target_total_gains (name p) 0
                            - dict_get current_gains (name p) 0)]> d)
        target_additional_gains ps in
    let remaining_after_targets := pools_left s in
    let max_iterations := remaining_after_targets * 3 in
    s <- phase4_while (Z.to_nat max_iterations) target_total_gains
           sorted_physicians max_iterations 0
           (s, remaining_after_targets) ;;
    let remaining_final := pools_left s in
    if 0 <? remaining_final then
      sorted_by_need <-
        sorted (reverse_order leb2) (need_key target_total_gains (roster s))
          sorted_physicians ;;
      r <- for_each (final_visit target_total_gains) sorted_by_need
             (s, remaining_final) ;;
      Ok r.1
    else Ok s
  else Ok s.

Definition not_new_with_room (p : Physician) : bool :=
  negb (is_new p) && can_take_patient p.

Definition not_new (p : Physician) : bool := negb (is_new p).

Definition nonempty {A} (l : list A) : bool :=
  match l with [] => false | _ => true end.

Definition phase4 (s : State) : outcome State :=
  let non_new_physicians :=
    List.filter (holds not_new_with_room (roster s))
      (positions (roster s)) in
  let non_new_physicians :=
    List.filter (holds not_new (roster s)) non_new_physicians in
  current_gains <-
    current_gains_of (objects (roster s) non_new_physicians) ;;
  let team_N_non_new :=
    List.filter (holds not_new_with_room (roster s)) team_N in
  s <- (if nonempty team_N_non_new && (0 <? n_N_new_patients s) then
          team_N_sorted <-
            sorted Z.leb (total_key (roster s)) team_N_non_new ;;
          for_each team_N_visit team_N_sorted s
        else Ok s) ;;
  current_gains <-
    current_gains_of (objects (roster s) non_new_physicians) ;;
  let remaining_patients := pools_left s in
  if (0 <? remaining_patients) && nonempty non_new_physicians then
    phase4_distribute non_new_physicians current_gains remaining_patients s
  else Ok s.

(** *** Phase 5: final verification *)

Definition phase5_visit (physician : nat) (s : State)
  : outcome (ctl State) :=
  match roster s !! physician with
  | None => Ok (Continue s)
  | Some p =>
      if is_new p then
        let initial_total :=
          dict_get initial_counts (name p) (total_patients p) in
        let current_total := total_patients p in
        let gained := current_total - initial_total in
        if new_start_number <=? initial_total then
          if 0 <? gained then
            let excess := gained in
            p' <- for_each (λ _ q, q' <- remove_patient false q ;;
                                   Ok (Continue q'))
                    (range excess) p ;;
            Ok (Continue
                  (set_roster
                     (<[physician := set_total_patients initial_total p']>
                        (roster s)) s))
          else Ok (Continue s)
        else Ok (Continue s)
      else Ok (Continue s)
  end.

Definition phase5 (s : State) : outcome State :=
  for_each phase5_visit (positions (roster s)) s.

(** Phases 1 to 5 in order. *)
Definition run_phases (s : State) : outcome State :=
  s <- phase1 s ;;
  s <- phase2 s ;;
  s <- phase3 s ;;
  s <- phase4 s ;;
  phase5 s.

End Allocation.

(** ** The value that [allocate_patients] returns *)

Record ResultRow := mkResultRow {
  row_name : string;
  row_yesterday : string;
  row_team : string;
  row_is_new : bool;
  row_is_buffer : bool;
  row_is_working : bool;
  original_total_patients : Z;
  row_total_patients : Z;
  original_step_down : Z;
  row_step_down_patients : Z;
  row_transferred_patients : Z;
  row_traded_patients : Z;
  gained : Z;
  gained_step_down : Z;
  gained_plus_traded : Z
}.

Record Summary := mkSummary {
  team_a_total : Z;
  team_b_total : Z;
  team_n_total : Z;
  team_a_gained : Z;
  team_b_gained : Z;
  team_n_gained : Z;
  team_a_stepdown_gained : Z;
  team_b_stepdown_gained : Z;
  team_n_stepdown_gained : Z;
  team_a_traded : Z;
  team_b_traded : Z;
  total_census : Z;
  total_stepdown : Z;
  total_gained : Z
}.

Record RemainingPools := mkRemainingPools {
  rem_total_new_patients : Z;
  rem_A_new_patients : Z;
  rem_B_new_patients : Z;
  rem_N_new_patients : Z;
  rem_step_down_patients : Z
}.

(** The returned dictionary, together with the roster as the caller sees it
    after the in-place mutation. *)
Record Allocation := mkAllocation {
  final_roster : list Physician;
  results : list ResultRow;
  summary : Summary;
  remaining_pools : RemainingPools
}.

Definition result_row (initial_counts initial_stepdown_counts : gmap string Z)
    (physician : Physician) : ResultRow :=
  let original_total := dict_get initial_counts (name physician) 0 in
  let original_stepdown :=
    dict_get initial_stepdown_counts (name physician) 0 in
  let gained := total_patients physician - original_total in
  let gained_stepdown := step_down_patients physician - original_stepdown in
  mkResultRow (name physician) (yesterday physician) (team physician)
    (is_new physician) (is_buffer physician) (is_working physician)
    original_total (total_patients physician)
    original_stepdown (step_down_patients physician)
    (transferred_patients physician) (traded_patients physician)
    gained gained_stepdown (gained + traded_patients physician).

Definition summarize (results : list ResultRow) : Summary :=
  let on_team t := List.filter (λ r, String.eqb (row_team r) t) results in
  let team_a_results := on_team "A" in
  let team_b_results := on_team "B" in
  let team_n_results := on_team "N" in
  let total f rs := sum_Z (map f rs) in
  mkSummary
    (total row_total_patients team_a_results)
    (total row_total_patients team_b_results)
    (total row_total_patients team_n_results)
    (total gained team_a_results)
    (total gained team_b_results)
    (total gained team_n_results)
    (total gained_step_down team_a_results)
    (total gained_step_down team_b_results)
    (total gained_step_down team_n_results)
    (total row_traded_patients team_a_results)
    (total row_traded_patients team_b_results)
    (total row_total_patients results)
    (total row_step_down_patients results)
    (total gained results).

(** [{p.name: f(p) for p in physicians}] *)
Definition snapshot (f : Physician → Z) (physicians : list Physician)
  : gmap string Z :=
  dict_of (map (λ p, (name p, f p)) physicians).

Definition team_positions (t : string) (physicians : list Physician)
  : list nat :=
  List.filter (holds (team_is t) physicians) (positions physicians).

(** The ["remaining_pools"] entry: the five counters as the run left
    them. *)
Definition remaining_pools_of (s : State) : RemainingPools :=
  mkRemainingPools (n_total_new_patients s) (n_A_new_patients s)
    (n_B_new_patients s) (n_N_new_patients s) (n_step_down_patients s).

(** ** allocate_patients *)

Definition allocate_patients (physicians : list Physician)
    (n_total_new_patients n_A_new_patients n_B_new_patients
     n_N_new_patients new_start_number minimum_patients
     n_step_down_patients maximum_patients : Z) : outcome Allocation :=
  let initial_counts := snapshot total_patients physicians in
  let team_A := team_positions "A" physicians in
  let team_B := team_positions "B" physicians in
  let team_N := team_positions "N" physicians in
  let initial_stepdown_counts := snapshot step_down_patients physicians in
  s <- run_phases maximum_patients minimum_patients new_start_number
         initial_counts initial_stepdown_counts team_A team_B team_N
         (mkState physicians n_total_new_patients n_A_new_patients
            n_B_new_patients n_N_new_patients n_step_down_patients) ;;
  let results :=
    map (result_row initial_counts initial_stepdown_counts) (roster s) in
  Ok (mkAllocation (roster s) results (summarize results)
        (remaining_pools_of s)).

(** ** The transfers a run is made of *)

(** What the run never changes in a physician. *)
Definition static (p : Physician)
  : string * bool * string * bool * bool * string * Z * Z :=
  (name p, is_new p, team p, is_buffer p, is_working p, yesterday p,
   transferred_patients p, traded_patients p).

Definition census (l : list Physician) : Z := sum_Z (map total_patients l).

Definition step_down_census (l : list Physician) : Z :=
  sum_Z (map step_down_patients l).

Section Transfers.
Variables maximum_patients new_start_number : Z.
Variable initial_stepdown_counts : gmap string Z.

(** A physician that phases 2 to 4 may serve: not a new physician that
    is already at [new_start_number]. *)
Definition served (p : Physician) : Prop :=
  is_new p = false ∨ total_patients p < new_start_number.

(** One unit leaves a pool and reaches a physician. *)
Inductive transfer : State → State → Prop :=
| transfer_take k i p s :
    roster s !! i = Some p →
    total_patients p < maximum_patients →
    0 < pool_count k s →
    served p →
    transfer s (take k i s)
| transfer_step_down i p s :
    roster s !! i = Some p →
    step_down_patients p
      - dict_get initial_stepdown_counts (name p) 0 < 1 →
    0 < n_step_down_patients s →
    transfer s (give_step_down i s).

(** How one physician may differ after some transfers. *)
Record grew (p0 p : Physician) : Prop := mkGrew {
  grew_static : static p = static p0;
  grew_total_lower : total_patients p0 ≤ total_patients p;
  grew_total_upper :
    total_patients p ≤ Z.max (total_patients p0) maximum_patients;
  grew_frozen :
    is_new p0 = true → new_start_number ≤ total_patients p0 →
    total_patients p = total_patients p0;
  grew_step_down_lower : step_down_patients p0 ≤ step_down_patients p;
  grew_step_down_upper :
    step_down_patients p
      - dict_get initial_stepdown_counts (name p0) 0
    ≤ Z.max (step_down_patients p0
             - dict_get initial_stepdown_counts (name p0) 0) 1
}.

(** How a state may differ after some transfers. *)
Record evolved (s0 s : State) : Prop := mkEvolved {
  evolved_roster : Forall2 grew (roster s0) (roster s);
  evolved_census :
    census (roster s) + n_total_new_patients s
    = census (roster s0) + n_total_new_patients s0;
  evolved_step_down :
    step_down_census (roster s) + n_step_down_patients s
    = step_down_census (roster s0) + n_step_down_patients s0;
  evolved_lockstep :
    n_total_new_patients s0 - n_total_new_patients s
    = (n_A_new_patients s0 - n_A_new_patients s)
      + (n_B_new_patients s0 - n_B_new_patients s)
      + (n_N_new_patients s0 - n_N_new_patients s);
  evolved_A : Z.min 0 (n_A_new_patients s0) ≤ n_A_new_patients s
              ∧ n_A_new_patients s ≤ n_A_new_patients s0;
  evolved_B : Z.min 0 (n_B_new_patients s0) ≤ n_B_new_patients s
              ∧ n_B_new_patients s ≤ n_B_new_patients s0;
  evolved_N : Z.min 0 (n_N_new_patients s0) ≤ n_N_new_patients s
              ∧ n_N_new_patients s ≤ n_N_new_patients s0;
  evolved_SD : Z.min 0 (n_step_down_patients s0) ≤ n_step_down_patients s
               ∧ n_step_down_patients s ≤ n_step_down_patients s0
}.
End Transfers.

(** Every name of the roster is a key of the dictionary [d]. *)
Definition known_names (d : gmap string Z) (l : list Physician) : Prop :=
  Forall (λ p, is_Some (d !! name p)) l.

(** What phase 5 may do to a physician: lower [total_patients]. *)
Definition trimmed (p p' : Physician) : Prop :=
  static p' = static p
  ∧ step_down_patients p' = step_down_patients p
  ∧ total_patients p' ≤ total_patients p.

(** One removal from a team pool, as every site of phases 2 to 4 performs
    it: a unit leaves the team pool [k], which held one, and the total with
    it, and reaches the physician at position [i]; the other team pools and
    the step-down pool stay as they are. *)
Inductive unit_removed : State → State → Prop :=
| unit_removed_intro k i s s' :
    0 < pool_count k s →
    roster s' = alter (add_patient false) i (roster s) →
    pool_count k s' = pool_count k s - 1 →
    (∀ k', k' ≠ k → pool_count k' s' = pool_count k' s) →
    n_total_new_patients s' = n_total_new_patients s - 1 →
    n_step_down_patients s' = n_step_down_patients s →
    unit_removed s s'.

(** The pool of a team. *)
Definition team_pool (t : string) : option pool :=
  if String.eqb t "A" then Some PoolA
  else if String.eqb t "B" then Some PoolB
  else if String.eqb t "N" then Some PoolN
  else None.

(** ** Forgetting who is working *)

Definition set_is_working (w : bool) (p : Physician) : Physician :=
  mkPhysician (name p) (is_new p) (team p) (is_buffer p) w (yesterday p)
    (total_patients p) (step_down_patients p) (transferred_patients p)
    (traded_patients p).

(** The same state with every physician marked as working: two states with
    the same image differ in their [is_working] flags at most. *)
Definition all_working (s : State) : State :=
  set_roster (set_is_working true <$> roster s) s.

Definition outcome_map {A B} (f : A → B) (o : outcome A) : outcome B :=
  match o with
  | Ok a => Ok (f a)
  | Raised msg => Raised msg
  | OutOfFuel => OutOfFuel
  end.

Definition ctl_map {S T} (f : S → T) (c : ctl S) : ctl T :=
  match c with
  | Continue s => Continue (f s)
  | Break s => Break (f s)
  end.

(** ** models.py: the rest of the Physician class *)

Definition set_transferred_patient (n : Z) (p : Physician) : Physician :=
  mkPhysician (name p) (is_new p) (team p) (is_buffer p) (is_working p)
    (yesterday p) (total_patients p) (step_down_patients p) n
    (traded_patients p).

Definition set_traded_patients (n : Z) (p : Physician) : Physician :=
  mkPhysician (name p) (is_new p) (team p) (is_buffer p) (is_working p)
    (yesterday p) (total_patients p) (step_down_patients p)
    (transferred_patients p) n.

(** The counter that [add_patient] and [remove_patient] work on. *)
Definition patient_count (is_step_down : bool) (p : Physician) : Z :=
  if is_step_down then step_down_patients p else total_patients p.

(** A value bound to a key that is not one of the ten. *)
Inductive value :=
| VStr (s : string)
| VBool (b : bool)
| VInt (n : Z).

(** The dictionaries of [to_dict] and [from_dict]: the ten keys, each
    absent ([None]) or bound to a value of the type of its field, and the
    bindings of all other keys. *)
Record PhysicianDict := mkPhysicianDict {
  key_name : option string;
  key_yesterday : option string;
  key_team : option string;
  key_is_new : option bool;
  key_is_buffer : option bool;
  key_is_working : option bool;
  key_total_patients : option Z;
  key_step_down_patients : option Z;
  key_transferred_patients : option Z;
  key_traded_patients : option Z;
  other_keys : gmap string value
}.

Definition to_dict (p : Physician) : PhysicianDict :=
  mkPhysicianDict (Some (name p)) (Some (yesterday p)) (Some (team p))
    (Some (is_new p)) (Some (is_buffer p)) (Some (is_working p))
    (Some (total_patients p)) (Some (step_down_patients p))
    (Some (transferred_patients p)) (Some (traded_patients p)) ∅.

(** [data.get(key, default)] for each of the ten keys; no other key is
    read. *)
Definition from_dict (data : PhysicianDict) : Physician :=
  mkPhysician
    (default "" (key_name data))
    (default false (key_is_new data))
    (default "A" (key_team data))
    (default false (key_is_buffer data))
    (default true (key_is_working data))
    (default "" (key_yesterday data))
    (default 0 (key_total_patients data))
    (default 0 (key_step_down_patients data))
    (default 0 (key_transferred_patients data))
    (default 0 (key_traded_patients data)).

(** Each of the ten keys is present. *)
Definition complete (data : PhysicianDict) : Prop :=
  is_Some (key_name data) ∧ is_Some (key_yesterday data)
  ∧ is_Some (key_team data) ∧ is_Some (key_is_new data)
  ∧ is_Some (key_is_buffer data) ∧ is_Some (key_is_working data)
  ∧ is_Some (key_total_patients data)
  ∧ is_Some (key_step_down_patients data)
  ∧ is_Some (key_transferred_patients data)
  ∧ is_Some (key_traded_patients data).

(** ** prototypes/physician.py: the earlier Physician class *)

Module Prototype.

Record Physician := mkPhysician {
  name : string;
  is_new : bool;
  team : string;
  total_patients : Z;
  step_down_patients : Z;
  transferred_patients : Z;
  traded_patients : Z
}.

(** Here a step-down patient counts towards [total_patients] too. *)
Definition add_patient (is_step_down : bool) (p : Physician) : Physician :=
  mkPhysician (name p) (is_new p) (team p) (total_patients p + 1)
    (if is_step_down then step_down_patients p + 1
     else step_down_patients p)
    (transferred_patients p) (traded_patients p).

(** Only [total_patients] is tested before the removal. *)
Definition remove_patient (is_step_down : bool) (p : Physician)
  : outcome Physician :=
  if total_patients p <? 1 then Raised "You don't have any patients"
  else
    Ok (mkPhysician (name p) (is_new p) (team p) (total_patients p - 1)
          (if is_step_down then step_down_patients p - 1
           else step_down_patients p)
          (transferred_patients p) (traded_patients p)).

End Prototype.

(** ** Sample rosters *)

(** Two veterans per team, a new physician to onboard ([Bhatt]), a new
    physician already above the start number ([Cruz]) and a physician who is
    not working today ([Dey]). *)
Definition ward : list Physician :=
  [ mkPhysician "Abadi" false "A" false true "" 9 1 0 0;
    mkPhysician "Adhiakha" false "B" true true "" 10 2 0 0;
    mkPhysician "Nadir" false "N" false true "" 13 0 0 0;
    mkPhysician "Bhatt" true "B" false true "" 0 0 0 0;
    mkPhysician "Cruz" true "A" false true "" 12 0 0 0;
    mkPhysician "Dey" false "A" false false "" 4 0 0 1 ].

(** One Team B physician, working, with 5 patients. *)
Definition solo_B : list Physician :=
  [ mkPhysician "Ali" false "B" false true "" 5 0 0 0 ].

(** Two Team A physicians with 9 patients each; only the first is
    working. *)
Definition twins : list Physician :=
  [ mkPhysician "Arora" false "A" false true "" 9 0 0 0;
    mkPhysician "Aung" false "A" false false "" 9 0 0 0 ].

(** One Team A physician with no patients. *)
Definition solo_A : list Physician :=
  [ mkPhysician "Ahir" false "A" false true "" 0 0 0 0 ].

(** * Properties *)

(** ** Loops and sorting *)

Lemma for_each_inv {I S} (P : S → Prop) (body : I → S → outcome (ctl S))
    (l : list I) (s : S) :
  P s →
  (∀ i s, i ∈ l → P s → ∃ c, body i s = Ok c ∧ P (ctl_val c)) →
  ∃ s', for_each body l s = Ok s' ∧ P s'.
Proof.
  revert s. induction l as [|i l IH]; intros s Hs Hbody; simpl.
  - eauto.
  - destruct (Hbody i s) as (c & -> & Hc); [left | done |].
    destruct c as [s'|s']; simpl in Hc; [|eauto].
    apply IH; [done|]. intros j t Hj. apply Hbody. by right.
Qed.

Lemma for_each_post {I S} (P : S → Prop) (body : I → S → outcome (ctl S))
    (l : list I) (s s' : S) :
  P s →
  (∀ i s c, i ∈ l → P s → body i s = Ok c → P (ctl_val c)) →
  for_each body l s = Ok s' → P s'.
Proof.
  revert s. induction l as [|i l IH]; intros s Hs Hbody; simpl.
  - by intros [= <-].
  - destruct (body i s) as [[t|t]| |] eqn:E; try done.
    + apply IH; [eapply (Hbody i s (Continue t)); [left | done | done] |].
      intros j u c Hj. apply Hbody. by right.
    + intros [= <-]. eapply (Hbody i s (Break t)); [left | done | done].
Qed.

Lemma map_outcome_ok {A B} (f : A → outcome B) (l : list A) :
  (∀ x, x ∈ l → ∃ y, f x = Ok y) →
  ∃ ys, map_outcome f l = Ok ys ∧ length ys = length l.
Proof.
  induction l as [|x l IH]; intros Hf; simpl; [by exists []|].
  destruct (Hf x) as [y ->]; [left|]. simpl.
  destruct IH as (ys & -> & Hlen); [intros; apply Hf; by right|].
  exists (y :: ys). simpl. by rewrite Hlen.
Qed.

Lemma map_outcome_length {A B} (f : A → outcome B) (l : list A) ys :
  map_outcome f l = Ok ys → length ys = length l.
Proof.
  revert ys. induction l as [|x l IH]; intros ys; simpl; [by intros [= <-]|].
  destruct (f x); simpl; try done.
  destruct (map_outcome f l); simpl; try done.
  intros [= <-]. simpl. by rewrite (IH _ eq_refl).
Qed.

Lemma insert_sorted_perm {K} (leb : K → K → bool) x l :
  insert_sorted leb x l ≡ₚ x :: l.
Proof.
  induction l as [|y l IH]; simpl; [done|].
  destruct (leb x.1 y.1); [done|]. rewrite IH. apply Permutation_swap.
Qed.

Lemma sort_decorated_perm {K} (leb : K → K → bool) l :
  sort_decorated leb l ≡ₚ l.
Proof.
  induction l as [|x l IH]; simpl; [done|].
  by rewrite insert_sorted_perm, IH.
Qed.

Lemma sorted_perm {K} (leb : K → K → bool) key l r :
  sorted leb key l = Ok r → r ≡ₚ l.
Proof.
  unfold sorted. destruct (map_outcome key l) as [keys| |] eqn:E; try done.
  simpl. intros [= <-]. rewrite sort_decorated_perm.
  rewrite snd_zip; [done|]. apply map_outcome_length in E. lia.
Qed.

Lemma sorted_ok {K} (leb : K → K → bool) key l :
  (∀ i, i ∈ l → ∃ k, key i = Ok k) →
  ∃ r, sorted leb key l = Ok r ∧ r ≡ₚ l.
Proof.
  intros Hkey. destruct (map_outcome_ok key l Hkey) as (keys & E & _).
  assert (∃ r, sorted leb key l = Ok r) as [r Hr].
  { unfold sorted. rewrite E. simpl. eauto. }
  exists r. split; [done|]. by eapply sorted_perm.
Qed.

(** ** Transfers and what they preserve *)

Lemma sum_Z_alter (g : Physician → Z) f i l p :
  l !! i = Some p →
  sum_Z (map g (alter f i l)) = sum_Z (map g l) - g p + g (f p).
Proof.
  revert i. induction l as [|q l IH]; intros [|i]; simpl; try done.
  - intros [= ->]. lia.
  - intros H. change (list_alter f i l) with (alter f i l).
    rewrite (IH _ H). lia.
Qed.

Lemma static_fields p q :
  static p = static q →
  name p = name q ∧ is_new p = is_new q ∧ team p = team q
  ∧ is_buffer p = is_buffer q ∧ is_working p = is_working q.
Proof. unfold static. intros [= ? ? ? ? ? ? ? ?]. done. Qed.

Section TransferFacts.
Variables maximum_patients new_start_number : Z.
Variable initial_stepdown_counts : gmap string Z.

Local Abbreviation grew :=
  (grew maximum_patients new_start_number initial_stepdown_counts).
Local Abbreviation evolved :=
  (evolved maximum_patients new_start_number initial_stepdown_counts).
Local Abbreviation transfer :=
  (transfer maximum_patients new_start_number initial_stepdown_counts).
Local Abbreviation served := (served new_start_number).

Lemma grew_refl p : grew p p.
Proof. constructor; try done; lia. Qed.

Lemma grew_trans p0 p1 p2 : grew p0 p1 → grew p1 p2 → grew p0 p2.
Proof.
  intros [S1 L1 U1 F1 SL1 SU1] [S2 L2 U2 F2 SL2 SU2].
  destruct (static_fields _ _ S1) as (Hn & Hi & _).
  constructor.
  - congruence.
  - lia.
  - lia.
  - intros Hnew Hge. rewrite F2; [by apply F1 | congruence |].
    rewrite F1; done.
  - lia.
  - rewrite Hn in SU2. lia.
Qed.

Lemma grew_add_total p :
  total_patients p < maximum_patients → served p →
  grew p (add_patient false p).
Proof.
  intros Hroom Hserved. constructor; simpl; try done; try lia.
  intros Hnew Hge. destruct Hserved; [congruence | lia].
Qed.

Lemma grew_add_step_down p :
  step_down_patients p
    - dict_get initial_stepdown_counts (name p) 0 < 1 →
  grew p (add_patient true p).
Proof. intros H. constructor; simpl; try done; lia. Qed.

Lemma Forall2_grew_refl l : Forall2 grew l l.
Proof. induction l; constructor; auto using grew_refl. Qed.

Lemma Forall2_grew_trans l0 l1 l2 :
  Forall2 grew l0 l1 → Forall2 grew l1 l2 → Forall2 grew l0 l2.
Proof.
  intros H. revert l2. induction H; intros l2 H2; inversion H2; subst;
    constructor; eauto using grew_trans.
Qed.

Lemma Forall2_grew_alter f i l p :
  l !! i = Some p → grew p (f p) → Forall2 grew l (alter f i l).
Proof.
  revert i. induction l as [|q l IH]; intros [|i]; simpl; try done.
  - intros [= ->] H. constructor; auto using Forall2_grew_refl.
  - intros H1 H2. constructor; [apply grew_refl|].
    change (list_alter f i l) with (alter f i l). eauto.
Qed.

Lemma evolved_refl s : evolved s s.
Proof. constructor; auto using Forall2_grew_refl; lia. Qed.

Lemma evolved_trans s0 s1 s2 : evolved s0 s1 → evolved s1 s2 → evolved s0 s2.
Proof.
  intros [] []. constructor; eauto using Forall2_grew_trans; lia.
Qed.

Lemma transfer_evolved s s' : transfer s s' → evolved s s'.
Proof.
  intros [k i p t Hi Hroom Hpool Hserved | i p t Hi Hgain Hpool].
  - constructor; simpl.
    + eapply Forall2_grew_alter; eauto using grew_add_total.
    + unfold census. rewrite (sum_Z_alter _ _ _ _ _ Hi). simpl. lia.
    + unfold step_down_census. rewrite (sum_Z_alter _ _ _ _ _ Hi).
      simpl. lia.
    + destruct k; lia.
    + destruct k; simpl in Hpool; lia.
    + destruct k; simpl in Hpool; lia.
    + destruct k; simpl in Hpool; lia.
    + lia.
  - constructor; simpl; try lia.
    + eapply Forall2_grew_alter; eauto using grew_add_step_down.
    + unfold census. rewrite (sum_Z_alter _ _ _ _ _ Hi). simpl. lia.
    + unfold step_down_census. rewrite (sum_Z_alter _ _ _ _ _ Hi).
      simpl. lia.
Qed.

Lemma transfers_evolved s s' : rtc transfer s s' → evolved s s'.
Proof.
  induction 1; eauto using evolved_refl, evolved_trans, transfer_evolved.
Qed.

(** The physician at a position, before and after. *)
Lemma evolved_lookup s0 s i p :
  evolved s0 s → roster s !! i = Some p →
  ∃ p0, roster s0 !! i = Some p0 ∧ grew p0 p.
Proof.
  intros [H _ _ _ _ _ _ _] Hi.
  destruct (Forall2_lookup_r _ _ _ _ _ H Hi) as (p0 & ? & ?). eauto.
Qed.

Lemma evolved_lookup_l s0 s i p0 :
  evolved s0 s → roster s0 !! i = Some p0 →
  ∃ p, roster s !! i = Some p ∧ grew p0 p.
Proof.
  intros [H _ _ _ _ _ _ _] Hi.
  destruct (Forall2_lookup_l _ _ _ _ _ H Hi) as (p & ? & ?). eauto.
Qed.

Lemma evolved_length s0 s :
  evolved s0 s → length (roster s) = length (roster s0).
Proof. intros [H _ _ _ _ _ _ _]. symmetry. by eapply Forall2_length. Qed.

Lemma evolved_known_names d s0 s :
  evolved s0 s → known_names d (roster s0) → known_names d (roster s).
Proof.
  intros [H _ _ _ _ _ _ _]. unfold known_names. intros H0.
  induction H as [|p0 p l0 l Hg _ IH]; [done|].
  inversion H0; subst. constructor; [|auto].
  destruct (static_fields _ _ (grew_static _ _ _ _ _ Hg)) as (-> & _).
  done.
Qed.
End TransferFacts.

(** ** The phases are sequences of transfers *)

Ltac bools :=
  repeat match goal with
  | H : (_ && _) = true |- _ => apply andb_true_iff in H; destruct H
  | H : (_ || _) = false |- _ => apply orb_false_iff in H; destruct H
  | H : negb _ = true |- _ => apply negb_true_iff in H
  | H : negb _ = false |- _ => apply negb_false_iff in H
  | H : (_ <? _) = true |- _ => apply Z.ltb_lt in H
  | H : (_ <? _) = false |- _ => apply Z.ltb_ge in H
  | H : (_ <=? _) = true |- _ => apply Z.leb_le in H
  | H : (_ <=? _) = false |- _ => apply Z.leb_gt in H
  end.

Ltac stays := eexists; split; [reflexivity | simpl; apply rtc_refl].

Lemma lookup_take k i j s :
  roster (take k i s) !! j
  = (if decide (i = j) then add_patient false <$> roster s !! i
     else roster s !! j).
Proof. apply list_lookup_alter. Qed.

Lemma pool_count_take k i s : pool_count k (take k i s) = pool_count k s - 1.
Proof. by destruct k. Qed.

Lemma own_pool_positive p s k : own_pool p s = Some k → 0 < pool_count k s.
Proof.
  unfold own_pool. repeat case_match; intros [= <-]; bools; done.
Qed.

Lemma first_pool_positive s k : first_pool s = Some k → 0 < pool_count k s.
Proof.
  unfold first_pool. repeat case_match; intros [= <-]; bools; done.
Qed.

Lemma holds_filter f l idxs i :
  i ∈ List.filter (holds f l) idxs →
  ∃ p, l !! i = Some p ∧ f p = true.
Proof.
  rewrite list_elem_of_In, filter_In. intros [_ H]. unfold holds in H.
  destruct (l !! i) as [p|]; [eauto | done].
Qed.

Section PhaseFacts.
Variables maximum_patients minimum_patients new_start_number : Z.
Variables initial_counts initial_stepdown_counts : gmap string Z.
Variables team_A team_B team_N : list nat.

Local Abbreviation transfer :=
  (transfer maximum_patients new_start_number initial_stepdown_counts).
Local Abbreviation evolved :=
  (evolved maximum_patients new_start_number initial_stepdown_counts).
Local Abbreviation grew :=
  (grew maximum_patients new_start_number initial_stepdown_counts).
Local Abbreviation can_take_patient' := (can_take_patient maximum_patients).
Local Abbreviation phase1' :=
  (phase1 initial_stepdown_counts team_A team_B).
Local Abbreviation phase2' := (phase2 maximum_patients minimum_patients).
Local Abbreviation phase3' := (phase3 maximum_patients new_start_number).
Local Abbreviation phase4' :=
  (phase4 maximum_patients initial_counts team_N).
Local Abbreviation phase5' := (phase5 new_start_number initial_counts).

Lemma evolved_is_new s0 s i p0 p :
  rtc transfer s0 s → roster s0 !! i = Some p0 → roster s !! i = Some p →
  is_new p = is_new p0.
Proof.
  intros H%transfers_evolved H0 Hi.
  destruct (evolved_lookup _ _ _ _ _ _ _ H Hi) as (q & Hq & Hg).
  assert (q = p0) as -> by congruence.
  by destruct (static_fields _ _ (grew_static _ _ _ _ _ Hg)) as (_ & ? & _).
Qed.

(** *** Phase 1 *)

Lemma phase1_visit_transfers i s :
  ∃ c, phase1_visit initial_stepdown_counts i s = Ok c
       ∧ rtc transfer s (ctl_val c).
Proof.
  unfold phase1_visit.
  destruct (n_step_down_patients s <=? 0) eqn:Hsd; [stays|].
  destruct (roster s !! i) as [p|] eqn:Hi; [|stays].
  destruct (can_take_step_down _ p) eqn:Hc; [|stays].
  eexists; split; [reflexivity|]. simpl. apply rtc_once.
  unfold can_take_step_down in Hc. bools.
  eapply transfer_step_down; eauto.
Qed.

Lemma phase1_loop_transfers l s :
  ∃ s', for_each (phase1_visit initial_stepdown_counts) l s = Ok s'
        ∧ rtc transfer s s'.
Proof.
  apply (for_each_inv (rtc transfer s)); [apply rtc_refl|].
  intros i t _ Ht. destruct (phase1_visit_transfers i t) as (c & ? & ?).
  exists c. split; [done|]. by etrans.
Qed.

Lemma phase1_transfers s :
  ∃ s', phase1' s = Ok s' ∧ rtc transfer s s'.
Proof.
  unfold phase1.
  destruct (sorted_ok Z.leb (step_down_key initial_stepdown_counts (roster s))
              (List.filter (holds is_working (roster s)) team_B))
    as (bs & -> & _); [intros; eexists; reflexivity|]. simpl.
  destruct (phase1_loop_transfers bs s) as (s1 & -> & H1). simpl.
  destruct (0 <? n_step_down_patients s1); [|eauto].
  destruct (sorted_ok Z.leb
              (step_down_key initial_stepdown_counts (roster s1))
              (List.filter (holds is_working (roster s)) team_A))
    as (as_ & -> & _); [intros; eexists; reflexivity|]. simpl.
  destruct (phase1_loop_transfers as_ s1) as (s2 & -> & H2).
  exists s2. split; [done|]. by etrans.
Qed.

(** *** Phase 2 *)

Lemma phase2_fill_transfers k i l s :
  Z.of_nat (length l) ≤ Z.max 0 (pool_count k s) →
  (∀ p, roster s !! i = Some p → is_new p = false) →
  ∃ s', for_each (phase2_fill maximum_patients k i) l s = Ok s'
        ∧ rtc transfer s s'.
Proof.
  revert s. induction l as [|x l IH]; intros s Hlen Hnew; simpl; [stays|].
  unfold phase2_fill at 1.
  destruct (roster s !! i) as [p|] eqn:Hi; [|stays].
  destruct (can_take_patient _ p) eqn:Hroom; [|stays].
  unfold can_take_patient in Hroom. bools. simpl in Hlen.
  destruct (IH (take k i s)) as (s' & -> & Hs').
  - rewrite pool_count_take. lia.
  - intros q. rewrite lookup_take, decide_True, Hi by done.
    intros [= <-]. simpl. eauto.
  - exists s'. split; [done|]. eapply rtc_l; [|done].
    eapply transfer_take; eauto; [lia | left; eauto].
Qed.

Lemma range_length_le n m : Z.of_nat (length (range (Z.min n m))) ≤ Z.max 0 m.
Proof. unfold range. rewrite length_seq. lia. Qed.

Lemma phase2_visit_transfers i s :
  ∃ c, phase2_visit maximum_patients minimum_patients i s = Ok c
       ∧ rtc transfer s (ctl_val c).
Proof.
  unfold phase2_visit.
  destruct (roster s !! i) as [p|] eqn:Hi; [|stays].
  destruct (is_new p) eqn:Hnew; [stays|].
  destruct (_ && _); [|stays].
  assert (∀ q, roster s !! i = Some q → is_new q = false) as Hq
    by (intros q; rewrite Hi; by intros [= <-]).
  assert (∀ k n, ∃ c,
            (s' <- for_each (phase2_fill maximum_patients k i)
                     (range (Z.min n (pool_count k s))) s ;;
             Ok (Continue s')) = Ok c ∧ rtc transfer s (ctl_val c)) as Hfill.
  { intros k n.
    destruct (phase2_fill_transfers k i
                (range (Z.min n (pool_count k s))) s)
      as (s' & -> & Hs'); [apply range_length_le | done |].
    exists (Continue s'). done. }
  destruct (team_is "A" p); [apply (Hfill PoolA)|].
  destruct (team_is "B" p); [apply (Hfill PoolB)|].
  destruct (team_is "N" p); [apply (Hfill PoolN)|].
  stays.
Qed.

Lemma phase2_transfers s :
  ∃ s', phase2' s = Ok s' ∧ rtc transfer s s'.
Proof.
  apply (for_each_inv (rtc transfer s)); [apply rtc_refl|].
  intros i t _ Ht. destruct (phase2_visit_transfers i t) as (c & ? & ?).
  exists c. split; [done|]. by etrans.
Qed.

(** *** Phase 3 *)

Lemma phase3_while_transfers fuel i needed s :
  (Z.to_nat needed ≤ fuel)%nat →
  (∀ p, roster s !! i = Some p → needed = new_start_number - total_patients p) →
  ∃ s', phase3_while maximum_patients fuel i needed s = Ok s'
        ∧ rtc transfer s s'.
Proof.
  revert needed s. induction fuel as [|fuel IH]; intros needed s Hfuel Hn.
  - simpl. destruct (roster s !! i); [|stays].
    destruct (0 <? needed) eqn:E; [bools; lia | stays].
  - simpl. destruct (roster s !! i) as [p|] eqn:Hi; [|stays].
    destruct (_ && _) eqn:Hc; [|stays]. bools.
    unfold can_take_patient in *. bools.
    assert (∀ k, 0 < pool_count k s →
              ∃ s', phase3_while maximum_patients fuel i (needed - 1)
                      (take k i s) = Ok s' ∧ rtc transfer s s') as Htake.
    { intros k Hk. destruct (IH (needed - 1) (take k i s)) as (s' & ? & ?).
      - lia.
      - intros q. rewrite lookup_take, decide_True, Hi by done.
        intros [= <-]. simpl. rewrite (Hn p eq_refl). lia.
      - exists s'. split; [done|]. eapply rtc_l; [|done].
        eapply transfer_take; eauto. right. rewrite (Hn p eq_refl) in *.
        lia. }
    destruct (own_pool p s) as [k|] eqn:Hown.
    { apply Htake. by eapply own_pool_positive. }
    destruct (first_pool s) as [k|] eqn:Hfirst; [|stays].
    apply Htake. by eapply first_pool_positive.
Qed.

Lemma phase3_visit_transfers i s :
  ∃ c, phase3_visit maximum_patients new_start_number i s = Ok c
       ∧ rtc transfer s (ctl_val c).
Proof.
  unfold phase3_visit.
  destruct (roster s !! i) as [p|] eqn:Hi; [|stays].
  destruct (is_new p); [|stays].
  destruct (_ <=? 0); [stays|].
  destruct (phase3_while_transfers
              (Z.to_nat (new_start_number - total_patients p)) i
              (new_start_number - total_patients p) s) as (s' & -> & Hs').
  - lia.
  - intros q. rewrite Hi. by intros [= <-].
  - exists (Continue s'). done.
Qed.

Lemma phase3_transfers s :
  ∃ s', phase3' s = Ok s' ∧ rtc transfer s s'.
Proof.
  apply (for_each_inv (rtc transfer s)); [apply rtc_refl|].
  intros i t _ Ht. destruct (phase3_visit_transfers i t) as (c & ? & ?).
  exists c. split; [done|]. by etrans.
Qed.

(** *** Phase 4 *)

Lemma objects_elem l idxs p : p ∈ objects l idxs → p ∈ l.
Proof.
  unfold objects. rewrite list_elem_of_omap. intros (i & _ & Hi).
  by eapply list_elem_of_lookup_2.
Qed.

Lemma dict_index_known d l p :
  known_names d l → p ∈ l → ∃ v, dict_index d (name p) = Ok v.
Proof.
  unfold known_names. rewrite Forall_forall. intros H Hp.
  destruct (H p Hp) as [v Hv]. exists v. unfold dict_index. by rewrite Hv.
Qed.

Lemma current_gains_ok l idxs :
  known_names initial_counts l →
  ∃ d, current_gains_of initial_counts (objects l idxs) = Ok d.
Proof.
  intros Hk. unfold current_gains_of.
  destruct (map_outcome_ok
              (λ p, initial <- dict_index initial_counts (name p) ;;
                    Ok (name p, total_patients p - initial))
              (objects l idxs)) as (items & -> & _); [|simpl; eauto].
  intros p Hp%objects_elem.
  destruct (dict_index_known _ _ _ Hk Hp) as [v ->]. simpl. eauto.
Qed.

Lemma team_N_visit_transfers i s :
  (∀ p, roster s !! i = Some p → is_new p = false) →
  ∃ c, team_N_visit maximum_patients i s = Ok c ∧ rtc transfer s (ctl_val c).
Proof.
  intros Hnew. unfold team_N_visit.
  destruct (n_N_new_patients s <=? 0) eqn:Hpool; [stays|].
  destruct (roster s !! i) as [p|] eqn:Hi; [|stays].
  destruct (can_take_patient _ p) eqn:Hroom; [|stays].
  unfold can_take_patient in Hroom. bools.
  eexists; split; [reflexivity|]. simpl. apply rtc_once.
  eapply (transfer_take _ _ _ PoolN); eauto. left; eauto.
Qed.

(** The ladder loops end. *)
Lemma ladder_visit_le l idxs acc :
  ∃ acc', for_each (ladder_visit l) idxs acc = Ok acc' ∧ acc'.2 ≤ acc.2.
Proof.
  apply (for_each_inv (λ a, a.2 ≤ acc.2)); [lia|].
  intros i [tag n] _ Hn. unfold ladder_visit. simpl in *.
  destruct (n <=? 0); [eexists; split; [reflexivity|]; simpl; lia|].
  destruct (l !! i); eexists; (split; [reflexivity|]); simpl; lia.
Qed.

Lemma ladder_visit_lt l idxs acc :
  idxs ≠ [] → Forall (λ i, is_Some (l !! i)) idxs → 0 < acc.2 →
  ∃ acc', for_each (ladder_visit l) idxs acc = Ok acc' ∧ acc'.2 < acc.2.
Proof.
  destruct idxs as [|i idxs]; [done|]. intros _ Hin Hpos.
  inversion Hin as [|? ? [p Hp] _]; subst. destruct acc as [tag n].
  simpl in *. destruct (n <=? 0) eqn:E; [bools; lia|]. rewrite Hp.
  destruct (ladder_visit_le l idxs
              (<[name p := dict_get tag (name p) 0 + 1]> tag, n - 1))
    as (acc' & -> & Hle).
  exists acc'. split; [done|]. simpl in Hle. lia.
Qed.

Lemma ladder_while_ok fuel l idxs acc :
  idxs ≠ [] → Forall (λ i, is_Some (l !! i)) idxs →
  (Z.to_nat acc.2 ≤ fuel)%nat →
  ∃ r, ladder_while initial_counts fuel l idxs acc = Ok r.
Proof.
  intros Hne Hin. revert acc.
  induction fuel as [|fuel IH]; intros acc Hfuel; simpl.
  - destruct (0 <? acc.2) eqn:E; [bools; lia | eauto].
  - destruct (0 <? acc.2) eqn:E; [bools | eauto].
    destruct (sorted_ok leb3 (ladder_key initial_counts l acc.1) idxs)
      as (r & -> & Hperm); [intros; eexists; reflexivity|]. simpl.
    destruct (ladder_visit_lt l r acc) as (acc' & -> & Hlt).
    + intros ->. apply Permutation_nil_l in Hperm. done.
    + by rewrite Hperm.
    + done.
    + simpl. apply IH. lia.
Qed.

Lemma ladder_ok l idxs num_physicians remaining :
  idxs ≠ [] → Forall (λ i, is_Some (l !! i)) idxs →
  ∃ r, ladder initial_counts l idxs num_physicians remaining = Ok r.
Proof.
  intros Hne Hin. unfold ladder. destruct (remaining <? num_physicians).
  - edestruct (ladder_while_ok (Z.to_nat remaining) l idxs) as [r ->];
      [done | done | | simpl; eauto]. simpl. lia.
  - edestruct (ladder_visit_le l idxs) as (acc & -> & _). simpl.
    edestruct (ladder_while_ok (Z.to_nat acc.2) l idxs acc) as [r ->];
      [done | done | lia | simpl; eauto].
Qed.

Lemma known_lookup l i p :
  known_names initial_counts l → l !! i = Some p →
  ∃ v, dict_index initial_counts (name p) = Ok v.
Proof.
  intros Hk Hi. eapply dict_index_known; [done|].
  by eapply list_elem_of_lookup_2.
Qed.

Ltac takes :=
  eexists; split; [reflexivity|]; simpl; apply rtc_once;
  eapply transfer_take;
  [ eassumption
  | unfold can_take_patient in *; bools; lia
  | simpl; first [lia | eauto using own_pool_positive]
  | left; done ].

Lemma phase4_visit_transfers ttg i s r m :
  known_names initial_counts (roster s) →
  ∃ c, phase4_visit maximum_patients initial_counts ttg i (s, r, m) = Ok c
       ∧ rtc transfer s (ctl_val c).1.1.
Proof.
  intros Hk. unfold phase4_visit.
  destruct (roster s !! i) as [p|] eqn:Hi; [|stays].
  destruct (is_new p) eqn:Hnew; [stays|].
  destruct (known_lookup _ _ _ Hk Hi) as [v ->]. simpl.
  destruct (_ || _) eqn:Hskip; [stays|]. bools.
  destruct (own_pool p s) as [k|] eqn:Hown.
  - destruct (_ && _) eqn:Hmay at 1; [takes|].
    repeat (case_match; try stays); bools; takes.
  - repeat (case_match; try stays); bools; takes.
Qed.

Lemma transfers_known_names s s' :
  rtc transfer s s' → known_names initial_counts (roster s) →
  known_names initial_counts (roster s').
Proof. intros H%transfers_evolved. by eapply evolved_known_names. Qed.

Lemma phase4_pass_transfers ttg idxs s r m :
  known_names initial_counts (roster s) →
  ∃ acc, for_each (phase4_visit maximum_patients initial_counts ttg) idxs
           (s, r, m) = Ok acc
         ∧ rtc transfer s acc.1.1.
Proof.
  intros Hk.
  apply (for_each_inv (λ acc : State * Z * bool, rtc transfer s acc.1.1));
    [apply rtc_refl|].
  intros i [[t r'] m'] _ Ht. simpl in Ht.
  destruct (phase4_visit_transfers ttg i t r' m') as (c & ? & ?);
    [by eapply transfers_known_names|].
  exists c. split; [done|]. by etrans.
Qed.

Lemma phase4_while_transfers fuel ttg idxs max_iterations iteration s r :
  known_names initial_counts (roster s) →
  (Z.to_nat (max_iterations - iteration) ≤ fuel)%nat →
  ∃ s', phase4_while maximum_patients initial_counts fuel ttg idxs
          max_iterations iteration (s, r) = Ok s'
        ∧ rtc transfer s s'.
Proof.
  revert iteration s r.
  induction fuel as [|fuel IH]; intros iteration s r Hk Hfuel; simpl.
  - destruct (_ && _) eqn:E; [bools; lia | stays].
  - destruct (_ && _) eqn:E; [bools | stays].
    destruct (phase4_pass_transfers ttg idxs s r false Hk)
      as ([[t r'] m] & -> & Ht). simpl in *.
    destruct m; simpl; [|eauto].
    destruct (IH (iteration + 1) t
                (n_A_new_patients t + n_B_new_patients t
                 + n_N_new_patients t)) as (s' & -> & Hs').
    + by eapply transfers_known_names.
    + lia.
    + exists s'. split; [done|]. by etrans.
Qed.

Lemma need_key_ok ttg l i :
  known_names initial_counts l →
  ∃ k, need_key initial_counts ttg l i = Ok k.
Proof.
  intros Hk. unfold need_key. destruct (l !! i) as [p|] eqn:Hi; [|eauto].
  destruct (known_lookup _ _ _ Hk Hi) as [v ->]. simpl. eauto.
Qed.

Lemma final_visit_transfers ttg i s r :
  known_names initial_counts (roster s) →
  ∃ c, final_visit maximum_patients initial_counts ttg i (s, r) = Ok c
       ∧ rtc transfer s (ctl_val c).1.
Proof.
  intros Hk. unfold final_visit.
  destruct (roster s !! i) as [p|] eqn:Hi; [|stays].
  destruct (is_new p) eqn:Hnew; [stays|].
  destruct (r <=? 0); [stays|].
  destruct (known_lookup _ _ _ Hk Hi) as [v ->]. simpl.
  destruct (_ || _) eqn:Hskip; [stays|]. bools.
  repeat (case_match; try stays); bools; takes.
Qed.

Lemma final_pass_transfers ttg idxs s r :
  known_names initial_counts (roster s) →
  ∃ acc, for_each (final_visit maximum_patients initial_counts ttg) idxs
           (s, r) = Ok acc
         ∧ rtc transfer s acc.1.
Proof.
  intros Hk.
  apply (for_each_inv (λ acc : State * Z, rtc transfer s acc.1));
    [apply rtc_refl|].
  intros i [t r'] _ Ht. simpl in Ht.
  destruct (final_visit_transfers ttg i t r') as (c & ? & ?);
    [by eapply transfers_known_names|].
  exists c. split; [done|]. by etrans.
Qed.

Lemma phase4_distribute_transfers non_new current_gains remaining s :
  known_names initial_counts (roster s) →
  Forall (λ i, is_Some (roster s !! i)) non_new →
  ∃ s', phase4_distribute maximum_patients initial_counts non_new
          current_gains remaining s = Ok s'
        ∧ rtc transfer s s'.
Proof.
  intros Hk Hin. unfold phase4_distribute.
  destruct (0 <? Z.of_nat (length non_new)) eqn:Hnum; [bools | stays].
  destruct (sorted_ok leb2 (initial_key initial_counts (roster s)) non_new)
    as (sp & -> & Hperm); [intros; eexists; reflexivity|]. simpl.
  edestruct (ladder_ok (roster s) sp) as [tag ->].
  { intros ->. apply Permutation_nil_l in Hperm. subst. simpl in Hnum. lia. }
  { by rewrite Hperm. }
  simpl.
  match goal with
  | |- context [phase4_while _ _ ?f ?ttg ?idxs ?mx ?it (?t, ?r)] =>
      destruct (phase4_while_transfers f ttg idxs mx it t r)
        as (s1 & -> & H1); [done | lia |]
  end.
  simpl. destruct (0 <? pools_left s1); [|eauto].
  assert (known_names initial_counts (roster s1)) as Hk1
    by (by eapply transfers_known_names).
  edestruct (sorted_ok (reverse_order leb2)) as (sn & -> & _);
    [intros; by apply need_key_ok|]. simpl.
  edestruct (final_pass_transfers) as ([s2 r2] & -> & H2); [done|].
  simpl in *. exists s2. split; [done|]. by etrans.
Qed.

Lemma phase4_transfers s :
  known_names initial_counts (roster s) →
  ∃ s', phase4' s = Ok s' ∧ rtc transfer s s'.
Proof.
  intros Hk. unfold phase4.
  set (non_new := List.filter (holds not_new (roster s)) _).
  destruct (current_gains_ok (roster s) non_new Hk) as [cg0 ->]. simpl.
  set (team_N_non_new := List.filter _ team_N).
  assert (∃ s1, (if nonempty team_N_non_new && (0 <? n_N_new_patients s)
                 then team_N_sorted <-
                        sorted Z.leb (total_key (roster s)) team_N_non_new ;;
                      for_each (team_N_visit maximum_patients)
                        team_N_sorted s
                 else Ok s) = Ok s1 ∧ rtc transfer s s1) as (s1 & -> & H1).
  { destruct (_ && _); [|stays].
    destruct (sorted_ok Z.leb (total_key (roster s)) team_N_non_new)
      as (ns & -> & Hperm); [intros; eexists; reflexivity|]. simpl.
    apply (for_each_inv (rtc transfer s)); [apply rtc_refl|].
    intros i t Hi Ht. rewrite Hperm in Hi.
    apply holds_filter in Hi as (p0 & Hp0 & Hf).
    destruct (team_N_visit_transfers i t) as (c & ? & ?).
    - intros p Hp. rewrite (evolved_is_new _ _ _ _ _ Ht Hp0 Hp).
      unfold not_new_with_room in Hf. bools. done.
    - exists c. split; [done|]. by etrans. }
  simpl.
  assert (known_names initial_counts (roster s1)) as Hk1
    by (by eapply transfers_known_names).
  destruct (current_gains_ok (roster s1) non_new Hk1) as [cg ->]. simpl.
  destruct (_ && _); [|eauto].
  edestruct (phase4_distribute_transfers non_new cg (pools_left s1) s1)
    as (s2 & -> & H2); [done | |].
  - apply Forall_forall. intros i Hi.
    apply holds_filter in Hi as (p0 & Hp0 & _).
    destruct (evolved_lookup_l _ _ _ _ _ _ _ (transfers_evolved _ _ _ _ _ H1)
                Hp0) as (p & -> & _). eauto.
  - exists s2. split; [done|]. by etrans.
Qed.

(** Phases 1 to 4 always run to their end, as a sequence of transfers. *)
Lemma run_phases_transfers s :
  known_names initial_counts (roster s) →
  ∃ s4, rtc transfer s s4
        ∧ run_phases maximum_patients minimum_patients new_start_number
            initial_counts initial_stepdown_counts team_A team_B team_N s
          = phase5' s4.
Proof.
  intros Hk. unfold run_phases.
  destruct (phase1_transfers s) as (s1 & -> & H1). simpl.
  destruct (phase2_transfers s1) as (s2 & -> & H2). simpl.
  destruct (phase3_transfers s2) as (s3 & -> & H3). simpl.
  destruct (phase4_transfers s3) as (s4 & -> & H4).
  { eapply transfers_known_names; [|done]. etrans; [|done]. by etrans. }
  exists s4. split; [|done]. etrans; [done|]. etrans; [done|]. by etrans.
Qed.

(** *** Phase 5 *)

Lemma remove_loop l p p' :
  for_each (λ (_ : nat) q, q' <- remove_patient false q ;; Ok (Continue q'))
    l p = Ok p' →
  p' = set_total_patients (total_patients p - Z.of_nat (length l)) p.
Proof.
  revert p. induction l as [|x l IH]; intros p; simpl.
  - intros [= <-]. destruct p; unfold set_total_patients; simpl.
    f_equal. lia.
  - unfold remove_patient. destruct (total_patients p <? 1); [done|].
    simpl. intros H%IH. subst p'. unfold set_total_patients; simpl.
    f_equal. lia.
Qed.

Lemma remove_loop_ok l p :
  Z.of_nat (length l) ≤ total_patients p →
  ∃ p', for_each (λ (_ : nat) q,
                    q' <- remove_patient false q ;; Ok (Continue q'))
          l p = Ok p'.
Proof.
  revert p. induction l as [|x l IH]; intros p Hlen; simpl; [eauto|].
  simpl in Hlen. unfold remove_patient.
  destruct (total_patients p <? 1) eqn:E; [bools; lia|]. simpl.
  apply IH. simpl. lia.
Qed.

(** A turn of phase 5 leaves the state as it is, or lowers the
    physician's total to the snapshot value. *)
Lemma phase5_visit_cases i s c :
  phase5_visit new_start_number initial_counts i s = Ok c →
  ctl_val c = s
  ∨ ∃ p, roster s !! i = Some p
         ∧ is_new p = true
         ∧ new_start_number ≤ dict_get initial_counts (name p) (total_patients p)
         ∧ dict_get initial_counts (name p) (total_patients p) < total_patients p
         ∧ ctl_val c
           = set_roster
               (<[i := set_total_patients
                         (dict_get initial_counts (name p) (total_patients p))
                         p]> (roster s)) s.
Proof.
  unfold phase5_visit.
  destruct (roster s !! i) as [p|] eqn:Hi; [|intros [= <-]; by left].
  destruct (is_new p) eqn:Hnew; [|intros [= <-]; by left].
  destruct (_ <=? _) eqn:Hge; [|intros [= <-]; by left].
  destruct (0 <? _) eqn:Hgain; [|intros [= <-]; by left].
  destruct (for_each _ _ p) as [p'| |] eqn:Hloop; try done. simpl.
  intros [= <-]. right. exists p. bools.
  apply remove_loop in Hloop. subst p'. simpl.
  repeat split; try done; lia.
Qed.

Lemma Forall2_trimmed_refl l : Forall2 trimmed l l.
Proof. induction l; constructor; [repeat split; lia | done]. Qed.

Lemma Forall2_trimmed_insert l i p v :
  l !! i = Some p → v ≤ total_patients p →
  Forall2 trimmed l (<[i := set_total_patients v p]> l).
Proof.
  revert i. induction l as [|q l IH]; intros [|i]; simpl; try done.
  - intros [= ->] Hv. constructor; [|apply Forall2_trimmed_refl].
    repeat split; simpl; done.
  - intros Hi Hv. constructor; [repeat split; lia|].
    change (list_insert i (set_total_patients v p) l)
      with (<[i := set_total_patients v p]> l). eauto.
Qed.

Lemma Forall2_trimmed_trans l0 l1 l2 :
  Forall2 trimmed l0 l1 → Forall2 trimmed l1 l2 → Forall2 trimmed l0 l2.
Proof.
  intros H. revert l2. induction H as [|p0 p1 ? ? (?&?&?)];
    intros l2 Hl2; inversion Hl2 as [|? p2 ? ? (?&?&?)]; subst;
    constructor; [|eauto].
  repeat split; [congruence | lia | lia].
Qed.

(** Phase 5 leaves the pools alone and only lowers totals. *)
Lemma phase5_trims s s' :
  phase5' s = Ok s' →
  Forall2 trimmed (roster s) (roster s')
  ∧ remaining_pools_of s' = remaining_pools_of s.
Proof.
  unfold phase5.
  apply (for_each_post
           (λ t, Forall2 trimmed (roster s) (roster t)
                 ∧ remaining_pools_of t = remaining_pools_of s)).
  - split; [apply Forall2_trimmed_refl | done].
  - intros i t c _ [Hr Hp] [->|(p & Hi & _ & _ & Hlt & ->)]%phase5_visit_cases;
      [done|].
    split; [|done]. simpl. eapply Forall2_trimmed_trans; [done|].
    apply Forall2_trimmed_insert; [done | lia].
Qed.

(** Phase 5 does nothing when no new physician at or above
    [new_start_number] is above its snapshot. *)
Lemma phase5_idle s :
  (∀ i p, roster s !! i = Some p → is_new p = true →
          new_start_number
            ≤ dict_get initial_counts (name p) (total_patients p) →
          total_patients p
            ≤ dict_get initial_counts (name p) (total_patients p)) →
  phase5' s = Ok s.
Proof.
  intros Hidle. unfold phase5.
  destruct (for_each_inv (λ t, t = s)
              (phase5_visit new_start_number initial_counts)
              (positions (roster s)) s eq_refl) as (s' & -> & ->); [|done].
  intros i t _ ->. unfold phase5_visit.
  destruct (roster s !! i) as [p|] eqn:Hi; [|eauto].
  destruct (is_new p) eqn:Hnew; [|eauto].
  destruct (_ <=? _) eqn:Hge; [|eauto]. bools.
  destruct (0 <? _) eqn:Hgain; [|eauto]. bools.
  specialize (Hidle i p Hi Hnew Hge). lia.
Qed.

(** Phase 5 never raises when no snapshot value is negative. *)
Lemma phase5_ok s :
  (∀ k v, initial_counts !! k = Some v → 0 ≤ v) →
  ∃ s', phase5' s = Ok s'.
Proof.
  intros Hpos. unfold phase5.
  destruct (for_each_inv (λ _, True)
              (phase5_visit new_start_number initial_counts)
              (positions (roster s)) s I) as (s' & -> & _); [|eauto].
  intros i t _ _. unfold phase5_visit.
  destruct (roster t !! i) as [p|] eqn:Hi; [|eauto].
  destruct (is_new p) eqn:Hnew; [|eauto].
  destruct (_ <=? _) eqn:Hge; [|eauto].
  destruct (0 <? _) eqn:Hgain; [|eauto]. bools.
  edestruct (remove_loop_ok
               (range (total_patients p
                       - dict_get initial_counts (name p) (total_patients p)))
               p) as [p' ->]; [|simpl; eauto].
  unfold range. rewrite length_seq.
  assert (0 ≤ dict_get initial_counts (name p) (total_patients p)); [|lia].
  unfold dict_get in *.
  destruct (initial_counts !! name p) as [v|] eqn:E; simpl in *;
    [eauto | lia].
Qed.
End PhaseFacts.

(** ** The snapshots *)

Lemma dict_of_snoc items kv :
  dict_of (items ++ [kv]) = <[kv.1 := kv.2]> (dict_of items).
Proof. unfold dict_of. by rewrite foldl_app. Qed.

Lemma dict_of_known items k :
  k ∈ items.*1 → is_Some (dict_of items !! k).
Proof.
  induction items as [|kv items IH] using rev_ind; [by intros ?%elem_of_nil|].
  rewrite fmap_app, elem_of_app, dict_of_snoc. simpl.
  destruct (decide (kv.1 = k)) as [->|Hne].
  - rewrite lookup_insert_eq. eauto.
  - rewrite lookup_insert_ne by done. intros [?|?%list_elem_of_singleton];
      [auto | congruence].
Qed.

Lemma dict_of_value items k v :
  dict_of items !! k = Some v → (k, v) ∈ items.
Proof.
  induction items as [|kv items IH] using rev_ind; [done|].
  rewrite dict_of_snoc, elem_of_app.
  destruct (decide (kv.1 = k)) as [<-|Hne].
  - rewrite lookup_insert_eq. intros [= <-]. right.
    destruct kv. apply list_elem_of_singleton. done.
  - rewrite lookup_insert_ne by done. auto.
Qed.

Lemma dict_of_unique items k v :
  NoDup items.*1 → (k, v) ∈ items → dict_of items !! k = Some v.
Proof.
  induction items as [|kv items IH] using rev_ind; [by intros _ ?%elem_of_nil|].
  rewrite fmap_app, NoDup_app, dict_of_snoc. simpl.
  intros (Hnd & Hfresh & _) [Hin | <-%list_elem_of_singleton]%elem_of_app.
  - rewrite lookup_insert_ne; [auto|].
    intros <-. eapply Hfresh; [|by apply list_elem_of_singleton].
    apply list_elem_of_fmap. by exists (kv.1, v).
  - simpl. by rewrite lookup_insert_eq.
Qed.

Lemma snapshot_known f l : known_names (snapshot f l) l.
Proof.
  unfold known_names, snapshot. apply Forall_forall. intros p Hp.
  apply dict_of_known. rewrite <- list_fmap_compose.
  apply list_elem_of_fmap. by exists p.
Qed.

Lemma snapshot_value f l k v :
  snapshot f l !! k = Some v → ∃ p, p ∈ l ∧ name p = k ∧ f p = v.
Proof.
  intros H%dict_of_value. apply list_elem_of_fmap in H as (p & [= -> ->] & Hp).
  eauto.
Qed.

Lemma snapshot_unique f l p :
  NoDup (map name l) → p ∈ l → snapshot f l !! name p = Some (f p).
Proof.
  intros Hnd Hp. apply dict_of_unique.
  - by rewrite <- list_fmap_compose.
  - apply list_elem_of_fmap. by exists p.
Qed.

(** ** The whole run *)

(** The dictionary that [allocate_patients] returns for a final state. *)
Lemma allocate_patients_run physicians nt nA nB nN ns mn nsd mx :
  ∃ s4,
    rtc (transfer mx ns (snapshot step_down_patients physicians))
      (mkState physicians nt nA nB nN nsd) s4
    ∧ allocate_patients physicians nt nA nB nN ns mn nsd mx
      = (s <- phase5 ns (snapshot total_patients physicians) s4 ;;
         let results :=
           map (result_row (snapshot total_patients physicians)
                  (snapshot step_down_patients physicians)) (roster s) in
         Ok (mkAllocation (roster s) results (summarize results)
               (remaining_pools_of s))).
Proof.
  unfold allocate_patients.
  destruct (run_phases_transfers mx mn ns (snapshot total_patients physicians)
              (snapshot step_down_patients physicians)
              (team_positions "A" physicians) (team_positions "B" physicians)
              (team_positions "N" physicians)
              (mkState physicians nt nA nB nN nsd)) as (s4 & H4 & ->).
  { apply snapshot_known. }
  eauto.
Qed.

Lemma allocate_patients_returns physicians nt nA nB nN ns mn nsd mx a :
  allocate_patients physicians nt nA nB nN ns mn nsd mx = Ok a →
  ∃ s4,
    evolved mx ns (snapshot step_down_patients physicians)
      (mkState physicians nt nA nB nN nsd) s4
    ∧ Forall2 trimmed (roster s4) (final_roster a)
    ∧ remaining_pools a = remaining_pools_of s4
    ∧ results a
      = map (result_row (snapshot total_patients physicians)
               (snapshot step_down_patients physicians)) (final_roster a).
Proof.
  destruct (allocate_patients_run physicians nt nA nB nN ns mn nsd mx)
    as (s4 & H4 & ->).
  destruct (phase5 _ _ s4) as [s5| |] eqn:H5; try done. simpl.
  intros [= <-]. simpl. exists s4.
  apply phase5_trims in H5 as [Htrim Hpools].
  split; [by apply transfers_evolved|]. done.
Qed.

(** With unique names the snapshot of a physician is its own count, and
    phase 5 finds nothing to undo. *)
Lemma allocate_patients_unique physicians nt nA nB nN ns mn nsd mx :
  NoDup (map name physicians) →
  ∃ s4,
    evolved mx ns (snapshot step_down_patients physicians)
      (mkState physicians nt nA nB nN nsd) s4
    ∧ allocate_patients physicians nt nA nB nN ns mn nsd mx
      = Ok (mkAllocation (roster s4)
              (map (result_row (snapshot total_patients physicians)
                      (snapshot step_down_patients physicians)) (roster s4))
              (summarize
                 (map (result_row (snapshot total_patients physicians)
                         (snapshot step_down_patients physicians))
                    (roster s4)))
              (remaining_pools_of s4)).
Proof.
  intros Hnd.
  destruct (allocate_patients_run physicians nt nA nB nN ns mn nsd mx)
    as (s4 & H4 & ->).
  apply transfers_evolved in H4. exists s4. split; [done|].
  rewrite phase5_idle; [done|].
  intros i p Hi Hnew Hge.
  destruct (evolved_lookup _ _ _ _ _ _ _ H4 Hi) as (p0 & Hp0 & Hg).
  simpl in Hp0.
  destruct (static_fields _ _ (grew_static _ _ _ _ _ Hg)) as (Hn & Hnw & _).
  unfold dict_get in *. rewrite Hn in *.
  pose proof (snapshot_unique total_patients physicians p0 Hnd
                (list_elem_of_lookup_2 _ _ _ Hp0)) as Hsnap.
  rewrite Hsnap in *. simpl in *.
  rewrite (grew_frozen _ _ _ _ _ Hg); [lia | congruence | done].
Qed.

Lemma sum_Z_difference (g h h0 : Physician → Z) l0 l :
  Forall2 (λ p0 p, g p = h p - h0 p0) l0 l →
  sum_Z (map g l) = sum_Z (map h l) - sum_Z (map h0 l0).
Proof. induction 1 as [|p0 p l0 l Hp _ IH]; simpl; lia. Qed.

Lemma Forall2_trimmed_lookup l l' i p' :
  Forall2 trimmed l l' → l' !! i = Some p' →
  ∃ p, l !! i = Some p ∧ trimmed p p'.
Proof.
  intros H Hi. destruct (Forall2_lookup_r _ _ _ _ _ H Hi) as (p & ? & ?).
  eauto.
Qed.

Lemma allocate_patients_phases physicians nt nA nB nN ns mn nsd mx a :
  allocate_patients physicians nt nA nB nN ns mn nsd mx = Ok a →
  ∃ s1 s2 s3 s4 s5,
    phase1 (snapshot step_down_patients physicians)
      (team_positions "A" physicians) (team_positions "B" physicians)
      (mkState physicians nt nA nB nN nsd) = Ok s1
    ∧ phase2 mx mn s1 = Ok s2
    ∧ phase3 mx ns s2 = Ok s3
    ∧ phase4 mx (snapshot total_patients physicians)
        (team_positions "N" physicians) s3 = Ok s4
    ∧ phase5 ns (snapshot total_patients physicians) s4 = Ok s5
    ∧ final_roster a = roster s5
    ∧ remaining_pools a = remaining_pools_of s5.
Proof.
  unfold allocate_patients, run_phases.
  destruct (phase1 _ _ _ _) as [s1| |] eqn:H1; try done. simpl.
  destruct (phase2 _ _ s1) as [s2| |] eqn:H2; try done. simpl.
  destruct (phase3 _ _ s2) as [s3| |] eqn:H3; try done. simpl.
  destruct (phase4 _ _ _ s3) as [s4| |] eqn:H4; try done. simpl.
  destruct (phase5 _ _ s4) as [s5| |] eqn:H5; try done. simpl.
  intros [= <-]. exists s1, s2, s3, s4, s5. repeat split; done.
Qed.

(** Phase 1 hands out step-down patients only: the total and the three
    team pools leave it as they entered it. *)
Lemma phase1_loop_keeps_pools isd l s s' :
  for_each (phase1_visit isd) l s = Ok s' →
  n_total_new_patients s' = n_total_new_patients s
  ∧ ∀ k, pool_count k s' = pool_count k s.
Proof.
  apply (for_each_post
           (λ t, n_total_new_patients t = n_total_new_patients s
                 ∧ ∀ k, pool_count k t = pool_count k s)); [done|].
  intros i t c _ [Ht Hk]. unfold phase1_visit.
  destruct (_ <=? 0); [by intros [= <-]|].
  destruct (roster t !! i); [|by intros [= <-]].
  destruct (can_take_step_down _ _); intros [= <-]; [|done].
  split; [done|]. intros k. rewrite <- Hk. by destruct k.
Qed.

Lemma phase1_keeps_pools isd tA tB s s' :
  phase1 isd tA tB s = Ok s' →
  n_total_new_patients s' = n_total_new_patients s
  ∧ ∀ k, pool_count k s' = pool_count k s.
Proof.
  unfold phase1.
  destruct (sorted _ _ (List.filter _ tB)) as [bs| |]; try done. simpl.
  destruct (for_each _ bs s) as [s1| |] eqn:E1; try done. simpl.
  apply phase1_loop_keeps_pools in E1 as [Ht1 Hk1].
  destruct (0 <? _); [|by intros [= <-]].
  destruct (sorted _ _ (List.filter _ tA)) as [as_| |]; try done. simpl.
  intros [Ht2 Hk2]%phase1_loop_keeps_pools.
  split; [congruence|]. intros k. by rewrite Hk2.
Qed.

Lemma take_unit_removed k i s : 0 < pool_count k s → unit_removed s (take k i s).
Proof.
  intros Hk. apply (unit_removed_intro k i); try done.
  - by destruct k.
  - intros k' Hne. by destruct k, k'.
Qed.

(** A step-down snapshot under which nobody of the roster may take a
    step-down patient. *)
Lemma step_down_floor (l : list Physician) :
  ∃ isd : gmap string Z,
    ∀ p, p ∈ l →
         ∃ v, isd !! name p = Some v ∧ v ≤ step_down_patients p - 1.
Proof.
  induction l as [|q l [isd IH]].
  - exists ∅. by intros p ?%elem_of_nil.
  - exists (<[name q := Z.min (step_down_patients q - 1)
                          (dict_get isd (name q) (step_down_patients q - 1))]>
              isd).
    intros p [->|Hp]%elem_of_cons.
    + rewrite lookup_insert_eq. eexists. split; [done | lia].
    + destruct (IH p Hp) as (v & Hv & Hle).
      destruct (decide (name q = name p)) as [E|E].
      * rewrite E, lookup_insert_eq. eexists. split; [done|].
        unfold dict_get. rewrite Hv. simpl. lia.
      * rewrite lookup_insert_ne by done. eauto.
Qed.

(** With nobody allowed a step-down patient, transfers are removals from
    the team pools. *)
Lemma transfers_removals mx ns isd s s' :
  (∀ p, p ∈ roster s →
        ∃ v, isd !! name p = Some v ∧ v ≤ step_down_patients p - 1) →
  rtc (transfer mx ns isd) s s' → rtc unit_removed s s'.
Proof.
  intros Hfloor H. revert s' H.
  apply (rtc_ind_r (λ t, rtc unit_removed s t)); [apply rtc_refl|].
  intros t u Hst Htu IH. eapply rtc_r; [exact IH|].
  inversion Htu as [k i p ? Hi Hlt Hpool Hserved | i p ? Hi Hguard Hpool];
    subst.
  - by apply take_unit_removed.
  - exfalso. apply transfers_evolved in Hst.
    destruct (evolved_lookup _ _ _ _ _ _ _ Hst Hi) as (p0 & Hp0 & Hg).
    destruct (Hfloor p0 (list_elem_of_lookup_2 _ _ _ Hp0)) as (v & Hv & Hle).
    destruct (static_fields _ _ (grew_static _ _ _ _ _ Hg)) as (Hn & _).
    pose proof (grew_step_down_lower _ _ _ _ _ Hg).
    unfold dict_get in Hguard. rewrite Hn, Hv in Hguard. simpl in Hguard. lia.
Qed.

(** The run, seen from the pools: phase 1, then removals from the team
    pools, then phase 5, which leaves the counters alone. *)
Lemma allocate_patients_removals physicians nt nA nB nN ns mn nsd mx a :
  allocate_patients physicians nt nA nB nN ns mn nsd mx = Ok a →
  ∃ s1 s4,
    phase1 (snapshot step_down_patients physicians)
      (team_positions "A" physicians) (team_positions "B" physicians)
      (mkState physicians nt nA nB nN nsd) = Ok s1
    ∧ rtc unit_removed s1 s4
    ∧ remaining_pools a = remaining_pools_of s4.
Proof.
  intros (s1 & s2 & s3 & s4 & s5 & H1 & H2 & H3 & H4 & H5 & Hfinal & Hrem)
    %allocate_patients_phases.
  exists s1, s4. split; [done|].
  apply phase5_trims in H5 as [_ Hpools]. split; [|congruence].
  destruct (step_down_floor (roster s1)) as [isd Hfloor].
  apply (transfers_removals mx ns isd); [done|].
  assert (known_names (snapshot total_patients physicians) (roster s1)) as Hk.
  { destruct (phase1_transfers mx ns (snapshot step_down_patients physicians)
                (team_positions "A" physicians)
                (team_positions "B" physicians)
                (mkState physicians nt nA nB nN nsd)) as (t & Ht & Hrtc).
    rewrite H1 in Ht. injection Ht as <-.
    eapply transfers_known_names; [done|]. apply snapshot_known. }
  destruct (phase2_transfers mx mn ns isd s1) as (t2 & Ht2 & R2).
  destruct (phase3_transfers mx ns isd s2) as (t3 & Ht3 & R3).
  assert (t2 = s2) as -> by congruence.
  assert (t3 = s3) as -> by congruence.
  destruct (phase4_transfers mx ns (snapshot total_patients physicians) isd
              (team_positions "N" physicians) s3) as (t4 & Ht4 & R4).
  { eapply (transfers_known_names mx ns _ isd); [|done]. by etrans. }
  assert (t4 = s4) as -> by congruence.
  etrans; [done|]. by etrans.
Qed.

(** * The claims of the specification *)

(** ** C5: totalPool moves in lockstep with the team pools *)

(** C5. Whenever [allocate_patients] returns, the decrease of
    [n_total_new_patients] across the call is exactly the sum of the
    decreases of the three team pools, and this is so removal by removal:
    phase 1, which hands out the step-down patients, leaves the total and
    the three team pools as supplied; from there to the counters that are
    returned the state changes only by removals of one unit from one team
    pool, each of which lowers the total by one as well and leaves the other
    pools, the step-down pool included, alone. *)
Theorem total_pool_lockstep physicians nt nA nB nN ns mn nsd mx a :
  allocate_patients physicians nt nA nB nN ns mn nsd mx = Ok a →
  nt - rem_total_new_patients (remaining_pools a)
  = (nA - rem_A_new_patients (remaining_pools a))
    + (nB - rem_B_new_patients (remaining_pools a))
    + (nN - rem_N_new_patients (remaining_pools a))
  ∧ ∃ s1 s4,
      phase1 (snapshot step_down_patients physicians)
        (team_positions "A" physicians) (team_positions "B" physicians)
        (mkState physicians nt nA nB nN nsd) = Ok s1
      ∧ n_total_new_patients s1 = nt
      ∧ n_A_new_patients s1 = nA
      ∧ n_B_new_patients s1 = nB
      ∧ n_N_new_patients s1 = nN
      ∧ rtc unit_removed s1 s4
      ∧ remaining_pools a = remaining_pools_of s4.
Proof.
  intros Ha. split.
  - apply allocate_patients_returns in Ha as (s4 & H4 & _ & -> & _).
    destruct H4 as [_ _ _ Hlock _ _ _ _]. simpl in *. done.
  - apply allocate_patients_removals in Ha as (s1 & s4 & H1 & Hrun & Hrem).
    exists s1, s4. split; [done|].
    apply phase1_keeps_pools in H1 as [Ht Hk]. simpl in Ht.
    pose proof (Hk PoolA) as HA. pose proof (Hk PoolB) as HB.
    pose proof (Hk PoolN) as HN. simpl in HA, HB, HN.
    done.
Qed.

Lemma total_pool_lockstep_witness :
  ∃ a, allocate_patients ward 20 8 8 4 6 10 3 14 = Ok a
       ∧ 20 - rem_total_new_patients (remaining_pools a)
         = (8 - rem_A_new_patients (remaining_pools a))
           + (8 - rem_B_new_patients (remaining_pools a))
           + (4 - rem_N_new_patients (remaining_pools a))
       ∧ ∃ s1 s4,
           phase1 (snapshot step_down_patients ward)
             (team_positions "A" ward) (team_positions "B" ward)
             (mkState ward 20 8 8 4 3) = Ok s1
           ∧ n_total_new_patients s1 = 20
           ∧ n_A_new_patients s1 = 8
           ∧ n_B_new_patients s1 = 8
           ∧ n_N_new_patients s1 = 4
           ∧ rtc unit_removed s1 s4
           ∧ remaining_pools a = remaining_pools_of s4.
Proof.
  eexists. split; [vm_compute; reflexivity|].
  apply (total_pool_lockstep ward 20 8 8 4 6 10 3 14).
  vm_compute. reflexivity.
Defined.

(** ** C4: the pool counters and zero *)

(** C4, as stated, fails: with [n_total_new_patients = 0] understating a
    Team A pool of 1, the returned total is [-1]. *)
Lemma total_pool_negative_counterexample :
  ∃ a, allocate_patients solo_A 0 1 0 0 5 10 0 20 = Ok a
       ∧ rem_total_new_patients (remaining_pools a) = -1.
Proof. eexists. split; vm_compute; reflexivity. Qed.

(** C4, amended. For pool counts that are not negative, the returned team
    pools and the returned step-down pool are not negative; the returned
    total is the supplied total minus what left the team pools, so it is not
    negative when the supplied total is at least the sum of the team
    pools. *)
Theorem pools_not_negative physicians nt nA nB nN ns mn nsd mx a :
  0 ≤ nA → 0 ≤ nB → 0 ≤ nN → 0 ≤ nsd →
  allocate_patients physicians nt nA nB nN ns mn nsd mx = Ok a →
  0 ≤ rem_A_new_patients (remaining_pools a)
  ∧ 0 ≤ rem_B_new_patients (remaining_pools a)
  ∧ 0 ≤ rem_N_new_patients (remaining_pools a)
  ∧ 0 ≤ rem_step_down_patients (remaining_pools a)
  ∧ nt - (nA + nB + nN) ≤ rem_total_new_patients (remaining_pools a)
  ∧ (nA + nB + nN ≤ nt →
     0 ≤ rem_total_new_patients (remaining_pools a)).
Proof.
  intros HA HB HN HSD (s4 & H4 & _ & -> & _)%allocate_patients_returns.
  destruct H4 as [_ _ _ Hlock [? ?] [? ?] [? ?] [? ?]]. simpl in *.
  repeat split; lia.
Qed.

Lemma pools_not_negative_witness :
  ∃ a, allocate_patients ward 20 8 8 4 6 10 3 14 = Ok a
       ∧ 0 ≤ rem_A_new_patients (remaining_pools a)
       ∧ 0 ≤ rem_B_new_patients (remaining_pools a)
       ∧ 0 ≤ rem_N_new_patients (remaining_pools a)
       ∧ 0 ≤ rem_step_down_patients (remaining_pools a)
       ∧ 20 - (8 + 8 + 4) ≤ rem_total_new_patients (remaining_pools a)
       ∧ (8 + 8 + 4 ≤ 20 →
          0 ≤ rem_total_new_patients (remaining_pools a)).
Proof.
  eexists. split; [vm_compute; reflexivity|].
  apply (pools_not_negative ward 20 8 8 4 6 10 3 14); try lia.
  vm_compute. reflexivity.
Defined.

(** ** C2: capacity *)

(** C2, as stated, fails: a physician who enters the call with 5 patients
    when [maximum_patients] is 3 still has 5 when the call returns. *)
Lemma capacity_counterexample :
  ∃ a, allocate_patients solo_B 0 0 0 0 5 10 0 3 = Ok a
       ∧ map total_patients (final_roster a) = [5]
       ∧ ¬ Forall (λ p, total_patients p ≤ 3) (final_roster a).
Proof.
  eexists. split; [vm_compute; reflexivity|]. split; [reflexivity|].
  simpl. intros H. inversion H as [|? ? Hle _]. simpl in Hle. lia.
Qed.

(** C2, amended. Whenever [allocate_patients] returns, the total of every
    physician is at most the larger of [maximum_patients] and the total it
    had before the call: a physician that started within the maximum ends
    within it, and one that started above it ends with at most the total it
    had, and with exactly that total when the names are unique. *)
Theorem capacity_postcondition physicians nt nA nB nN ns mn nsd mx a i p0 p :
  allocate_patients physicians nt nA nB nN ns mn nsd mx = Ok a →
  physicians !! i = Some p0 →
  final_roster a !! i = Some p →
  total_patients p ≤ Z.max (total_patients p0) mx
  ∧ (total_patients p0 ≤ mx → total_patients p ≤ mx)
  ∧ (mx < total_patients p0 → total_patients p ≤ total_patients p0)
  ∧ (NoDup (map name physicians) → mx < total_patients p0 →
     total_patients p = total_patients p0).
Proof.
  intros Ha Hp0 Hp.
  assert (total_patients p ≤ Z.max (total_patients p0) mx) as Hup.
  { apply allocate_patients_returns in Ha as (s4 & H4 & Htrim & _).
    destruct (Forall2_trimmed_lookup _ _ _ _ Htrim Hp)
      as (p4 & Hp4 & _ & _ & ?).
    destruct (evolved_lookup _ _ _ _ _ _ _ H4 Hp4) as (q & Hq & Hg).
    simpl in Hq. assert (q = p0) as -> by congruence.
    pose proof (grew_total_upper _ _ _ _ _ Hg). lia. }
  repeat split; try lia.
  intros Hnd Hover.
  destruct (allocate_patients_unique physicians nt nA nB nN ns mn nsd mx Hnd)
    as (s4 & H4 & Heq).
  rewrite Heq in Ha. injection Ha as <-. simpl in Hp.
  destruct (evolved_lookup _ _ _ _ _ _ _ H4 Hp) as (q & Hq & Hg).
  simpl in Hq. assert (q = p0) as -> by congruence.
  pose proof (grew_total_lower _ _ _ _ _ Hg). lia.
Qed.

Lemma capacity_postcondition_witness :
  ∃ a p0 p,
    allocate_patients ward 20 8 8 4 6 10 3 10 = Ok a
    ∧ ward !! 2%nat = Some p0
    ∧ final_roster a !! 2%nat = Some p
    ∧ total_patients p ≤ Z.max (total_patients p0) 10
    ∧ (total_patients p0 ≤ 10 → total_patients p ≤ 10)
    ∧ (10 < total_patients p0 → total_patients p ≤ total_patients p0)
    ∧ (NoDup (map name ward) → 10 < total_patients p0 →
       total_patients p = total_patients p0).
Proof.
  eexists _, _, _.
  split; [vm_compute; reflexivity|].
  split; [reflexivity|]. split; [reflexivity|].
  eapply (capacity_postcondition ward 20 8 8 4 6 10 3 10 _ 2%nat);
    [vm_compute; reflexivity | reflexivity | reflexivity].
Defined.

(** Unique names are needed for the last part: under a shared name the
    snapshot holds the count of the last physician of that name, and phase 5
    brings a new physician who started above the maximum down to it. *)
Example over_capacity_shared_name :
  ∃ a, allocate_patients
         [ mkPhysician "Khan" true "A" false true "" 12 0 0 0;
           mkPhysician "Khan" false "B" false true "" 8 0 0 0 ]
         0 0 0 0 6 0 0 10 = Ok a
       ∧ map total_patients (final_roster a) = [8; 8].
Proof. eexists. split; vm_compute; reflexivity. Qed.

(** ** C1: conservation *)

Lemma gains_of_unique_names physicians mx ns s4 :
  NoDup (map name physicians) →
  Forall2 (grew mx ns (snapshot step_down_patients physicians))
    physicians (roster s4) →
  Forall2
    (λ p0 p,
       gained (result_row (snapshot total_patients physicians)
                 (snapshot step_down_patients physicians) p)
       = total_patients p - total_patients p0
       ∧ gained_step_down
           (result_row (snapshot total_patients physicians)
              (snapshot step_down_patients physicians) p)
         = step_down_patients p - step_down_patients p0)
    physicians (roster s4).
Proof.
  intros Hnd H. apply Forall2_same_length_lookup.
  split; [by eapply Forall2_length|].
  intros i p0 p Hp0 Hp.
  pose proof (Forall2_lookup_lr _ _ _ _ _ _ H Hp0 Hp) as Hg.
  destruct (static_fields _ _ (grew_static _ _ _ _ _ Hg)) as (Hn & _).
  pose proof (list_elem_of_lookup_2 _ _ _ Hp0) as Hin.
  unfold result_row, dict_get; simpl. rewrite Hn.
  rewrite (snapshot_unique total_patients physicians p0 Hnd Hin).
  rewrite (snapshot_unique step_down_patients physicians p0 Hnd Hin).
  done.
Qed.

(** C1. For a roster with unique names, whenever [allocate_patients]
    returns, the gains of all physicians (final total minus snapshot, the
    ["gained"] entry of each result) plus the returned
    [n_total_new_patients] equal the supplied [n_total_new_patients], and
    the step-down gains plus the returned [n_step_down_patients] equal the
    supplied [n_step_down_patients].  The other preconditions of the
    specification (a roster that is not empty, counts and parameters that
    are not negative) are not needed. *)
Theorem conservation physicians nt nA nB nN ns mn nsd mx a :
  NoDup (map name physicians) →
  allocate_patients physicians nt nA nB nN ns mn nsd mx = Ok a →
  sum_Z (map gained (results a))
    + rem_total_new_patients (remaining_pools a) = nt
  ∧ sum_Z (map gained_step_down (results a))
    + rem_step_down_patients (remaining_pools a) = nsd.
Proof.
  intros Hnd.
  destruct (allocate_patients_unique physicians nt nA nB nN ns mn nsd mx Hnd)
    as (s4 & H4 & ->).
  intros [= <-]. simpl.
  destruct H4 as [Hroster Hcensus Hsd _ _ _ _ _]. simpl in *.
  apply (gains_of_unique_names _ _ _ _ Hnd) in Hroster.
  rewrite <- !list_fmap_compose. unfold census, step_down_census in *.
  split.
  - rewrite (sum_Z_difference _ total_patients total_patients
               physicians (roster s4)); [lia|].
    eapply Forall2_impl; [done|]. by intros ? ? [? ?].
  - rewrite (sum_Z_difference _ step_down_patients step_down_patients
               physicians (roster s4)); [lia|].
    eapply Forall2_impl; [done|]. by intros ? ? [? ?].
Qed.

Lemma conservation_witness :
  ∃ a, allocate_patients ward 20 8 8 4 6 10 3 14 = Ok a
       ∧ sum_Z (map gained (results a))
           + rem_total_new_patients (remaining_pools a) = 20
       ∧ sum_Z (map gained_step_down (results a))
           + rem_step_down_patients (remaining_pools a) = 3.
Proof.
  eexists. split; [vm_compute; reflexivity|].
  apply (conservation ward 20 8 8 4 6 10 3 14).
  - refine (bool_decide_unpack _ _). vm_compute. exact I.
  - vm_compute. reflexivity.
Defined.

(** ** C6: new physicians at or above the start number gain nothing *)

(** C6. For a roster with unique names, a new physician whose total before
    the call is at least [new_start_number] has exactly that total when
    [allocate_patients] returns, whatever the pools, the parameters and the
    rest of the roster are. *)
Theorem correction_idempotence
    physicians nt nA nB nN ns mn nsd mx a i p0 :
  NoDup (map name physicians) →
  allocate_patients physicians nt nA nB nN ns mn nsd mx = Ok a →
  physicians !! i = Some p0 →
  is_new p0 = true →
  ns ≤ total_patients p0 →
  ∃ p, final_roster a !! i = Some p
       ∧ total_patients p = total_patients p0.
Proof.
  intros Hnd.
  destruct (allocate_patients_unique physicians nt nA nB nN ns mn nsd mx Hnd)
    as (s4 & H4 & ->).
  intros [= <-] Hp0 Hnew Hge. simpl.
  destruct (evolved_lookup_l _ _ _ _ _ _ _ H4 Hp0) as (p & Hp & Hg).
  exists p. split; [done|]. by apply (grew_frozen _ _ _ _ _ Hg).
Qed.

Lemma correction_idempotence_witness :
  ∃ a p0 p,
    allocate_patients ward 20 8 8 4 6 10 3 14 = Ok a
    ∧ ward !! 4%nat = Some p0
    ∧ final_roster a !! 4%nat = Some p
    ∧ total_patients p = total_patients p0.
Proof.
  eexists _, _.
  destruct (correction_idempotence ward 20 8 8 4 6 10 3 14
              _ 4%nat _
              ltac:(refine (bool_decide_unpack _ _); vm_compute; exact I)
              ltac:(vm_compute; reflexivity)
              ltac:(reflexivity) ltac:(reflexivity) ltac:(simpl; lia))
    as (p & Hp & Htotal).
  exists p. split; [vm_compute; reflexivity|]. split; [reflexivity|]. done.
Defined.

(** ** C7: the allocator raises nothing *)

Lemma snapshot_not_negative f physicians :
  Forall (λ p, 0 ≤ f p) physicians →
  ∀ k v, snapshot f physicians !! k = Some v → 0 ≤ v.
Proof.
  rewrite Forall_forall. intros H k v (p & Hp & _ & <-)%snapshot_value. auto.
Qed.

(** C7. When no physician enters with a negative [total_patients],
    [allocate_patients] returns a value: no loop of the model runs out of
    fuel, no dictionary key is missing, and every [remove_patient] of phase 5
    finds at least one patient, so that its ["You don't have any patients"]
    branch is not reached. *)
Theorem allocate_patients_never_raises physicians nt nA nB nN ns mn nsd mx :
  Forall (λ p, 0 ≤ total_patients p) physicians →
  ∃ a, allocate_patients physicians nt nA nB nN ns mn nsd mx = Ok a.
Proof.
  intros Hpos.
  destruct (allocate_patients_run physicians nt nA nB nN ns mn nsd mx)
    as (s4 & _ & ->).
  destruct (phase5_ok ns (snapshot total_patients physicians) s4)
    as [s5 ->]; [by apply snapshot_not_negative|].
  simpl. eauto.
Qed.

Lemma allocate_patients_never_raises_witness :
  ∃ a, allocate_patients ward 20 8 8 4 6 10 3 14 = Ok a.
Proof.
  apply (allocate_patients_never_raises ward 20 8 8 4 6 10 3 14).
  refine (bool_decide_unpack _ _). vm_compute. exact I.
Defined.

(** ** C8: at most one step-down unit per physician *)

(** C8. For a roster with unique names, whenever [allocate_patients]
    returns, no physician has gained more than one step-down patient: its
    [step_down_patients] is at most one above its value before the call,
    and the ["gained_step_down"] entry of every result is at most 1. *)
Theorem step_down_single_gain physicians nt nA nB nN ns mn nsd mx a :
  NoDup (map name physicians) →
  allocate_patients physicians nt nA nB nN ns mn nsd mx = Ok a →
  (∀ i p0 p,
     physicians !! i = Some p0 → final_roster a !! i = Some p →
     step_down_patients p - step_down_patients p0 ≤ 1)
  ∧ Forall (λ r, gained_step_down r ≤ 1) (results a).
Proof.
  intros Hnd.
  destruct (allocate_patients_unique physicians nt nA nB nN ns mn nsd mx Hnd)
    as (s4 & H4 & ->).
  intros [= <-]. simpl.
  assert (∀ i p0 p,
            physicians !! i = Some p0 → roster s4 !! i = Some p →
            step_down_patients p - step_down_patients p0 ≤ 1) as Hpos.
  { intros i p0 p Hp0 Hp.
    destruct (evolved_lookup _ _ _ _ _ _ _ H4 Hp) as (q & Hq & Hg).
    simpl in Hq. assert (q = p0) as -> by congruence.
    pose proof (grew_step_down_upper _ _ _ _ _ Hg) as Hup.
    unfold dict_get in Hup.
    rewrite (snapshot_unique step_down_patients physicians p0 Hnd
               (list_elem_of_lookup_2 _ _ _ Hp0)) in Hup.
    simpl in Hup. lia. }
  split; [done|].
  destruct H4 as [Hroster _ _ _ _ _ _ _]. simpl in Hroster.
  pose proof (gains_of_unique_names _ _ _ _ Hnd Hroster) as Hgains.
  apply Forall_fmap, Forall_lookup. intros i p Hp.
  destruct (Forall2_lookup_r _ _ _ _ _ Hgains Hp) as (p0 & Hp0 & _ & Heq).
  unfold compose. rewrite Heq. eauto.
Qed.

Lemma step_down_single_gain_witness :
  ∃ a, allocate_patients ward 20 8 8 4 6 10 3 14 = Ok a
       ∧ (∀ i p0 p,
            ward !! i = Some p0 → final_roster a !! i = Some p →
            step_down_patients p - step_down_patients p0 ≤ 1)
       ∧ Forall (λ r, gained_step_down r ≤ 1) (results a).
Proof.
  eexists. split; [vm_compute; reflexivity|].
  apply (step_down_single_gain ward 20 8 8 4 6 10 3 14).
  - refine (bool_decide_unpack _ _). vm_compute. exact I.
  - vm_compute. reflexivity.
Defined.

(** ** C3: who may receive a step-down unit in phase 1 *)

(** C3, as stated, fails: a working Team B physician whose total equals
    [maximum_patients] (5) receives the step-down unit. *)
Lemma step_down_at_capacity_counterexample :
  ∃ a, allocate_patients solo_B 0 0 0 0 5 10 1 5 = Ok a
       ∧ map is_working solo_B = [true]
       ∧ map team solo_B = ["B"]
       ∧ map total_patients solo_B = [5]
       ∧ map step_down_patients solo_B = [0]
       ∧ map step_down_patients (final_roster a) = [1].
Proof. eexists. repeat split; vm_compute; reflexivity. Qed.

(** C3, amended. Phase 1 takes no [maximum_patients]: a physician's
    step-down count changes in phase 1 only if its step-down gain since the
    snapshot was below 1 when the phase began, and phase 1 leaves every
    [total_patients] as it was. *)
Theorem step_down_eligibility isd tA tB s s' i p p' :
  phase1 isd tA tB s = Ok s' →
  roster s !! i = Some p →
  roster s' !! i = Some p' →
  total_patients p' = total_patients p
  ∧ (step_down_patients p' ≠ step_down_patients p →
     step_down_patients p - dict_get isd (name p) 0 < 1).
Proof.
  intros H1 Hp Hp'.
  destruct (phase1_transfers (total_patients p) 0 isd tA tB s)
    as (t & Ht & Hev).
  rewrite H1 in Ht. injection Ht as <-. apply transfers_evolved in Hev.
  destruct (evolved_lookup _ _ _ _ _ _ _ Hev Hp') as (q & Hq & Hg).
  assert (q = p) as -> by congruence.
  destruct Hg as [_ Hlow Hup _ Hsdlow Hsdup]. split; lia.
Qed.

Lemma step_down_eligibility_witness :
  ∃ s' p p',
    phase1 (snapshot step_down_patients solo_B) (team_positions "A" solo_B)
      (team_positions "B" solo_B) (mkState solo_B 0 0 0 0 1) = Ok s'
    ∧ solo_B !! 0%nat = Some p
    ∧ roster s' !! 0%nat = Some p'
    ∧ total_patients p' = total_patients p
    ∧ (step_down_patients p' ≠ step_down_patients p →
       step_down_patients p
         - dict_get (snapshot step_down_patients solo_B) (name p) 0 < 1).
Proof.
  eexists _, _, _.
  split; [vm_compute; reflexivity|].
  split; [reflexivity|]. split; [reflexivity|].
  eapply (step_down_eligibility (snapshot step_down_patients solo_B)
            (team_positions "A" solo_B) (team_positions "B" solo_B)
            (mkState solo_B 0 0 0 0 1) _ 0%nat);
    [vm_compute; reflexivity | reflexivity | reflexivity].
Defined.

(** ** C9: onboarding *)

(** A loop whose body never breaks can be cut in two. *)
Lemma for_each_app {I S} (body : I → S → outcome (ctl S)) l1 l2 s s1 :
  (∀ i t t', body i t ≠ Ok (Break t')) →
  for_each body l1 s = Ok s1 →
  for_each body (l1 ++ l2) s = for_each body l2 s1.
Proof.
  intros Hnb. revert s. induction l1 as [|i l1 IH]; intros s; simpl.
  - by intros [= <-].
  - destruct (body i s) as [[t|t]| |] eqn:E; try done.
    + apply IH.
    + by apply Hnb in E.
Qed.

Lemma take_elsewhere k i j s :
  i ≠ j → roster (take k j s) !! i = roster s !! i.
Proof. intros Hne. rewrite lookup_take. by rewrite decide_False. Qed.

Lemma own_pool_of_team p s k :
  team_pool (team p) = Some k → 0 < pool_count k s → own_pool p s = Some k.
Proof.
  unfold team_pool, own_pool, team_is.
  destruct (String.eqb (team p) "A").
  { intros [= <-] H%Z.ltb_lt. simpl in *. by rewrite H. }
  destruct (String.eqb (team p) "B").
  { intros [= <-] H%Z.ltb_lt. simpl in *. by rewrite H. }
  destruct (String.eqb (team p) "N"); [|done].
  intros [= <-] H%Z.ltb_lt. simpl in *. by rewrite H.
Qed.

Section Onboarding.
Variables maximum_patients minimum_patients new_start_number : Z.

(** Phases 2 and 3 serve one physician at a time. *)
Lemma phase2_fill_elsewhere k i j l s s' :
  i ≠ j →
  for_each (phase2_fill maximum_patients k j) l s = Ok s' →
  roster s' !! i = roster s !! i.
Proof.
  intros Hne.
  apply (for_each_post (λ t, roster t !! i = roster s !! i)); [done|].
  intros x t c _ Ht. unfold phase2_fill.
  destruct (roster t !! j); [|by intros [= <-]].
  destruct (can_take_patient _ _); intros [= <-]; [|done].
  unfold ctl_val. by rewrite take_elsewhere.
Qed.

Lemma phase2_visit_elsewhere i j s c :
  (i ≠ j ∨ ∃ p, roster s !! i = Some p ∧ is_new p = true) →
  phase2_visit maximum_patients minimum_patients j s = Ok c →
  roster (ctl_val c) !! i = roster s !! i.
Proof.
  intros Hij. unfold phase2_visit.
  destruct (roster s !! j) as [q|] eqn:Hq; [|by intros [= <-]].
  destruct (is_new q) eqn:Hnew; [by intros [= <-]|].
  assert (i ≠ j) as Hne.
  { destruct Hij as [?|(p & Hp & Hpnew)]; [done|]. intros ->. congruence. }
  destruct (_ && _); [|by intros [= <-]].
  assert (∀ k n,
            (s' <- for_each (phase2_fill maximum_patients k j)
                     (range n) s ;; Ok (Continue s')) = Ok c →
            roster (ctl_val c) !! i = roster s !! i) as Hfill.
  { intros k n. destruct (for_each _ _ s) as [s'| |] eqn:E; try done.
    simpl. intros [= <-]. simpl. by eapply phase2_fill_elsewhere. }
  destruct (team_is "A" q); [apply Hfill|].
  destruct (team_is "B" q); [apply Hfill|].
  destruct (team_is "N" q); [apply Hfill|].
  by intros [= <-].
Qed.

Lemma phase2_skips_new i p s s' :
  roster s !! i = Some p → is_new p = true →
  phase2 maximum_patients minimum_patients s = Ok s' →
  roster s' !! i = Some p.
Proof.
  intros Hp Hnew. unfold phase2.
  apply (for_each_post (λ t, roster t !! i = Some p)); [done|].
  intros j t c _ Ht Hc.
  rewrite (phase2_visit_elsewhere i j t c); [done | eauto | done].
Qed.

Lemma phase3_while_elsewhere fuel i j needed s s' :
  i ≠ j →
  phase3_while maximum_patients fuel j needed s = Ok s' →
  roster s' !! i = roster s !! i.
Proof.
  intros Hne. revert needed s.
  induction fuel as [|fuel IH]; intros needed s; simpl.
  - destruct (roster s !! j); [|by intros [= <-]].
    destruct (_ && _); [done | by intros [= <-]].
  - destruct (roster s !! j) as [q|]; [|by intros [= <-]].
    destruct (_ && _); [|by intros [= <-]].
    destruct (own_pool q s) as [k|].
    { intros H%IH. by rewrite H, take_elsewhere. }
    destruct (first_pool s) as [k|]; [|by intros [= <-]].
    intros H%IH. by rewrite H, take_elsewhere.
Qed.

Lemma phase3_visit_elsewhere i j s c :
  i ≠ j →
  phase3_visit maximum_patients new_start_number j s = Ok c →
  roster (ctl_val c) !! i = roster s !! i.
Proof.
  intros Hne. unfold phase3_visit.
  destruct (roster s !! j) as [q|]; [|by intros [= <-]].
  destruct (is_new q); [|by intros [= <-]].
  destruct (_ <=? 0); [by intros [= <-]|].
  destruct (phase3_while _ _ _ _ s) as [s'| |] eqn:E; try done.
  simpl. intros [= <-]. simpl. by eapply phase3_while_elsewhere.
Qed.

Lemma phase3_visit_never_breaks j s s' :
  phase3_visit maximum_patients new_start_number j s ≠ Ok (Break s').
Proof.
  unfold phase3_visit. repeat case_match; try done.
  destruct (phase3_while _ _ _ _ _); done.
Qed.

(** With enough units in the physician's own pool and room below the
    maximum, the loop gives exactly [needed] units. *)
Lemma phase3_while_fills fuel i needed s p k :
  roster s !! i = Some p →
  team_pool (team p) = Some k →
  0 ≤ needed → needed ≤ pool_count k s →
  total_patients p + needed ≤ maximum_patients →
  (Z.to_nat needed ≤ fuel)%nat →
  ∃ s' p', phase3_while maximum_patients fuel i needed s = Ok s'
           ∧ roster s' !! i = Some p'
           ∧ total_patients p' = total_patients p + needed.
Proof.
  revert needed s p.
  induction fuel as [|fuel IH]; intros needed s p Hp Hk H0 Hpool Hroom Hfuel;
    simpl; rewrite Hp.
  - destruct (0 <? needed) eqn:E; [bools; lia|]. simpl. bools.
    exists s, p. repeat split; [done | lia].
  - destruct (0 <? needed) eqn:E; simpl; bools;
      [|exists s, p; repeat split; [done | lia]].
    unfold can_take_patient.
    destruct (total_patients p <? maximum_patients) eqn:E'; [|bools; lia].
    rewrite (own_pool_of_team p s k Hk) by lia.
    destruct (IH (needed - 1) (take k i s) (add_patient false p))
      as (s' & p' & Hs' & Hp' & Htotal).
    + rewrite lookup_take, decide_True, Hp by done. done.
    + done.
    + lia.
    + rewrite pool_count_take. lia.
    + simpl. lia.
    + lia.
    + exists s', p'. repeat split; [done | done |]. simpl in Htotal. lia.
Qed.

(** The loop stops at [new_start_number]. *)
Lemma phase3_while_bound fuel i needed s s' p p' :
  phase3_while maximum_patients fuel i needed s = Ok s' →
  roster s !! i = Some p → roster s' !! i = Some p' →
  total_patients p' ≤ Z.max (total_patients p) (total_patients p + needed).
Proof.
  revert needed s p.
  induction fuel as [|fuel IH]; intros needed s p; simpl.
  - intros H Hp. rewrite Hp in H. destruct (_ && _); [done|].
    injection H as <-. rewrite Hp. intros [= <-]. lia.
  - intros H Hp. rewrite Hp in H.
    destruct (_ && _) eqn:E;
      [|injection H as <-; rewrite Hp; intros [= <-]; lia].
    bools.
    assert (∀ k, phase3_while maximum_patients fuel i (needed - 1)
                   (take k i s) = Ok s' →
                 roster s' !! i = Some p' →
                 total_patients p'
                 ≤ Z.max (total_patients p) (total_patients p + needed))
      as Htake.
    { intros k Hk Hp'.
      pose proof (IH (needed - 1) (take k i s) (add_patient false p) Hk) as Hb.
      rewrite lookup_take, decide_True, Hp in Hb by done.
      specialize (Hb eq_refl Hp'). simpl in Hb. lia. }
    destruct (own_pool p s) as [k|]; [exact (Htake k H)|].
    destruct (first_pool s) as [k|]; [exact (Htake k H)|].
    injection H as <-. rewrite Hp. intros [= <-]. lia.
Qed.
End Onboarding.

Lemma phase1_keeps_totals isd tA tB s s' i p :
  phase1 isd tA tB s = Ok s' → roster s !! i = Some p →
  ∃ p', roster s' !! i = Some p'
        ∧ total_patients p' = total_patients p
        ∧ static p' = static p.
Proof.
  intros H1 Hp.
  destruct (phase1_transfers (total_patients p) 0 isd tA tB s)
    as (t & Ht & Hev).
  rewrite H1 in Ht. injection Ht as <-. apply transfers_evolved in Hev.
  destruct (evolved_lookup_l _ _ _ _ _ _ _ Hev Hp)
    as (p' & Hp' & [Hst Hlow Hup _ _ _]).
  exists p'. repeat split; [done | lia | done].
Qed.

Lemma phase3_visit_bound mx ns j t c q q' :
  phase3_visit mx ns j t = Ok c →
  roster t !! j = Some q → roster (ctl_val c) !! j = Some q' →
  total_patients q' ≤ Z.max (total_patients q) ns.
Proof.
  unfold phase3_visit. intros H Hq. rewrite Hq in H.
  destruct (is_new q);
    [|injection H as <-; simpl; rewrite Hq; intros [= <-]; lia].
  destruct (_ <=? 0);
    [injection H as <-; simpl; rewrite Hq; intros [= <-]; lia|].
  destruct (phase3_while _ _ _ _ t) as [t'| |] eqn:E; try done.
  simpl in H. injection H as <-. simpl. intros Hq'.
  pose proof (phase3_while_bound _ _ _ _ _ _ _ _ E Hq Hq'). lia.
Qed.

(** C9. Take a new physician that enters the call with no patient, let
    [new_start_number] be 10 and [maximum_patients] be at least 10.  When
    the turn of that physician comes in phase 3 (after phases 1 and 2 and
    the turns of the physicians before it), if its own team pool holds at
    least 10 units then its turn ends with exactly 10 patients, and the rest
    of phase 3 goes on from there.  Moreover no turn of phase 3 takes a
    physician beyond [new_start_number]: after a turn its total is at most
    the larger of [new_start_number] and what it was before the turn. *)
Theorem onboarding_exactness mx mn isd tA tB s0 s1 s2 s i p0 k :
  roster s0 !! i = Some p0 →
  is_new p0 = true →
  total_patients p0 = 0 →
  10 ≤ mx →
  phase1 isd tA tB s0 = Ok s1 →
  phase2 mx mn s1 = Ok s2 →
  for_each (phase3_visit mx 10) (seq 0 i) s2 = Ok s →
  team_pool (team p0) = Some k →
  10 ≤ pool_count k s →
  (∃ s' p,
     phase3_visit mx 10 i s = Ok (Continue s')
     ∧ roster s' !! i = Some p
     ∧ total_patients p = 10
     ∧ phase3 mx 10 s2
       = for_each (phase3_visit mx 10)
           (seq (S i) (length (roster s2) - S i)) s')
  ∧ (∀ ns j t c q q',
       phase3_visit mx ns j t = Ok c →
       roster t !! j = Some q → roster (ctl_val c) !! j = Some q' →
       total_patients q' ≤ Z.max (total_patients q) ns).
Proof.
  intros Hp0 Hnew Hzero Hmx H1 H2 Hturns Hk Hpool.
  split; [|intros; by eapply phase3_visit_bound].
  destruct (phase1_keeps_totals _ _ _ _ _ _ _ H1 Hp0)
    as (p1 & Hp1 & Htotal & Hstatic).
  destruct (static_fields _ _ Hstatic) as (_ & Hnew1 & Hteam & _).
  rewrite Hnew in Hnew1. rewrite Hzero in Htotal. rewrite <- Hteam in Hk.
  pose proof (phase2_skips_new _ _ _ _ _ _ Hp1 Hnew1 H2) as Hp2.
  assert (roster s !! i = Some p1) as Hp.
  { revert Hturns.
    apply (for_each_post (λ t, roster t !! i = Some p1)); [done|].
    intros j t c Hj%elem_of_seq Ht Hc.
    rewrite (phase3_visit_elsewhere mx 10 i j t c); [done | lia | done]. }
  destruct (phase3_while_fills mx (Z.to_nat 10) i 10 s p1 k)
    as (s' & p & Hwhile & Hp' & Htotal'); try done; try lia.
  assert (phase3_visit mx 10 i s = Ok (Continue s')) as Hvisit.
  { unfold phase3_visit. rewrite Hp, Hnew1, Htotal.
    change (10 - 0) with 10. change (10 <=? 0) with false. cbv iota.
    by rewrite Hwhile. }
  exists s', p. repeat split; [done | done | lia |].
  unfold phase3, positions.
  pose proof (lookup_lt_Some _ _ _ Hp2) as Hlt.
  replace (length (roster s2))
    with (i + S (length (roster s2) - S i))%nat at 1 by lia.
  rewrite seq_app. simpl.
  rewrite (for_each_app _ _ _ _ _ (phase3_visit_never_breaks mx 10) Hturns).
  simpl. by rewrite Hvisit.
Qed.

Lemma onboarding_exactness_witness :
  ∃ s1 s2 s,
    phase1 (snapshot step_down_patients ward) (team_positions "A" ward)
      (team_positions "B" ward) (mkState ward 30 8 14 4 3) = Ok s1
    ∧ phase2 14 10 s1 = Ok s2
    ∧ for_each (phase3_visit 14 10) (seq 0 3) s2 = Ok s
    ∧ ((∃ s' p,
          phase3_visit 14 10 3%nat s = Ok (Continue s')
          ∧ roster s' !! 3%nat = Some p
          ∧ total_patients p = 10
          ∧ phase3 14 10 s2
            = for_each (phase3_visit 14 10)
                (seq 4 (length (roster s2) - 4)) s')
       ∧ (∀ ns j t c q q',
            phase3_visit 14 ns j t = Ok c →
            roster t !! j = Some q → roster (ctl_val c) !! j = Some q' →
            total_patients q' ≤ Z.max (total_patients q) ns)).
Proof.
  eexists _, _, _.
  split; [vm_compute; reflexivity|].
  split; [vm_compute; reflexivity|].
  split; [vm_compute; reflexivity|].
  eapply (onboarding_exactness 14 10 (snapshot step_down_patients ward)
            (team_positions "A" ward) (team_positions "B" ward)
            (mkState ward 30 8 14 4 3) _ _ _ 3%nat _ PoolB);
    [ reflexivity | reflexivity | reflexivity | lia
    | vm_compute; reflexivity | vm_compute; reflexivity
    | vm_compute; reflexivity | reflexivity | simpl; lia ].
Defined.

(** ** C10: only phase 1 looks at [is_working] *)

Lemma for_each_ext {I S} (body1 body2 : I → S → outcome (ctl S)) l s :
  (∀ i t, body1 i t = body2 i t) →
  for_each body1 l s = for_each body2 l s.
Proof.
  intros Hext. revert s. induction l as [|i l IH]; intros s; simpl; [done|].
  rewrite Hext. destruct (body2 i s) as [[t|t]| |]; auto.
Qed.

Lemma for_each_commute {I S} (g : S → S) (body : I → S → outcome (ctl S))
    l s :
  (∀ i t, body i (g t) = outcome_map (ctl_map g) (body i t)) →
  for_each body l (g s) = outcome_map g (for_each body l s).
Proof.
  intros Hg. revert s. induction l as [|i l IH]; intros s; simpl; [done|].
  rewrite Hg. destruct (body i s) as [[t|t]| |]; simpl; auto.
Qed.

Lemma map_outcome_ext {A B} (f g : A → outcome B) l :
  (∀ x, f x = g x) → map_outcome f l = map_outcome g l.
Proof.
  intros Hext. induction l as [|x l IH]; simpl; [done|].
  by rewrite Hext, IH.
Qed.

Lemma map_outcome_fmap {A B C} (f : B → outcome C) (g : A → B) l :
  map_outcome f (g <$> l) = map_outcome (λ x, f (g x)) l.
Proof. induction l as [|x l IH]; csimpl; [done|]. by rewrite IH. Qed.

Lemma sorted_ext {K} (leb : K → K → bool) key1 key2 l :
  (∀ i, key1 i = key2 i) → sorted leb key1 l = sorted leb key2 l.
Proof. intros Hext. unfold sorted. by rewrite (map_outcome_ext _ _ _ Hext). Qed.

Lemma lookup_all_working s i :
  roster (all_working s) !! i = set_is_working true <$> roster s !! i.
Proof. apply list_lookup_fmap. Qed.

Lemma take_all_working k i s :
  take k i (all_working s) = all_working (take k i s).
Proof.
  unfold take, all_working, set_roster. simpl. f_equal. symmetry.
  apply list_fmap_alter. by apply Forall_forall.
Qed.

Lemma holds_all_working f l i :
  (∀ p, f (set_is_working true p) = f p) →
  holds f (set_is_working true <$> l) i = holds f l i.
Proof.
  intros Hf. unfold holds. rewrite list_lookup_fmap.
  destruct (l !! i); simpl; auto.
Qed.

Lemma positions_all_working s :
  positions (roster (all_working s)) = positions (roster s).
Proof. unfold positions, all_working. simpl. by rewrite length_fmap. Qed.

Lemma objects_all_working l idxs :
  objects (set_is_working true <$> l) idxs
  = set_is_working true <$> objects l idxs.
Proof.
  unfold objects. induction idxs as [|i idxs IH]; csimpl; [done|].
  rewrite list_lookup_fmap, IH. by destruct (l !! i).
Qed.

Section Working.
Variables maximum_patients minimum_patients new_start_number : Z.
Variable initial_counts : gmap string Z.
Variable team_N : list nat.

Lemma phase2_fill_all_working k i x s :
  phase2_fill maximum_patients k i x (all_working s)
  = outcome_map (ctl_map all_working) (phase2_fill maximum_patients k i x s).
Proof.
  unfold phase2_fill. rewrite lookup_all_working.
  destruct (roster s !! i) as [p|]; simpl; [|done].
  unfold can_take_patient; simpl.
  destruct (total_patients p <? maximum_patients); simpl; [|done].
  by rewrite take_all_working.
Qed.

Lemma phase2_visit_all_working i s :
  phase2_visit maximum_patients minimum_patients i (all_working s)
  = outcome_map (ctl_map all_working)
      (phase2_visit maximum_patients minimum_patients i s).
Proof.
  unfold phase2_visit. rewrite lookup_all_working.
  destruct (roster s !! i) as [p|]; simpl; [|done].
  destruct (is_new p); [done|].
  unfold can_take_patient, team_is; simpl.
  destruct (_ && _); [|done].
  repeat (destruct (String.eqb (team p) _);
          [rewrite (for_each_commute all_working)
             by apply phase2_fill_all_working;
           by destruct (for_each _ _ s)|]).
  done.
Qed.

Lemma phase2_all_working s :
  phase2 maximum_patients minimum_patients (all_working s)
  = outcome_map all_working (phase2 maximum_patients minimum_patients s).
Proof.
  unfold phase2. rewrite positions_all_working.
  apply for_each_commute, phase2_visit_all_working.
Qed.

Lemma phase3_while_all_working fuel i needed s :
  phase3_while maximum_patients fuel i needed (all_working s)
  = outcome_map all_working (phase3_while maximum_patients fuel i needed s).
Proof.
  revert needed s. induction fuel as [|fuel IH]; intros needed s; simpl;
    rewrite list_lookup_fmap; destruct (roster s !! i) as [p|]; simpl;
    try done; unfold can_take_patient; simpl;
    destruct (_ && _); try done.
  change (own_pool (set_is_working true p) (all_working s))
    with (own_pool p s).
  change (first_pool (all_working s)) with (first_pool s).
  destruct (own_pool p s) as [k|]; [by rewrite take_all_working, IH|].
  destruct (first_pool s) as [k|]; [by rewrite take_all_working, IH | done].
Qed.

Lemma phase3_visit_all_working i s :
  phase3_visit maximum_patients new_start_number i (all_working s)
  = outcome_map (ctl_map all_working)
      (phase3_visit maximum_patients new_start_number i s).
Proof.
  unfold phase3_visit. rewrite lookup_all_working.
  destruct (roster s !! i) as [p|]; simpl; [|done].
  destruct (is_new p); [|done].
  destruct (_ <=? 0); [done|].
  rewrite phase3_while_all_working.
  by destruct (phase3_while _ _ _ _ s).
Qed.

Lemma phase3_all_working s :
  phase3 maximum_patients new_start_number (all_working s)
  = outcome_map all_working (phase3 maximum_patients new_start_number s).
Proof.
  unfold phase3. rewrite positions_all_working.
  apply for_each_commute, phase3_visit_all_working.
Qed.

Lemma map_fmap_compose {A B C} (f : B → C) (g : A → B) (l : list A) :
  map f (g <$> l) = map (λ x, f (g x)) l.
Proof. induction l as [|x l IH]; csimpl; [done|]. by rewrite IH. Qed.

Lemma current_gains_all_working ps :
  current_gains_of initial_counts (set_is_working true <$> ps)
  = current_gains_of initial_counts ps.
Proof. unfold current_gains_of. by rewrite map_outcome_fmap. Qed.

Lemma team_N_visit_all_working i s :
  team_N_visit maximum_patients i (all_working s)
  = outcome_map (ctl_map all_working) (team_N_visit maximum_patients i s).
Proof.
  unfold team_N_visit. rewrite lookup_all_working.
  change (n_N_new_patients (all_working s)) with (n_N_new_patients s).
  destruct (_ <=? 0); [done|].
  destruct (roster s !! i) as [p|]; simpl; [|done].
  unfold can_take_patient; simpl.
  destruct (total_patients p <? maximum_patients); simpl; [|done].
  by rewrite take_all_working.
Qed.

Lemma total_key_all_working l i :
  total_key (set_is_working true <$> l) i = total_key l i.
Proof.
  unfold total_key. rewrite list_lookup_fmap. by destruct (l !! i).
Qed.

Lemma initial_key_all_working l i :
  initial_key initial_counts (set_is_working true <$> l) i
  = initial_key initial_counts l i.
Proof.
  unfold initial_key. rewrite list_lookup_fmap. by destruct (l !! i).
Qed.

Lemma ladder_key_all_working l tag i :
  ladder_key initial_counts (set_is_working true <$> l) tag i
  = ladder_key initial_counts l tag i.
Proof.
  unfold ladder_key. rewrite list_lookup_fmap. by destruct (l !! i).
Qed.

Lemma need_key_all_working ttg l i :
  need_key initial_counts ttg (set_is_working true <$> l) i
  = need_key initial_counts ttg l i.
Proof.
  unfold need_key. rewrite list_lookup_fmap. by destruct (l !! i).
Qed.

Lemma ladder_visit_all_working l i acc :
  ladder_visit (set_is_working true <$> l) i acc = ladder_visit l i acc.
Proof.
  unfold ladder_visit. destruct acc as [tag n]. rewrite list_lookup_fmap.
  by destruct (l !! i).
Qed.

Lemma ladder_while_all_working fuel l idxs acc :
  ladder_while initial_counts fuel (set_is_working true <$> l) idxs acc
  = ladder_while initial_counts fuel l idxs acc.
Proof.
  revert acc. induction fuel as [|fuel IH]; intros acc; simpl; [done|].
  destruct (0 <? acc.2); [|done].
  rewrite (sorted_ext _ _ (ladder_key initial_counts l acc.1))
    by (intros; apply ladder_key_all_working).
  destruct (sorted _ _ idxs) as [r| |]; simpl; try done.
  rewrite (for_each_ext _ (ladder_visit l))
    by (intros; apply ladder_visit_all_working).
  destruct (for_each _ r acc) as [acc'| |]; simpl; try done.
Qed.

Lemma ladder_all_working l idxs num_physicians remaining :
  ladder initial_counts (set_is_working true <$> l) idxs num_physicians
    remaining
  = ladder initial_counts l idxs num_physicians remaining.
Proof.
  unfold ladder. rewrite objects_all_working, map_fmap_compose. simpl.
  destruct (_ <? _).
  - by rewrite ladder_while_all_working.
  - rewrite (for_each_ext _ (ladder_visit l))
      by (intros; apply ladder_visit_all_working).
    destruct (for_each _ idxs _) as [acc| |]; simpl; try done.
    by rewrite ladder_while_all_working.
Qed.

Lemma target_total_gains_all_working ps base remainder :
  target_total_gains_of (set_is_working true <$> ps) base remainder
  = target_total_gains_of ps base remainder.
Proof. unfold target_total_gains_of. by rewrite imap_fmap. Qed.

Lemma phase4_visit_all_working ttg i acc :
  phase4_visit maximum_patients initial_counts ttg i
    (prod_map (prod_map all_working id) id acc)
  = outcome_map (ctl_map (prod_map (prod_map all_working id) id))
      (phase4_visit maximum_patients initial_counts ttg i acc).
Proof.
  destruct acc as [[s r] m]. unfold phase4_visit, prod_map. simpl fst.
  simpl snd. rewrite lookup_all_working.
  destruct (roster s !! i) as [p|]; [|done]. simpl.
  destruct (is_new p); [done|].
  destruct (dict_index initial_counts (name p)) as [v| |]; simpl; try done.
  unfold can_take_patient, team_is; simpl.
  destruct (_ || _); [done|].
  change (own_pool (set_is_working true p) (all_working s))
    with (own_pool p s).
  rewrite !take_all_working.
  destruct (own_pool p s) as [k|]; [rewrite take_all_working|];
    repeat (case_match; try done).
Qed.

Lemma phase4_while_all_working fuel ttg idxs max_iterations iteration s r :
  phase4_while maximum_patients initial_counts fuel ttg idxs max_iterations
    iteration (all_working s, r)
  = outcome_map all_working
      (phase4_while maximum_patients initial_counts fuel ttg idxs
         max_iterations iteration (s, r)).
Proof.
  revert iteration s r. induction fuel as [|fuel IH]; intros iteration s r;
    simpl; destruct (_ && _); try done.
  change (all_working s, r, false)
    with (prod_map (prod_map all_working id) id (s, r, false)).
  rewrite (for_each_commute (prod_map (prod_map all_working id) id))
    by apply phase4_visit_all_working.
  destruct (for_each _ idxs (s, r, false)) as [[[t r'] m]| |]; simpl;
    try done.
  destruct m; simpl; [|done]. apply IH.
Qed.

Lemma final_visit_all_working ttg i acc :
  final_visit maximum_patients initial_counts ttg i
    (prod_map all_working id acc)
  = outcome_map (ctl_map (prod_map all_working id))
      (final_visit maximum_patients initial_counts ttg i acc).
Proof.
  destruct acc as [s r]. unfold final_visit, prod_map. simpl fst. simpl snd.
  rewrite lookup_all_working.
  destruct (roster s !! i) as [p|]; [|done]. simpl.
  destruct (is_new p); [done|].
  destruct (r <=? 0); [done|].
  destruct (dict_index initial_counts (name p)) as [v| |]; simpl; try done.
  unfold can_take_patient; simpl.
  destruct (_ || _); [done|].
  rewrite !take_all_working.
  repeat (case_match; try done).
Qed.

Lemma phase4_distribute_all_working non_new current_gains remaining s :
  phase4_distribute maximum_patients initial_counts non_new current_gains
    remaining (all_working s)
  = outcome_map all_working
      (phase4_distribute maximum_patients initial_counts non_new
         current_gains remaining s).
Proof.
  unfold phase4_distribute.
  change (roster (all_working s)) with (set_is_working true <$> roster s).
  change (pools_left (all_working s)) with (pools_left s).
  destruct (0 <? _); [|done].
  rewrite (sorted_ext _ _ (initial_key initial_counts (roster s)))
    by (intros; apply initial_key_all_working).
  destruct (sorted _ _ non_new) as [sp| |]; simpl; try done.
  rewrite ladder_all_working.
  destruct (ladder _ _ _ _ _) as [tag| |]; simpl; try done.
  rewrite objects_all_working, map_fmap_compose,
    target_total_gains_all_working. simpl.
  rewrite phase4_while_all_working.
  destruct (phase4_while _ _ _ _ _ _ _ _) as [s1| |]; simpl; try done.
  change (pools_left (all_working s1)) with (pools_left s1).
  destruct (0 <? pools_left s1); [|done].
  change (roster (all_working s1)) with (set_is_working true <$> roster s1).
  rewrite (sorted_ext _ _ (need_key initial_counts _ (roster s1)))
    by (intros; apply need_key_all_working).
  destruct (sorted _ _ sp) as [sn| |]; simpl; try done.
  change (all_working s1, pools_left s1)
    with (prod_map all_working id (s1, pools_left s1)).
  rewrite (for_each_commute (prod_map all_working id))
    by apply final_visit_all_working.
  by destruct (for_each _ sn _) as [[s2 r2]| |].
Qed.

Lemma filter_all_working f l idxs :
  (∀ p, f (set_is_working true p) = f p) →
  List.filter (holds f (set_is_working true <$> l)) idxs
  = List.filter (holds f l) idxs.
Proof. intros Hf. apply filter_ext. intros i. by apply holds_all_working. Qed.

Lemma phase4_all_working s :
  phase4 maximum_patients initial_counts team_N (all_working s)
  = outcome_map all_working
      (phase4 maximum_patients initial_counts team_N s).
Proof.
  unfold phase4. rewrite positions_all_working.
  change (roster (all_working s)) with (set_is_working true <$> roster s).
  rewrite !filter_all_working by done.
  rewrite objects_all_working, current_gains_all_working.
  destruct (current_gains_of _ _) as [cg0| |]; simpl; try done.
  change (n_N_new_patients (all_working s)) with (n_N_new_patients s).
  set (non_new := List.filter (holds not_new (roster s)) _).
  set (team_N_non_new := List.filter _ team_N).
  assert ((if nonempty team_N_non_new && (0 <? n_N_new_patients s)
           then team_N_sorted <-
                  sorted Z.leb (total_key (set_is_working true <$> roster s))
                    team_N_non_new ;;
                for_each (team_N_visit maximum_patients) team_N_sorted
                  (all_working s)
           else Ok (all_working s))
          = outcome_map all_working
              (if nonempty team_N_non_new && (0 <? n_N_new_patients s)
               then team_N_sorted <-
                      sorted Z.leb (total_key (roster s)) team_N_non_new ;;
                    for_each (team_N_visit maximum_patients) team_N_sorted s
               else Ok s)) as ->.
  { destruct (_ && _); [|done].
    rewrite (sorted_ext _ _ (total_key (roster s)))
      by (intros; apply total_key_all_working).
    destruct (sorted _ _ team_N_non_new) as [ns| |]; simpl; try done.
    apply for_each_commute, team_N_visit_all_working. }
  destruct (if nonempty team_N_non_new && _ then _ else _) as [s1| |];
    simpl; try done.
  change (roster (all_working s1)) with (set_is_working true <$> roster s1).
  rewrite objects_all_working, current_gains_all_working.
  destruct (current_gains_of _ _) as [cg| |]; simpl; try done.
  change (pools_left (all_working s1)) with (pools_left s1).
  destruct (_ && _); [|done].
  apply phase4_distribute_all_working.
Qed.
End Working.

(** C10. Let two states differ in their [is_working] flags at most.  Then
    phases 2, 3 and 4 do the same to both: the two results (or the two
    failures) again differ in [is_working] flags at most, so these phases
    never consult the flag.  And a physician who is not working is served:
    in the sample ward, phase 2 lifts the non-working [Dey] from 4 to the
    minimum of 10 out of the Team A pool, and phase 4 shares 4 units evenly
    between the twins, of which one is not working. *)
Theorem is_working_only_in_phase1 mx mn ns ic tN s s' :
  all_working s = all_working s' →
  (outcome_map all_working (phase2 mx mn s)
   = outcome_map all_working (phase2 mx mn s')
   ∧ outcome_map all_working (phase3 mx ns s)
     = outcome_map all_working (phase3 mx ns s')
   ∧ outcome_map all_working (phase4 mx ic tN s)
     = outcome_map all_working (phase4 mx ic tN s'))
  ∧ (∃ s2 p,
       phase2 14 10 (mkState ward 20 8 8 4 3) = Ok s2
       ∧ ward !! 5%nat
         = Some (mkPhysician "Dey" false "A" false false "" 4 0 0 1)
       ∧ roster s2 !! 5%nat = Some p
       ∧ is_working p = false
       ∧ total_patients p = 10)
  ∧ (∃ s4,
       phase4 20 (snapshot total_patients twins) (team_positions "N" twins)
         (mkState twins 4 4 0 0 0) = Ok s4
       ∧ map is_working (roster s4) = [true; false]
       ∧ map total_patients twins = [9; 9]
       ∧ map total_patients (roster s4) = [11; 11]).
Proof.
  intros Hsame. split; [|split].
  - rewrite <- !phase2_all_working, <- !phase3_all_working,
      <- !phase4_all_working, Hsame. done.
  - eexists _, _. split; [vm_compute; reflexivity|].
    repeat split; reflexivity.
  - eexists. split; [vm_compute; reflexivity|]. repeat split; reflexivity.
Qed.

Lemma is_working_only_in_phase1_witness :
  (outcome_map all_working (phase2 14 10 (mkState ward 20 8 8 4 3))
   = outcome_map all_working
       (phase2 14 10
          (mkState (set_is_working false <$> ward) 20 8 8 4 3))
   ∧ outcome_map all_working (phase3 14 6 (mkState ward 20 8 8 4 3))
     = outcome_map all_working
         (phase3 14 6 (mkState (set_is_working false <$> ward) 20 8 8 4 3))
   ∧ outcome_map all_working
       (phase4 14 (snapshot total_patients ward) (team_positions "N" ward)
          (mkState ward 20 8 8 4 3))
     = outcome_map all_working
         (phase4 14 (snapshot total_patients ward) (team_positions "N" ward)
            (mkState (set_is_working false <$> ward) 20 8 8 4 3)))
  ∧ (∃ s2 p,
       phase2 14 10 (mkState ward 20 8 8 4 3) = Ok s2
       ∧ ward !! 5%nat
         = Some (mkPhysician "Dey" false "A" false false "" 4 0 0 1)
       ∧ roster s2 !! 5%nat = Some p
       ∧ is_working p = false
       ∧ total_patients p = 10)
  ∧ (∃ s4,
       phase4 20 (snapshot total_patients twins) (team_positions "N" twins)
         (mkState twins 4 4 0 0 0) = Ok s4
       ∧ map is_working (roster s4) = [true; false]
       ∧ map total_patients twins = [9; 9]
       ∧ map total_patients (roster s4) = [11; 11]).
Proof.
  apply (is_working_only_in_phase1 14 10 6 (snapshot total_patients ward)
           (team_positions "N" ward) (mkState ward 20 8 8 4 3)
           (mkState (set_is_working false <$> ward) 20 8 8 4 3)).
  vm_compute. reflexivity.
Defined.

(** ** Remark: why conservation asks for unique names *)

(** Two physicians share a name; the snapshot keeps the later one's count
    (0), so phase 5 takes the first, a new physician, for one that has
    gained 3 patients and removes them: the census changes although no pool
    does. *)
Example duplicate_names_reversal :
  ∃ a,
    allocate_patients
      [ mkPhysician "Khan" true "A" false true "" 3 0 0 0;
        mkPhysician "Khan" false "B" false true "" 0 0 0 0 ]
      0 0 0 0 0 0 0 20 = Ok a
    ∧ map total_patients (final_roster a) = [0; 0]
    ∧ remaining_pools a = mkRemainingPools 0 0 0 0 0.
Proof. eexists. repeat split; vm_compute; reflexivity. Qed.

(** * Further properties of the code *)

(** ** models.py: adding and removing a patient *)

(** X1. Removing undoes adding: after [add_patient] on a counter that is not
    negative, [remove_patient] of the same kind succeeds and gives the
    physician back. *)
Theorem remove_after_add is_step_down p :
  0 ≤ patient_count is_step_down p →
  remove_patient is_step_down (add_patient is_step_down p) = Ok p.
Proof.
  destruct p, is_step_down; unfold remove_patient, add_patient; simpl;
    intros H.
  - destruct (_ <? 1) eqn:E; [bools; lia|].
    unfold set_step_down_patients; simpl. do 2 f_equal. lia.
  - destruct (_ <? 1) eqn:E; [bools; lia|].
    unfold set_total_patients; simpl. do 2 f_equal. lia.
Qed.

Lemma remove_after_add_witness :
  0 ≤ patient_count true (mkPhysician "Ali" false "B" false true "" 5 0 0 0)
  ∧ remove_patient true
      (add_patient true (mkPhysician "Ali" false "B" false true "" 5 0 0 0))
    = Ok (mkPhysician "Ali" false "B" false true "" 5 0 0 0).
Proof.
  split; [simpl; lia|].
  apply (remove_after_add true
           (mkPhysician "Ali" false "B" false true "" 5 0 0 0)).
  simpl. lia.
Defined.

(** X2. [remove_patient] fails exactly when the counter it works on is
    below 1, with the message of that counter; when it succeeds the counter
    is still not negative, the other counter and the other fields are
    untouched, and [add_patient] of the same kind gives the physician
    back. *)
Theorem remove_patient_cases is_step_down p :
  (patient_count is_step_down p < 1 →
   remove_patient is_step_down p
   = Raised (if is_step_down
             then "You don't have any step-down patients"
             else "You don't have any patients"))
  ∧ (1 ≤ patient_count is_step_down p →
     ∃ p', remove_patient is_step_down p = Ok p'
           ∧ patient_count is_step_down p'
             = patient_count is_step_down p - 1
           ∧ 0 ≤ patient_count is_step_down p'
           ∧ patient_count (negb is_step_down) p'
             = patient_count (negb is_step_down) p
           ∧ static p' = static p
           ∧ add_patient is_step_down p' = p).
Proof.
  destruct p, is_step_down; unfold remove_patient, add_patient; simpl;
    (split; intros H;
     [ destruct (_ <? 1) eqn:E; [done | bools; lia]
     | destruct (_ <? 1) eqn:E; [bools; lia|];
       eexists; split; [reflexivity|]; simpl;
       repeat split; try lia;
       unfold set_step_down_patients, set_total_patients; simpl;
       f_equal; lia ]).
Qed.

(** ** models.py: to_dict and from_dict *)

(** X3. [from_dict] reads back what [to_dict] wrote. *)
Theorem from_dict_to_dict p : from_dict (to_dict p) = p.
Proof. by destruct p. Qed.

(** X4. [to_dict] after [from_dict] gives a dictionary back exactly when
    it binds each of the ten keys and no other key: a missing key comes back
    bound to its default, and any other key is dropped. *)
Theorem to_dict_from_dict data :
  to_dict (from_dict data) = data ↔ complete data ∧ other_keys data = ∅.
Proof.
  destruct data as [a b c d e f g h i j o]. unfold complete; simpl. split.
  - intros [= Ha Hb Hc Hd He Hf Hg Hh Hi Hj Ho].
    repeat split; try (eexists; symmetry; eassumption). done.
  - intros [([? ->] & [? ->] & [? ->] & [? ->] & [? ->] & [? ->] & [? ->]
             & [? ->] & [? ->] & [? ->]) ->].
    done.
Qed.

Lemma to_dict_from_dict_witness :
  to_dict (from_dict
             (mkPhysicianDict (Some "Ali") (Some "Aung") (Some "B") (Some true)
                (Some false) (Some true) (Some 5) (Some 1) (Some 0) (Some 2)
                ∅))
  = mkPhysicianDict (Some "Ali") (Some "Aung") (Some "B") (Some true)
      (Some false) (Some true) (Some 5) (Some 1) (Some 0) (Some 2) ∅
  ∧ to_dict (from_dict
               (mkPhysicianDict (Some "Ali") (Some "Aung") (Some "B")
                  (Some true) (Some false) (Some true) (Some 5) (Some 1)
                  (Some 0) (Some 2) {["id" := VInt 7]}))
    ≠ mkPhysicianDict (Some "Ali") (Some "Aung") (Some "B") (Some true)
        (Some false) (Some true) (Some 5) (Some 1) (Some 0) (Some 2)
        {["id" := VInt 7]}.
Proof.
  split.
  - apply to_dict_from_dict. unfold complete; simpl.
    repeat split; eexists; reflexivity.
  - intros H. apply to_dict_from_dict in H as [_ H]. simpl in H.
    by apply (map_non_empty_singleton "id" (VInt 7)).
Defined.

(** ** prototypes/physician.py *)

(** X5. In the earlier class, too, removing undoes adding, as soon as
    [total_patients] is not negative. *)
Theorem prototype_remove_after_add is_step_down p :
  0 ≤ Prototype.total_patients p →
  Prototype.remove_patient is_step_down
    (Prototype.add_patient is_step_down p) = Ok p.
Proof.
  destruct p, is_step_down;
    unfold Prototype.remove_patient, Prototype.add_patient; simpl; intros H;
    (destruct (_ <? 1) eqn:E; [bools; lia|]); do 2 f_equal; lia.
Qed.

Lemma prototype_remove_after_add_witness :
  Prototype.remove_patient true
    (Prototype.add_patient true (Prototype.mkPhysician "A1" false "A" 3 0 0 0))
  = Ok (Prototype.mkPhysician "A1" false "A" 3 0 0 0).
Proof.
  apply (prototype_remove_after_add true
           (Prototype.mkPhysician "A1" false "A" 3 0 0 0)).
  simpl. lia.
Defined.

(** X6. The earlier class does not look at [step_down_patients] before it
    removes a step-down patient: a physician with patients but no step-down
    patient ends with a negative step-down count, where [models.py]
    raises. *)
Theorem prototype_step_down_unguarded p :
  1 ≤ Prototype.total_patients p →
  Prototype.step_down_patients p ≤ 0 →
  ∃ p', Prototype.remove_patient true p = Ok p'
        ∧ Prototype.step_down_patients p' < 0
        ∧ Prototype.step_down_patients p'
          = Prototype.step_down_patients p - 1.
Proof.
  intros Htotal Hsd. unfold Prototype.remove_patient.
  destruct (_ <? 1) eqn:E; [bools; lia|].
  eexists. split; [reflexivity|]. simpl. lia.
Qed.

Lemma prototype_step_down_unguarded_witness :
  ∃ p', Prototype.remove_patient true
          (Prototype.mkPhysician "A1" false "A" 3 0 0 0) = Ok p'
        ∧ Prototype.step_down_patients p' < 0
        ∧ Prototype.step_down_patients p'
          = Prototype.step_down_patients
              (Prototype.mkPhysician "A1" false "A" 3 0 0 0) - 1.
Proof.
  apply (prototype_step_down_unguarded
           (Prototype.mkPhysician "A1" false "A" 3 0 0 0)); simpl; lia.
Defined.

(** ** allocation.py: what a run keeps *)

Lemma Forall2_static_map (R : Physician → Physician → Prop) l l' :
  (∀ p p', R p p' → static p' = static p) →
  Forall2 R l l' → map static l' = map static l.
Proof.
  intros HR. induction 1 as [|p p' l l' Hp _ IH]; simpl; [done|].
  by rewrite (HR _ _ Hp), IH.
Qed.

(** X7. A run neither adds, nor drops, nor reorders, nor renames
    physicians: the roster it leaves has the same length and, position by
    position, the same name, team, flags, [yesterday], transferred and
    traded counts as the roster it was given, and the results list the same
    names in the same order. *)
Theorem roster_kept physicians nt nA nB nN ns mn nsd mx a :
  allocate_patients physicians nt nA nB nN ns mn nsd mx = Ok a →
  map static (final_roster a) = map static physicians
  ∧ length (final_roster a) = length physicians
  ∧ map row_name (results a) = map name physicians.
Proof.
  intros (s4 & H4 & Htrim & _ & Hres)%allocate_patients_returns.
  destruct H4 as [Hroster _ _ _ _ _ _ _]. simpl in Hroster.
  assert (map static (final_roster a) = map static physicians) as Hstatic.
  { rewrite (Forall2_static_map trimmed (roster s4) (final_roster a));
      [|by intros ? ? (? & _) | done].
    apply (Forall2_static_map _ _ _ (λ p p' H, grew_static _ _ _ _ _ H)
             Hroster). }
  split; [done|]. split.
  - rewrite <- (length_map static), Hstatic. apply length_map.
  - rewrite Hres, map_map. simpl.
    pose proof (f_equal (map (λ x, x.1.1.1.1.1.1.1)) Hstatic) as Hn.
    by rewrite !map_map in Hn.
Qed.

Lemma roster_kept_witness :
  ∃ a, allocate_patients ward 20 8 8 4 6 10 3 14 = Ok a
       ∧ map static (final_roster a) = map static ward
       ∧ length (final_roster a) = length ward
       ∧ map row_name (results a) = map name ward.
Proof.
  eexists. split; [vm_compute; reflexivity|].
  apply (roster_kept ward 20 8 8 4 6 10 3 14). vm_compute. reflexivity.
Defined.

(** X8. With unique names the allocator returns a value for every roster,
    every pool count and every parameter, negative ones included: phase 5
    then never has anything to remove. *)
Theorem unique_names_never_raise physicians nt nA nB nN ns mn nsd mx :
  NoDup (map name physicians) →
  ∃ a, allocate_patients physicians nt nA nB nN ns mn nsd mx = Ok a
       ∧ Forall2 (λ p0 p, total_patients p0 ≤ total_patients p
                          ∧ step_down_patients p0 ≤ step_down_patients p)
           physicians (final_roster a).
Proof.
  intros Hnd.
  destruct (allocate_patients_unique physicians nt nA nB nN ns mn nsd mx Hnd)
    as (s4 & H4 & ->).
  eexists. split; [reflexivity|]. simpl.
  destruct H4 as [Hroster _ _ _ _ _ _ _]. simpl in Hroster.
  eapply Forall2_impl; [done|]. intros p0 p Hg.
  split; [apply (grew_total_lower _ _ _ _ _ Hg)
         | apply (grew_step_down_lower _ _ _ _ _ Hg)].
Qed.

Lemma unique_names_never_raise_witness :
  ∃ a, allocate_patients ward 20 8 8 4 6 10 3 14 = Ok a
       ∧ Forall2 (λ p0 p, total_patients p0 ≤ total_patients p
                          ∧ step_down_patients p0 ≤ step_down_patients p)
           ward (final_roster a).
Proof.
  apply (unique_names_never_raise ward 20 8 8 4 6 10 3 14).
  refine (bool_decide_unpack _ _). vm_compute. exact I.
Defined.

(** X9. With unique names no reported gain is negative: every
    ["gained"] and every ["gained_step_down"] of the results is at least
    0. *)
Theorem gains_not_negative physicians nt nA nB nN ns mn nsd mx a :
  NoDup (map name physicians) →
  allocate_patients physicians nt nA nB nN ns mn nsd mx = Ok a →
  Forall (λ r, 0 ≤ gained r ∧ 0 ≤ gained_step_down r) (results a).
Proof.
  intros Hnd.
  destruct (allocate_patients_unique physicians nt nA nB nN ns mn nsd mx Hnd)
    as (s4 & H4 & ->).
  intros [= <-]. simpl.
  destruct H4 as [Hroster _ _ _ _ _ _ _]. simpl in Hroster.
  pose proof (gains_of_unique_names _ _ _ _ Hnd Hroster) as Hgains.
  apply Forall_fmap, Forall_lookup. intros i p Hp.
  destruct (Forall2_lookup_r _ _ _ _ _ Hgains Hp) as (p0 & Hp0 & Hg & Hsd).
  pose proof (Forall2_lookup_lr _ _ _ _ _ _ Hroster Hp0 Hp) as Hgrew.
  unfold compose. rewrite Hg, Hsd.
  pose proof (grew_total_lower _ _ _ _ _ Hgrew).
  pose proof (grew_step_down_lower _ _ _ _ _ Hgrew). lia.
Qed.

Lemma gains_not_negative_witness :
  ∃ a, allocate_patients ward 20 8 8 4 6 10 3 14 = Ok a
       ∧ Forall (λ r, 0 ≤ gained r ∧ 0 ≤ gained_step_down r) (results a).
Proof.
  eexists. split; [vm_compute; reflexivity|].
  apply (gains_not_negative ward 20 8 8 4 6 10 3 14).
  - refine (bool_decide_unpack _ _). vm_compute. exact I.
  - vm_compute. reflexivity.
Defined.

(** X10. No pool grows: each of the five returned counters is at most the
    value that was supplied. *)
Theorem pools_never_grow physicians nt nA nB nN ns mn nsd mx a :
  allocate_patients physicians nt nA nB nN ns mn nsd mx = Ok a →
  rem_total_new_patients (remaining_pools a) ≤ nt
  ∧ rem_A_new_patients (remaining_pools a) ≤ nA
  ∧ rem_B_new_patients (remaining_pools a) ≤ nB
  ∧ rem_N_new_patients (remaining_pools a) ≤ nN
  ∧ rem_step_down_patients (remaining_pools a) ≤ nsd.
Proof.
  intros (s4 & H4 & _ & -> & _)%allocate_patients_returns.
  destruct H4 as [_ _ _ Hlock [_ ?] [_ ?] [_ ?] [_ ?]]. simpl in *.
  repeat split; lia.
Qed.

Lemma pools_never_grow_witness :
  ∃ a, allocate_patients ward 20 8 8 4 6 10 3 14 = Ok a
       ∧ rem_total_new_patients (remaining_pools a) ≤ 20
       ∧ rem_A_new_patients (remaining_pools a) ≤ 8
       ∧ rem_B_new_patients (remaining_pools a) ≤ 8
       ∧ rem_N_new_patients (remaining_pools a) ≤ 4
       ∧ rem_step_down_patients (remaining_pools a) ≤ 3.
Proof.
  eexists. split; [vm_compute; reflexivity|].
  apply (pools_never_grow ward 20 8 8 4 6 10 3 14). vm_compute. reflexivity.
Defined.

(** ** allocation.py: new physicians stop at the start number *)

Lemma transfers_new_bound mx ns isd s0 s :
  rtc (transfer mx ns isd) s0 s →
  ∀ i p0 p,
    roster s0 !! i = Some p0 → roster s !! i = Some p →
    is_new p0 = true →
    total_patients p ≤ Z.max (total_patients p0) ns.
Proof.
  intros H. revert s H.
  apply (rtc_ind_r
           (λ s, ∀ i p0 p,
              roster s0 !! i = Some p0 → roster s !! i = Some p →
              is_new p0 = true →
              total_patients p ≤ Z.max (total_patients p0) ns)).
  - intros i p0 p Hp0 Hp Hnew. assert (p = p0) as -> by congruence. lia.
  - intros y z Hrtc Hstep IH i p0 p Hp0 Hp Hnew.
    destruct Hstep as [k j pj t Hj Hroom Hpool Hserved | j pj t Hj Hgain Hpool].
    + rewrite lookup_take in Hp. destruct (decide (j = i)) as [->|Hne].
      * rewrite Hj in Hp. injection Hp as <-. simpl.
        pose proof (IH _ _ _ Hp0 Hj Hnew).
        pose proof (evolved_is_new _ _ _ _ _ _ _ _ Hrtc Hp0 Hj) as Hsame.
        destruct Hserved as [Hold|Hlt]; [congruence | lia].
      * by eapply IH.
    + unfold give_step_down in Hp; simpl in Hp.
      rewrite list_lookup_alter in Hp.
      destruct (decide (j = i)) as [->|Hne].
      * rewrite Hj in Hp. injection Hp as <-. simpl. by eapply IH.
      * by eapply IH.
Qed.

(** X11. A new physician never ends above [new_start_number], unless it
    came in above it: its final total is at most the larger of
    [new_start_number] and its total before the call. *)
Theorem new_physician_bound physicians nt nA nB nN ns mn nsd mx a i p0 p :
  allocate_patients physicians nt nA nB nN ns mn nsd mx = Ok a →
  physicians !! i = Some p0 →
  is_new p0 = true →
  final_roster a !! i = Some p →
  total_patients p ≤ Z.max (total_patients p0) ns.
Proof.
  destruct (allocate_patients_run physicians nt nA nB nN ns mn nsd mx)
    as (s4 & H4 & ->).
  destruct (phase5 _ _ s4) as [s5| |] eqn:H5; try done. simpl.
  intros [= <-] Hp0 Hnew Hp. simpl in Hp.
  apply phase5_trims in H5 as [Htrim _].
  destruct (Forall2_trimmed_lookup _ _ _ _ Htrim Hp) as (p4 & Hp4 & _ & _ & ?).
  pose proof (transfers_new_bound _ _ _ _ _ H4 i p0 p4 Hp0 Hp4 Hnew). lia.
Qed.

Lemma new_physician_bound_witness :
  ∃ a p0 p,
    allocate_patients ward 20 8 8 4 6 10 3 14 = Ok a
    ∧ ward !! 3%nat = Some p0
    ∧ final_roster a !! 3%nat = Some p
    ∧ total_patients p ≤ Z.max (total_patients p0) 6.
Proof.
  eexists _, _, _.
  split; [vm_compute; reflexivity|].
  split; [reflexivity|]. split; [reflexivity|].
  eapply (new_physician_bound ward 20 8 8 4 6 10 3 14 _ 3%nat);
    [vm_compute; reflexivity | reflexivity | reflexivity | reflexivity].
Defined.

(** ** allocation.py: runs with nothing to move *)

Lemma transfers_stuck mx ns isd s0 s :
  (∀ s', ¬ transfer mx ns isd s0 s') →
  rtc (transfer mx ns isd) s0 s → s = s0.
Proof.
  intros Hstuck [->|(y & Hy & _)]%rtc_inv; [done|]. by apply Hstuck in Hy.
Qed.

Lemma allocate_patients_unique_run physicians nt nA nB nN ns mn nsd mx :
  NoDup (map name physicians) →
  ∃ s4,
    rtc (transfer mx ns (snapshot step_down_patients physicians))
      (mkState physicians nt nA nB nN nsd) s4
    ∧ allocate_patients physicians nt nA nB nN ns mn nsd mx
      = Ok (mkAllocation (roster s4)
              (map (result_row (snapshot total_patients physicians)
                      (snapshot step_down_patients physicians)) (roster s4))
              (summarize
                 (map (result_row (snapshot total_patients physicians)
                         (snapshot step_down_patients physicians))
                    (roster s4)))
              (remaining_pools_of s4)).
Proof.
  intros Hnd.
  destruct (allocate_patients_run physicians nt nA nB nN ns mn nsd mx)
    as (s4 & H4 & ->).
  exists s4. split; [done|].
  pose proof (transfers_evolved _ _ _ _ _ H4) as Hev.
  rewrite phase5_idle; [done|].
  intros i p Hi Hnew Hge.
  destruct (evolved_lookup _ _ _ _ _ _ _ Hev Hi) as (p0 & Hp0 & Hg).
  simpl in Hp0.
  destruct (static_fields _ _ (grew_static _ _ _ _ _ Hg)) as (Hn & Hnw & _).
  unfold dict_get in *. rewrite Hn in *.
  pose proof (snapshot_unique total_patients physicians p0 Hnd
                (list_elem_of_lookup_2 _ _ _ Hp0)) as Hsnap.
  rewrite Hsnap in *. simpl in *.
  rewrite (grew_frozen _ _ _ _ _ Hg); [lia | congruence | done].
Qed.

(** X12. With unique names and nothing to distribute (no team pool and no
    step-down pool above 0) the run changes nothing: the roster comes back
    as it was and the five counters as they were supplied, whatever
    [n_total_new_patients] says. *)
Theorem nothing_to_distribute physicians nt nA nB nN ns mn nsd mx :
  NoDup (map name physicians) →
  nA ≤ 0 → nB ≤ 0 → nN ≤ 0 → nsd ≤ 0 →
  ∃ a, allocate_patients physicians nt nA nB nN ns mn nsd mx = Ok a
       ∧ final_roster a = physicians
       ∧ remaining_pools a = mkRemainingPools nt nA nB nN nsd.
Proof.
  intros Hnd HA HB HN HSD.
  destruct (allocate_patients_unique_run physicians nt nA nB nN ns mn nsd mx
              Hnd) as (s4 & H4 & ->).
  apply transfers_stuck in H4 as ->.
  - eexists. split; [reflexivity|]. done.
  - intros s' Hstep. inversion Hstep as [k ? ? ? ? ? Hpool|? ? ? ? ? Hpool];
      subst; simpl in Hpool; [destruct k; simpl in Hpool|]; lia.
Qed.

Lemma nothing_to_distribute_witness :
  ∃ a, allocate_patients ward 20 0 0 0 6 10 0 14 = Ok a
       ∧ final_roster a = ward
       ∧ remaining_pools a = mkRemainingPools 20 0 0 0 0.
Proof.
  apply (nothing_to_distribute ward 20 0 0 0 6 10 0 14); try lia.
  refine (bool_decide_unpack _ _). vm_compute. exact I.
Defined.

(** X13. An empty roster is accepted: the run returns no result and hands
    the five counters back as supplied. *)
Theorem empty_roster nt nA nB nN ns mn nsd mx :
  ∃ a, allocate_patients [] nt nA nB nN ns mn nsd mx = Ok a
       ∧ final_roster a = []
       ∧ results a = []
       ∧ remaining_pools a = mkRemainingPools nt nA nB nN nsd.
Proof.
  destruct (allocate_patients_unique_run [] nt nA nB nN ns mn nsd mx)
    as (s4 & H4 & ->); [constructor|].
  apply transfers_stuck in H4 as ->.
  - eexists. split; [reflexivity|]. done.
  - intros s' Hstep. inversion Hstep as [? ? ? ? Hi|? ? ? Hi]; subst;
      simpl in Hi; by rewrite lookup_nil in Hi.
Qed.

(** ** allocation.py: the summary *)

Lemma sum_by_team (f : ResultRow → Z) rows :
  Forall (λ r, row_team r = "A" ∨ row_team r = "B" ∨ row_team r = "N") rows →
  sum_Z (map f (List.filter (λ r, String.eqb (row_team r) "A") rows))
  + sum_Z (map f (List.filter (λ r, String.eqb (row_team r) "B") rows))
  + sum_Z (map f (List.filter (λ r, String.eqb (row_team r) "N") rows))
  = sum_Z (map f rows).
Proof.
  induction 1 as [|r rows Hr _ IH]; simpl; [done|].
  destruct Hr as [-> | [-> | ->]]; simpl; lia.
Qed.

Lemma allocate_patients_summary physicians nt nA nB nN ns mn nsd mx a :
  allocate_patients physicians nt nA nB nN ns mn nsd mx = Ok a →
  summary a = summarize (results a)
  ∧ map row_team (results a) = map team physicians
  ∧ map row_total_patients (results a) = map total_patients (final_roster a).
Proof.
  intros Ha. pose proof (roster_kept _ _ _ _ _ _ _ _ _ _ Ha) as (Hst & _).
  revert Ha.
  destruct (allocate_patients_run physicians nt nA nB nN ns mn nsd mx)
    as (s4 & _ & ->).
  destruct (phase5 _ _ s4) as [s5| |]; try done. simpl.
  intros [= <-]. simpl in *. split; [done|].
  rewrite !map_map. simpl. split; [|done].
  pose proof (f_equal (map (λ x, x.1.1.1.1.1.2)) Hst) as Ht.
  by rewrite !map_map in Ht.
Qed.

(** X14. When every physician is on team A, B or N, the three team
    entries of the summary add up to the overall entries: the team totals
    to ["total_census"], the team gains to ["total_gained"], and the team
    step-down gains to the sum of all step-down gains.  (A physician on any
    other team is counted in the overall entries only.) *)
Theorem summary_partition physicians nt nA nB nN ns mn nsd mx a :
  Forall (λ p, team p = "A" ∨ team p = "B" ∨ team p = "N") physicians →
  allocate_patients physicians nt nA nB nN ns mn nsd mx = Ok a →
  team_a_total (summary a) + team_b_total (summary a)
    + team_n_total (summary a) = total_census (summary a)
  ∧ team_a_gained (summary a) + team_b_gained (summary a)
      + team_n_gained (summary a) = total_gained (summary a)
  ∧ team_a_stepdown_gained (summary a) + team_b_stepdown_gained (summary a)
      + team_n_stepdown_gained (summary a)
    = sum_Z (map gained_step_down (results a))
  ∧ total_census (summary a) = census (final_roster a).
Proof.
  intros Hteams (Hsum & Hrows & Htotals)%allocate_patients_summary.
  assert (Forall (λ r, row_team r = "A" ∨ row_team r = "B" ∨ row_team r = "N")
            (results a)) as Hr.
  { apply Forall_lookup. intros i r Hi.
    pose proof (f_equal (λ l, l !! i) Hrows) as Hl. simpl in Hl.
    rewrite !list_lookup_fmap, Hi in Hl. simpl in Hl.
    destruct (physicians !! i) as [p|] eqn:Hp; [|done].
    injection Hl as Hl. rewrite Hl.
    by apply (Forall_lookup_1 _ _ _ _ Hteams Hp). }
  rewrite Hsum. unfold summarize; simpl.
  repeat split; try by apply sum_by_team.
  unfold census. by rewrite Htotals.
Qed.

Lemma summary_partition_witness :
  ∃ a, allocate_patients ward 20 8 8 4 6 10 3 14 = Ok a
       ∧ team_a_total (summary a) + team_b_total (summary a)
           + team_n_total (summary a) = total_census (summary a)
       ∧ team_a_gained (summary a) + team_b_gained (summary a)
           + team_n_gained (summary a) = total_gained (summary a)
       ∧ team_a_stepdown_gained (summary a)
           + team_b_stepdown_gained (summary a)
           + team_n_stepdown_gained (summary a)
         = sum_Z (map gained_step_down (results a))
       ∧ total_census (summary a) = census (final_roster a).
Proof.
  eexists. split; [vm_compute; reflexivity|].
  apply (summary_partition ward 20 8 8 4 6 10 3 14).
  - refine (bool_decide_unpack _ _). vm_compute. exact I.
  - vm_compute. reflexivity.
Defined.

(** ** allocation.py: phase 2 *)

Lemma phase2_fill_fills mx k i l s p :
  roster s !! i = Some p →
  total_patients p + Z.of_nat (length l) ≤ mx →
  ∃ s' p',
    for_each (phase2_fill mx k i) l s = Ok s'
    ∧ roster s' !! i = Some p'
    ∧ total_patients p' = total_patients p + Z.of_nat (length l)
    ∧ pool_count k s' = pool_count k s - Z.of_nat (length l)
    ∧ n_total_new_patients s'
      = n_total_new_patients s - Z.of_nat (length l).
Proof.
  revert s p. induction l as [|x l IH]; intros s p Hp Hroom; simpl.
  - exists s, p. repeat split; [done | lia..].
  - unfold phase2_fill at 1. rewrite Hp. unfold can_take_patient.
    simpl in Hroom.
    destruct (total_patients p <? mx) eqn:E; [|bools; lia].
    destruct (IH (take k i s) (add_patient false p))
      as (s' & p' & -> & Hp' & Ht & Hk & Hn).
    + by rewrite lookup_take, decide_True, Hp.
    + simpl. lia.
    + exists s', p'. rewrite pool_count_take in Hk. simpl in *.
      repeat split; [done | lia..].
Qed.

(** X15. Minimum floor: when the turn of a physician comes in phase 2 and it
    is not new, has at most [minimum_patients - 2] patients, the minimum does
    not exceed the maximum and its own team pool holds at least what it
    lacks, the turn takes it to exactly [minimum_patients], out of that pool
    and out of the total. *)
Theorem minimum_floor mx mn s i p k :
  roster s !! i = Some p →
  is_new p = false →
  total_patients p ≤ mn - 2 →
  mn ≤ mx →
  team_pool (team p) = Some k →
  mn - total_patients p ≤ pool_count k s →
  ∃ s' p',
    phase2_visit mx mn i s = Ok (Continue s')
    ∧ roster s' !! i = Some p'
    ∧ total_patients p' = mn
    ∧ pool_count k s' = pool_count k s - (mn - total_patients p)
    ∧ n_total_new_patients s'
      = n_total_new_patients s - (mn - total_patients p).
Proof.
  intros Hp Hnew Hlow Hmx Hk Hpool.
  destruct (phase2_fill_fills mx k i (range (mn - total_patients p)) s p)
    as (s' & p' & Hfill & Hp' & Ht & Hpk & Hn); [done | |].
  { unfold range. rewrite length_seq. lia. }
  unfold range in Ht, Hpk, Hn. rewrite length_seq in Ht, Hpk, Hn.
  exists s', p'.
  split; [|repeat split; [done | lia..]].
  unfold phase2_visit. rewrite Hp, Hnew. unfold can_take_patient.
  destruct (total_patients p <=? mn - 2) eqn:E1; [|bools; lia].
  destruct (total_patients p <? mx) eqn:E2; [|bools; lia]. simpl.
  unfold team_pool in Hk. unfold team_is.
  destruct (String.eqb (team p) "A").
  { injection Hk as <-. simpl in Hpool.
    rewrite Z.min_l by lia. by rewrite Hfill. }
  destruct (String.eqb (team p) "B").
  { injection Hk as <-. simpl in Hpool.
    rewrite Z.min_l by lia. by rewrite Hfill. }
  destruct (String.eqb (team p) "N"); [|done].
  injection Hk as <-. simpl in Hpool.
  rewrite Z.min_l by lia. by rewrite Hfill.
Qed.

Lemma minimum_floor_witness :
  ∃ s' p',
    phase2_visit 14 10 5%nat (mkState ward 20 8 8 4 3) = Ok (Continue s')
    ∧ roster s' !! 5%nat = Some p'
    ∧ total_patients p' = 10
    ∧ pool_count PoolA s' = 8 - (10 - 4)
    ∧ n_total_new_patients s' = 20 - (10 - 4).
Proof.
  apply (minimum_floor 14 10 (mkState ward 20 8 8 4 3) 5%nat
           (mkPhysician "Dey" false "A" false false "" 4 0 0 1) PoolA);
    [reflexivity | reflexivity | simpl; lia | lia | reflexivity
    | simpl; lia].
Defined.

(** What phase 2 may do to a physician. *)
Lemma phase2_fill_bound mx k i l s s' q :
  for_each (phase2_fill mx k i) l s = Ok s' →
  roster s !! i = Some q →
  ∃ q', roster s' !! i = Some q'
        ∧ static q' = static q
        ∧ step_down_patients q' = step_down_patients q
        ∧ total_patients q ≤ total_patients q'
        ∧ total_patients q' ≤ total_patients q + Z.of_nat (length l)
        ∧ (mx ≤ total_patients q → q' = q).
Proof.
  revert s q. induction l as [|x l IH]; intros s q; simpl.
  - intros [= <-] Hq. exists q. repeat split; try done; lia.
  - unfold phase2_fill at 1. intros H Hq. rewrite Hq in H.
    unfold can_take_patient in H.
    destruct (total_patients q <? mx) eqn:E.
    + bools. destruct (IH (take k i s) (add_patient false q) H)
        as (q' & Hq' & Hst & Hsd & Hlo & Hhi & _).
      { by rewrite lookup_take, decide_True, Hq. }
      exists q'. simpl in *. repeat split; try done; lia.
    + injection H as <-. exists q. repeat split; try done; lia.
Qed.

Lemma phase2_visit_self mx mn i s c q :
  phase2_visit mx mn i s = Ok c →
  roster s !! i = Some q →
  ∃ q', roster (ctl_val c) !! i = Some q'
        ∧ static q' = static q
        ∧ step_down_patients q' = step_down_patients q
        ∧ total_patients q ≤ total_patients q'
        ∧ total_patients q' ≤ Z.max (total_patients q) mn
        ∧ (is_new q = true ∨ mn - 2 < total_patients q
           ∨ mx ≤ total_patients q → q' = q).
Proof.
  unfold phase2_visit. intros H Hq. rewrite Hq in H.
  assert (∃ q', roster s !! i = Some q'
                ∧ static q' = static q
                ∧ step_down_patients q' = step_down_patients q
                ∧ total_patients q ≤ total_patients q'
                ∧ total_patients q' ≤ Z.max (total_patients q) mn
                ∧ (is_new q = true ∨ mn - 2 < total_patients q
                   ∨ mx ≤ total_patients q → q' = q)) as Hsame.
  { exists q. repeat split; try done; lia. }
  destruct (is_new q) eqn:Hnew; [by injection H as <-|].
  destruct (_ && _) eqn:Hc; [|by injection H as <-]. bools.
  unfold can_take_patient in *. bools.
  assert (∀ k n,
            (s' <- for_each (phase2_fill mx k i)
                     (range (Z.min (mn - total_patients q) n)) s ;;
             Ok (Continue s')) = Ok c →
            ∃ q', roster (ctl_val c) !! i = Some q'
                  ∧ static q' = static q
                  ∧ step_down_patients q' = step_down_patients q
                  ∧ total_patients q ≤ total_patients q'
                  ∧ total_patients q' ≤ Z.max (total_patients q) mn
                  ∧ (false = true ∨ mn - 2 < total_patients q
                     ∨ mx ≤ total_patients q → q' = q)) as Hfill.
  { intros k n.
    destruct (for_each (phase2_fill mx k i) _ s) as [s'| |] eqn:E; try done.
    simpl. intros Heq. injection Heq as Heq. rewrite <- Heq. simpl.
    destruct (phase2_fill_bound _ _ _ _ _ _ _ E Hq)
      as (q' & Hq' & Hst & Hsd & Hlo & Hhi & _).
    exists q'. unfold range in Hhi. rewrite length_seq in Hhi.
    repeat split; try done; try lia;
      try (intros [?|[?|?]]; [congruence | lia | lia]). }
  destruct (team_is "A" q); [exact (Hfill _ _ H)|].
  destruct (team_is "B" q); [exact (Hfill _ _ H)|].
  destruct (team_is "N" q); [exact (Hfill _ _ H)|].
  by injection H as <-.
Qed.

(** X16. Phase 2 as a whole: a physician keeps its name, flags and step-down
    count, never loses a patient and never ends above the larger of
    [minimum_patients] and what it had; a physician that is new, or has more
    than [minimum_patients - 2] patients, or is at or above
    [maximum_patients], is left exactly as it was. *)
Theorem phase2_scope mx mn s s' i p :
  phase2 mx mn s = Ok s' →
  roster s !! i = Some p →
  ∃ p', roster s' !! i = Some p'
        ∧ static p' = static p
        ∧ step_down_patients p' = step_down_patients p
        ∧ total_patients p ≤ total_patients p'
        ∧ total_patients p' ≤ Z.max (total_patients p) mn
        ∧ (is_new p = true ∨ mn - 2 < total_patients p
           ∨ mx ≤ total_patients p → p' = p).
Proof.
  intros H Hp. revert H. unfold phase2.
  apply (for_each_post
           (λ t, ∃ p', roster t !! i = Some p'
                       ∧ static p' = static p
                       ∧ step_down_patients p' = step_down_patients p
                       ∧ total_patients p ≤ total_patients p'
                       ∧ total_patients p' ≤ Z.max (total_patients p) mn
                       ∧ (is_new p = true ∨ mn - 2 < total_patients p
                          ∨ mx ≤ total_patients p → p' = p))).
  - exists p. repeat split; try done; lia.
  - intros j t c _ (q & Hq & Hst & Hsd & Hlo & Hhi & Hkeep) Hc.
    destruct (decide (i = j)) as [<-|Hne].
    + destruct (phase2_visit_self _ _ _ _ _ _ Hc Hq)
        as (q' & Hq' & Hst' & Hsd' & Hlo' & Hhi' & Hkeep').
      destruct (static_fields _ _ Hst) as (_ & Hnew & _).
      exists q'. repeat split; try done; try congruence; try lia.
      intros Hcond. rewrite <- (Hkeep Hcond). apply Hkeep'.
      rewrite (Hkeep Hcond). done.
    + rewrite (phase2_visit_elsewhere mx mn i j t c); [|by left | done].
      exists q. done.
Qed.

Lemma phase2_scope_witness :
  ∃ s',
    phase2 14 10 (mkState ward 20 8 8 4 3) = Ok s'
    ∧ ∃ p',
        roster s' !! 0%nat = Some p'
        ∧ static p'
          = static (mkPhysician "Abadi" false "A" false true "" 9 1 0 0)
        ∧ step_down_patients p' = 1
        ∧ 9 ≤ total_patients p'
        ∧ total_patients p' ≤ Z.max 9 10
        ∧ (false = true ∨ 10 - 2 < 9 ∨ 14 ≤ 9 →
           p' = mkPhysician "Abadi" false "A" false true "" 9 1 0 0).
Proof.
  eexists. split; [vm_compute; reflexivity|].
  apply (phase2_scope 14 10 (mkState ward 20 8 8 4 3) _ 0%nat
           (mkPhysician "Abadi" false "A" false true "" 9 1 0 0));
    [vm_compute; reflexivity | reflexivity].
Defined.

(** ** allocation.py: the normalized targets of phase 4 *)

Lemma sum_Z_app l1 l2 : sum_Z (l1 ++ l2) = sum_Z l1 + sum_Z l2.
Proof. induction l1 as [|x l1 IH]; simpl; lia. Qed.

Lemma sum_Z_steps base remainder n :
  sum_Z ((λ i : nat, if Z.of_nat i <? remainder then base + 1 else base)
           <$> seq 0 n)
  = base * Z.of_nat n + Z.min (Z.max remainder 0) (Z.of_nat n).
Proof.
  induction n as [|n IH]; [simpl; lia|].
  rewrite seq_S, fmap_app, sum_Z_app, IH. simpl.
  destruct (Z.of_nat n <? remainder) eqn:E; bools; lia.
Qed.

Lemma target_lookup ps base remainder i p :
  NoDup (map name ps) → ps !! i = Some p →
  dict_get (target_total_gains_of ps base remainder) (name p) 0
  = if Z.of_nat i <? remainder then base + 1 else base.
Proof.
  intros Hnd Hp. unfold dict_get, target_total_gains_of.
  rewrite (dict_of_unique _ (name p)
             (if Z.of_nat i <? remainder then base + 1 else base)); [done| |].
  - rewrite fmap_imap.
    rewrite (imap_ext _ (const name)) by done.
    by rewrite imap_const.
  - apply (elem_of_lookup_imap_2
             (λ i p, (name p,
                      if Z.of_nat i <? remainder then base + 1 else base))
             ps p i Hp).
Qed.

(** X17. Fairness of the targets: for physicians with unique names, the
    normalized targets built from a total [T] are all [T div n] or
    [T div n + 1] (so any two differ by at most 1) and add up to exactly
    [T]. *)
Theorem target_fairness ps T :
  ps ≠ [] →
  NoDup (map name ps) →
  sum_Z (map (λ p, dict_get
                     (target_total_gains_of ps
                        (T `div` Z.of_nat (length ps))
                        (T `mod` Z.of_nat (length ps))) (name p) 0) ps)
  = T
  ∧ Forall (λ p,
              T `div` Z.of_nat (length ps)
              ≤ dict_get
                  (target_total_gains_of ps
                     (T `div` Z.of_nat (length ps))
                     (T `mod` Z.of_nat (length ps))) (name p) 0
              ≤ T `div` Z.of_nat (length ps) + 1) ps.
Proof.
  intros Hne Hnd.
  set (n := Z.of_nat (length ps)).
  assert (0 < n) as Hn by (destruct ps; [done | simpl in n; lia]).
  set (base := T `div` n). set (remainder := T `mod` n).
  pose proof (Z.mod_pos_bound T n Hn) as Hrem.
  pose proof (Z.div_mod T n ltac:(lia)) as Hdiv.
  split.
  - replace (map (λ p, dict_get (target_total_gains_of ps base remainder)
                         (name p) 0) ps)
      with ((λ i : nat, if Z.of_nat i <? remainder then base + 1 else base)
              <$> seq 0 (length ps)).
    { rewrite sum_Z_steps. fold n. fold remainder in Hrem. lia. }
    rewrite <- imap_seq_0. apply list_eq. intros i.
    rewrite list_lookup_imap.
    change (map ?f ps) with (f <$> ps). rewrite list_lookup_fmap.
    destruct (ps !! i) as [p|] eqn:Hp; simpl; [|done].
    by rewrite (target_lookup _ _ _ _ _ Hnd Hp).
  - apply Forall_lookup. intros i p Hp.
    rewrite (target_lookup _ _ _ _ _ Hnd Hp).
    destruct (_ <? _); lia.
Qed.

Lemma target_fairness_witness :
  sum_Z (map (λ p, dict_get
                     (target_total_gains_of ward
                        (7 `div` Z.of_nat (length ward))
                        (7 `mod` Z.of_nat (length ward))) (name p) 0) ward)
  = 7
  ∧ Forall (λ p,
              7 `div` Z.of_nat (length ward)
              ≤ dict_get
                  (target_total_gains_of ward
                     (7 `div` Z.of_nat (length ward))
                     (7 `mod` Z.of_nat (length ward))) (name p) 0
              ≤ 7 `div` Z.of_nat (length ward) + 1) ward.
Proof.
  apply (target_fairness ward 7); [discriminate|].
  refine (bool_decide_unpack _ _). vm_compute. exact I.
Defined.

(** ** allocation.py: who receives the step-down patients *)

(** Transfers that are possible whatever the step-down snapshot is leave the
    step-down counts alone. *)
Lemma transfers_keep_step_down mx ns s s' i p :
  (∀ isd, rtc (transfer mx ns isd) s s') →
  roster s !! i = Some p →
  ∃ p', roster s' !! i = Some p'
        ∧ step_down_patients p' = step_down_patients p
        ∧ static p' = static p.
Proof.
  intros H Hp.
  specialize (H {[name p := step_down_patients p - 1]}).
  apply transfers_evolved in H.
  destruct (evolved_lookup_l _ _ _ _ _ _ _ H Hp)
    as (p' & Hp' & [Hst _ _ _ Hlo Hup]).
  exists p'. unfold dict_get in Hup. rewrite lookup_singleton_eq in Hup.
  simpl in Hup. repeat split; [done | lia | done].
Qed.

Lemma phases_2_4_keep_step_down mx mn ns ic tN s1 s2 s3 s4 i p :
  known_names ic (roster s1) →
  phase2 mx mn s1 = Ok s2 → phase3 mx ns s2 = Ok s3 →
  phase4 mx ic tN s3 = Ok s4 →
  roster s1 !! i = Some p →
  ∃ p', roster s4 !! i = Some p'
        ∧ step_down_patients p' = step_down_patients p
        ∧ static p' = static p.
Proof.
  intros Hk H2 H3 H4 Hp.
  assert (∀ isd, rtc (transfer mx ns isd) s1 s2) as T2.
  { intros isd. destruct (phase2_transfers mx mn ns isd s1) as (t & Ht & ?).
    congruence. }
  assert (∀ isd, rtc (transfer mx ns isd) s2 s3) as T3.
  { intros isd. destruct (phase3_transfers mx ns isd s2) as (t & Ht & ?).
    congruence. }
  assert (known_names ic (roster s3)) as Hk3.
  { eapply (transfers_known_names mx ns ic ∅); [|done]. etrans; eauto. }
  assert (∀ isd, rtc (transfer mx ns isd) s3 s4) as T4.
  { intros isd.
    destruct (phase4_transfers mx ns ic isd tN s3 Hk3) as (t & Ht & ?).
    congruence. }
  apply (transfers_keep_step_down mx ns s1 s4 i p); [|done].
  intros isd. etrans; [apply T2|]. etrans; [apply T3 | apply T4].
Qed.

Lemma lookup_give_step_down i j s :
  roster (give_step_down i s) !! j
  = (if decide (i = j) then add_patient true <$> roster s !! i
     else roster s !! j).
Proof. apply list_lookup_alter. Qed.

(** Phase 1 changes no physician outside the two lists it walks. *)
Lemma phase1_loop_elsewhere isd l s s' i :
  i ∉ l →
  for_each (phase1_visit isd) l s = Ok s' →
  roster s' !! i = roster s !! i.
Proof.
  intros Hi.
  apply (for_each_post (λ t, roster t !! i = roster s !! i)); [done|].
  intros j t c Hj Ht. unfold phase1_visit.
  destruct (_ <=? 0); [by intros [= <-]|].
  destruct (roster t !! j); [|by intros [= <-]].
  destruct (can_take_step_down _ _); intros [= <-]; [|done].
  unfold ctl_val. rewrite lookup_give_step_down, decide_False; [done|].
  by intros ->.
Qed.

Lemma phase1_elsewhere isd tA tB s s' i :
  i ∉ List.filter (holds is_working (roster s)) tB →
  i ∉ List.filter (holds is_working (roster s)) tA →
  phase1 isd tA tB s = Ok s' →
  roster s' !! i = roster s !! i.
Proof.
  intros HB HA. unfold phase1.
  destruct (sorted _ _ (List.filter _ tB)) as [bs| |] eqn:Eb; try done.
  simpl. destruct (for_each _ bs s) as [s1| |] eqn:E1; try done. simpl.
  apply sorted_perm in Eb.
  assert (roster s1 !! i = roster s !! i) as H1.
  { eapply phase1_loop_elsewhere; [|done]. by rewrite Eb. }
  destruct (0 <? _); [|by intros [= <-]].
  destruct (sorted _ _ (List.filter _ tA)) as [as_| |] eqn:Ea; try done.
  simpl. apply sorted_perm in Ea. intros E2.
  rewrite <- H1. eapply phase1_loop_elsewhere; [|done]. by rewrite Ea.
Qed.

Lemma team_positions_elem t physicians i :
  i ∈ List.filter (holds is_working physicians) (team_positions t physicians) →
  ∃ p, physicians !! i = Some p ∧ is_working p = true ∧ team p = t.
Proof.
  intros Hi. pose proof Hi as (p & Hp & Hw)%holds_filter.
  apply list_elem_of_In, filter_In in Hi as [Hi _].
  apply list_elem_of_In in Hi.
  apply holds_filter in Hi as (q & Hq & Ht).
  assert (q = p) as -> by congruence.
  exists p. repeat split; [done | done |].
  by apply String.eqb_eq.
Qed.

(** X18. Step-down patients go to working physicians of teams A and B
    only: a physician who is not working, or is on neither team A nor team
    B, has the same [step_down_patients] after the call as before. *)
Theorem step_down_recipients physicians nt nA nB nN ns mn nsd mx a i p0 p :
  allocate_patients physicians nt nA nB nN ns mn nsd mx = Ok a →
  physicians !! i = Some p0 →
  is_working p0 = false ∨ (team p0 ≠ "A" ∧ team p0 ≠ "B") →
  final_roster a !! i = Some p →
  step_down_patients p = step_down_patients p0.
Proof.
  intros (s1 & s2 & s3 & s4 & s5 & H1 & H2 & H3 & H4 & H5 & Hfinal & _)
    %allocate_patients_phases Hp0 Hout Hp.
  assert (∀ t, i ∉ List.filter (holds is_working physicians)
                     (team_positions t physicians)
               ∨ t ≠ "A" ∧ t ≠ "B") as Hnot.
  { intros t.
    destruct (decide (i ∈ List.filter (holds is_working physicians)
                            (team_positions t physicians)))
      as [Hin|Hnin]; [|by left].
    apply team_positions_elem in Hin as (q & Hq & Hw & Ht).
    assert (q = p0) as -> by congruence.
    destruct Hout as [?|[? ?]]; [congruence|]. right. by subst t. }
  assert (roster s1 !! i = Some p0) as Hp1.
  { rewrite <- Hp0.
    apply (phase1_elsewhere (snapshot step_down_patients physicians)
             (team_positions "A" physicians) (team_positions "B" physicians)
             (mkState physicians nt nA nB nN nsd) s1 i); [| |done]; simpl.
    - destruct (Hnot "B") as [?|[_ ?]]; done.
    - destruct (Hnot "A") as [?|[? _]]; done. }
  destruct (phases_2_4_keep_step_down mx mn ns
              (snapshot total_patients physicians)
              (team_positions "N" physicians) s1 s2 s3 s4 i p0)
    as (p4 & Hp4 & Hsd4 & _); try done.
  { destruct (phase1_transfers mx ns (snapshot step_down_patients physicians)
                (team_positions "A" physicians)
                (team_positions "B" physicians)
                (mkState physicians nt nA nB nN nsd)) as (t & Ht & Hrtc).
    rewrite H1 in Ht. injection Ht as <-.
    eapply transfers_known_names; [done|]. apply snapshot_known. }
  apply phase5_trims in H5 as [Htrim _]. rewrite Hfinal in Hp.
  destruct (Forall2_trimmed_lookup _ _ _ _ Htrim Hp) as (q & Hq & _ & Hsd & _).
  assert (q = p4) as -> by congruence. lia.
Qed.

Lemma step_down_recipients_witness :
  ∃ a p0 p,
    allocate_patients ward 20 8 8 4 6 10 3 14 = Ok a
    ∧ ward !! 5%nat = Some p0
    ∧ final_roster a !! 5%nat = Some p
    ∧ step_down_patients p = step_down_patients p0.
Proof.
  eexists _, _, _.
  split; [vm_compute; reflexivity|].
  split; [reflexivity|]. split; [reflexivity|].
  eapply (step_down_recipients ward 20 8 8 4 6 10 3 14 _ 5%nat);
    [vm_compute; reflexivity | reflexivity | left; reflexivity
    | reflexivity].
Defined.

Lemma NoDup_List_filter {A} (f : A → bool) (l : list A) :
  NoDup l → NoDup (List.filter f l).
Proof.
  induction 1 as [|x l Hx Hl IH]; simpl; [constructor|].
  destruct (f x); [|done]. constructor; [|done].
  intros Hin. apply Hx. apply list_elem_of_In in Hin.
  apply filter_In in Hin as [Hin _]. by apply list_elem_of_In.
Qed.

(** A turn of the Phase 1 loop that leaves the pool above 0 has served
    every physician of its list who could take a step-down patient. *)
Lemma phase1_loop_all isd l s s' :
  NoDup l →
  (∀ i p, i ∈ l → roster s !! i = Some p → can_take_step_down isd p = true) →
  for_each (phase1_visit isd) l s = Ok s' →
  0 < n_step_down_patients s' →
  ∀ i p, i ∈ l → roster s !! i = Some p →
         roster s' !! i = Some (add_patient true p).
Proof.
  revert s. induction l as [|j l IH]; intros s Hnd Hcan Hrun Hleft i p Hi Hp.
  - by apply elem_of_nil in Hi.
  - apply NoDup_cons in Hnd as [Hj Hnd].
    cbn [for_each] in Hrun. unfold phase1_visit in Hrun.
    destruct (n_step_down_patients s <=? 0) eqn:Hpool.
    { injection Hrun as <-. apply Z.leb_le in Hpool. lia. }
    destruct (roster s !! j) as [q|] eqn:Hq.
    + rewrite (Hcan j q) in Hrun; [|left|done].
      apply elem_of_cons in Hi as [->|Hi].
      * assert (q = p) as -> by congruence.
        rewrite (phase1_loop_elsewhere isd l _ s' j Hj Hrun).
        rewrite lookup_give_step_down, decide_True by done. by rewrite Hq.
      * assert (j ≠ i) as Hne by (by intros ->).
        apply (IH (give_step_down j s)); try done.
        -- intros k r Hk.
           rewrite lookup_give_step_down, decide_False by (by intros ->).
           intros Hr. apply (Hcan k r); [by right | done].
        -- by rewrite lookup_give_step_down, decide_False.
    + apply elem_of_cons in Hi as [->|Hi]; [congruence|].
      apply (IH s); try done. intros k r Hk. apply Hcan. by right.
Qed.

Lemma phase1_loop_pool isd l s s' :
  for_each (phase1_visit isd) l s = Ok s' →
  n_step_down_patients s' ≤ n_step_down_patients s.
Proof.
  destruct (phase1_loop_transfers 0 0 isd l s) as (t & -> & Hrtc).
  intros [= <-]. apply transfers_evolved in Hrtc. destruct Hrtc. lia.
Qed.

(** What Phase 1 has done when it ends, [s1] being the state between its
    two loops. *)
Lemma phase1_serves isd tA tB s s' :
  NoDup tA → NoDup tB → (∀ i, i ∈ tA → i ∉ tB) →
  (∀ i p, roster s !! i = Some p → can_take_step_down isd p = true) →
  phase1 isd tA tB s = Ok s' →
  ∃ s1,
    n_step_down_patients s' ≤ n_step_down_patients s1
    ∧ (∀ i p, i ∈ List.filter (holds is_working (roster s)) tB →
              roster s !! i = Some p → 0 < n_step_down_patients s1 →
              roster s' !! i = Some (add_patient true p))
    ∧ (∀ i p, i ∈ List.filter (holds is_working (roster s)) tA →
              roster s !! i = Some p → 0 < n_step_down_patients s' →
              roster s' !! i = Some (add_patient true p))
    ∧ (n_step_down_patients s1 ≤ 0 →
       ∀ i, i ∉ List.filter (holds is_working (roster s)) tB →
            roster s' !! i = roster s !! i).
Proof.
  intros HndA HndB Hdisj Hcan. unfold phase1.
  set (wB := List.filter (holds is_working (roster s)) tB).
  set (wA := List.filter (holds is_working (roster s)) tA).
  assert (∀ i, i ∈ wA → i ∉ wB) as Hdisj'.
  { intros i [Hi _]%list_elem_of_In%filter_In [Hi' _]%list_elem_of_In%filter_In.
    eapply Hdisj; by apply list_elem_of_In. }
  destruct (sorted _ _ wB) as [bs| |] eqn:Eb; try done. simpl.
  destruct (for_each _ bs s) as [s1| |] eqn:E1; try done. simpl.
  apply sorted_perm in Eb.
  assert (NoDup bs) as Hbs
    by (rewrite Eb; unfold wB; by apply NoDup_List_filter).
  assert (∀ i p, i ∈ wB → roster s !! i = Some p →
                 0 < n_step_down_patients s1 →
                 roster s1 !! i = Some (add_patient true p)) as HB.
  { intros i p Hi Hp Hpos.
    apply (phase1_loop_all isd bs s s1); try done; [eauto | by rewrite Eb]. }
  assert (∀ i, i ∉ wB → roster s1 !! i = roster s !! i) as HB'.
  { intros i Hi. eapply phase1_loop_elsewhere; [|done]. by rewrite Eb. }
  destruct (0 <? n_step_down_patients s1) eqn:Hpool.
  - destruct (sorted _ _ wA) as [as_| |] eqn:Ea; try done. simpl.
    apply sorted_perm in Ea. intros E2. apply Z.ltb_lt in Hpool.
    assert (NoDup as_) as Has
      by (rewrite Ea; unfold wA; by apply NoDup_List_filter).
    exists s1. split; [by eapply phase1_loop_pool|]. split; [|split].
    + intros i p Hi Hp _.
      etrans; [|exact (HB i p Hi Hp Hpool)].
      eapply phase1_loop_elsewhere; [|done]. rewrite Ea.
      intros Hi'. by apply (Hdisj' i).
    + intros i p Hi Hp Hpos.
      apply (phase1_loop_all isd as_ s1 s'); try done.
      * intros k r Hk Hr. apply (Hcan k). rewrite <- HB'; [done|].
        apply Hdisj'. by rewrite <- Ea.
      * by rewrite Ea.
      * rewrite HB'; [done | by apply Hdisj'].
    + lia.
  - intros [= <-]. apply Z.ltb_ge in Hpool.
    exists s1. split; [lia|]. split; [|split].
    + intros; lia.
    + intros; lia.
    + intros _ i Hi. by apply HB'.
Qed.

Lemma team_positions_intro t physicians i p :
  physicians !! i = Some p → is_working p = true → team p = t →
  i ∈ List.filter (holds is_working physicians) (team_positions t physicians).
Proof.
  intros Hp Hw Ht. apply list_elem_of_In, filter_In. unfold holds at 1.
  rewrite Hp. split; [|done].
  apply filter_In. unfold holds, positions. rewrite Hp. simpl. split.
  - apply in_seq. apply lookup_lt_Some in Hp. lia.
  - unfold team_is. rewrite Ht. apply String.eqb_refl.
Qed.

Lemma team_positions_NoDup t physicians : NoDup (team_positions t physicians).
Proof. apply NoDup_List_filter, NoDup_seq. Qed.

(** Phase 1 of a call, and what the later phases keep of it. *)
Lemma allocate_patients_step_down physicians nt nA nB nN ns mn nsd mx a :
  allocate_patients physicians nt nA nB nN ns mn nsd mx = Ok a →
  ∃ s1,
    phase1 (snapshot step_down_patients physicians)
      (team_positions "A" physicians) (team_positions "B" physicians)
      (mkState physicians nt nA nB nN nsd) = Ok s1
    ∧ rem_step_down_patients (remaining_pools a) ≤ n_step_down_patients s1
    ∧ ∀ i p1 p, roster s1 !! i = Some p1 → final_roster a !! i = Some p →
                step_down_patients p = step_down_patients p1.
Proof.
  intros (s1 & s2 & s3 & s4 & s5 & H1 & H2 & H3 & H4 & H5 & Hfinal & Hrem)
    %allocate_patients_phases.
  exists s1. split; [done|].
  assert (known_names (snapshot total_patients physicians) (roster s1)) as Hk.
  { destruct (phase1_transfers mx ns (snapshot step_down_patients physicians)
                (team_positions "A" physicians)
                (team_positions "B" physicians)
                (mkState physicians nt nA nB nN nsd)) as (t & Ht & Hrtc).
    rewrite H1 in Ht. injection Ht as <-.
    eapply transfers_known_names; [done|]. apply snapshot_known. }
  apply phase5_trims in H5 as [Htrim Hpools]. split.
  - rewrite Hrem, Hpools. simpl.
    destruct (phase2_transfers mx mn ns ∅ s1) as (t2 & Ht2 & R2).
    destruct (phase3_transfers mx ns ∅ s2) as (t3 & Ht3 & R3).
    assert (t2 = s2) as -> by congruence.
    assert (t3 = s3) as -> by congruence.
    destruct (phase4_transfers mx ns (snapshot total_patients physicians) ∅
                (team_positions "N" physicians) s3) as (t4 & Ht4 & R4).
    { eapply (transfers_known_names mx ns _ ∅); [|done]. by etrans. }
    assert (t4 = s4) as -> by congruence.
    assert (rtc (transfer mx ns ∅) s1 s4) as R
      by (etrans; [done|]; by etrans).
    apply transfers_evolved in R. destruct R. lia.
  - intros i p1 p Hp1 Hp. rewrite Hfinal in Hp.
    destruct (phases_2_4_keep_step_down mx mn ns
                (snapshot total_patients physicians)
                (team_positions "N" physicians) s1 s2 s3 s4 i p1)
      as (p4 & Hp4 & Hsd4 & _); try done.
    destruct (Forall2_trimmed_lookup _ _ _ _ Htrim Hp)
      as (q & Hq & _ & Hsd & _).
    assert (q = p4) as -> by congruence. lia.
Qed.

Lemma unique_names_can_take physicians i p :
  NoDup (map name physicians) → physicians !! i = Some p →
  can_take_step_down (snapshot step_down_patients physicians) p = true.
Proof.
  intros Hnd Hp. unfold can_take_step_down, dict_get.
  rewrite (snapshot_unique step_down_patients physicians p Hnd);
    [|by eapply list_elem_of_lookup_2].
  simpl. apply Z.ltb_lt. lia.
Qed.

Lemma teams_disjoint physicians i :
  i ∈ team_positions "A" physicians → i ∉ team_positions "B" physicians.
Proof.
  intros (p & Hp & Ht)%holds_filter (q & Hq & Ht')%holds_filter.
  assert (q = p) as -> by congruence.
  unfold team_is in *. apply String.eqb_eq in Ht, Ht'. congruence.
Qed.

(** X19. With unique names, if step-down patients are left over when the
    call returns, every working physician of team A or team B has been
    given exactly one. *)
Theorem step_down_leftover physicians nt nA nB nN ns mn nsd mx a i p0 p :
  NoDup (map name physicians) →
  allocate_patients physicians nt nA nB nN ns mn nsd mx = Ok a →
  0 < rem_step_down_patients (remaining_pools a) →
  physicians !! i = Some p0 →
  is_working p0 = true →
  team p0 = "A" ∨ team p0 = "B" →
  final_roster a !! i = Some p →
  step_down_patients p = step_down_patients p0 + 1.
Proof.
  intros Hnd (s1 & H1 & Hpool & Hkeep)%allocate_patients_step_down
    Hleft Hp0 Hw Ht Hp.
  apply phase1_serves in H1 as (sB & HsB & HB & HA & _);
    [| apply team_positions_NoDup | apply team_positions_NoDup
     | apply teams_disjoint
     | intros k r Hr; by eapply unique_names_can_take ].
  simpl in HB, HA.
  assert (roster s1 !! i = Some (add_patient true p0)) as Hp1.
  { destruct Ht as [Ht|Ht].
    - apply HA; [by eapply team_positions_intro | done | lia].
    - apply HB; [by eapply team_positions_intro | done | lia]. }
  by rewrite (Hkeep i _ p Hp1 Hp).
Qed.

Lemma step_down_leftover_witness :
  ∃ a p0 p,
    allocate_patients ward 20 8 8 4 6 10 6 14 = Ok a
    ∧ ward !! 0%nat = Some p0
    ∧ final_roster a !! 0%nat = Some p
    ∧ step_down_patients p = step_down_patients p0 + 1.
Proof.
  eexists _, _, _.
  split; [vm_compute; reflexivity|].
  split; [reflexivity|]. split; [reflexivity|].
  eapply (step_down_leftover ward 20 8 8 4 6 10 6 14 _ 0%nat);
    [ refine (bool_decide_unpack _ _); vm_compute; exact I
    | vm_compute; reflexivity | vm_compute; reflexivity | reflexivity
    | reflexivity | left; reflexivity | reflexivity ].
Defined.

(** X20. Team B is served before team A: with unique names, if any team A
    physician ends with a different step-down count, every working team B
    physician has been given exactly one step-down patient. *)
Theorem team_B_first physicians nt nA nB nN ns mn nsd mx a j q0 q i p0 p :
  NoDup (map name physicians) →
  allocate_patients physicians nt nA nB nN ns mn nsd mx = Ok a →
  physicians !! j = Some q0 → team q0 = "A" →
  final_roster a !! j = Some q →
  step_down_patients q ≠ step_down_patients q0 →
  physicians !! i = Some p0 → is_working p0 = true → team p0 = "B" →
  final_roster a !! i = Some p →
  step_down_patients p = step_down_patients p0 + 1.
Proof.
  intros Hnd (s1 & H1 & Hpool & Hkeep)%allocate_patients_step_down
    Hq0 HtA Hq Hchanged Hp0 Hw HtB Hp.
  apply phase1_serves in H1 as (sB & HsB & HB & _ & Hidle);
    [| apply team_positions_NoDup | apply team_positions_NoDup
     | apply teams_disjoint
     | intros k r Hr; by eapply unique_names_can_take ].
  simpl in HB, Hidle.
  destruct (decide (0 < n_step_down_patients sB)) as [Hpos|Hnone].
  - rewrite (Hkeep i (add_patient true p0) p); [done | | done].
    apply HB; [by eapply team_positions_intro | done | done].
  - exfalso. apply Hchanged. apply (Hkeep j q0 q); [|done].
    rewrite Hidle; [done | lia |].
    intros (r & Hr & _ & Ht)%team_positions_elem.
    assert (r = q0) as -> by congruence. congruence.
Qed.

Lemma team_B_first_witness :
  ∃ a q0 q p0 p,
    allocate_patients ward 20 8 8 4 6 10 3 14 = Ok a
    ∧ ward !! 4%nat = Some q0 ∧ final_roster a !! 4%nat = Some q
    ∧ step_down_patients q ≠ step_down_patients q0
    ∧ ward !! 1%nat = Some p0 ∧ final_roster a !! 1%nat = Some p
    ∧ step_down_patients p = step_down_patients p0 + 1.
Proof.
  eexists _, _, _, _, _.
  split; [vm_compute; reflexivity|].
  split; [reflexivity|]. split; [reflexivity|].
  split; [vm_compute; discriminate|].
  split; [reflexivity|]. split; [reflexivity|].
  eapply (team_B_first ward 20 8 8 4 6 10 3 14 _ 4%nat _ _ 1%nat);
    [ refine (bool_decide_unpack _ _); vm_compute; exact I
    | vm_compute; reflexivity | reflexivity | reflexivity | reflexivity
    | vm_compute; discriminate | reflexivity | reflexivity | reflexivity
    | reflexivity ].
Defined.
